(** * LMS front-end: a shallow embedding of the client-side logic

    The development follows the two source files of the front-end:
    the student submission view ([AssignmentDetail]) and the lecturer
    views ([LecturerAssignmentView], [AssignmentSimilarityReport], the
    comparison workspace with [filterResults]).

    Conventions of the embedding.
    - A JavaScript string is a [string] of code units; only code units
      below 256 are representable.
    - A JavaScript number is a [number]: [NaN], the two infinities, or a
      finite value held as a rational.  Sums, quotients by an array
      length and parsed decimals are rounded to the nearest double
      ([Double.round]).  The quotient of two string lengths and its
      percentage are kept exact: they are only compared with a short
      decimal constant or rounded to a whole number, where the exact
      and the rounded value agree for all lengths below 10^15.
    - [undefined] and [null] fields are constructors of [jsval]; an
      absent string is [None].
    - An awaited backend call is a request appended to the network log
      and a reply taken from a [server] function; a rejected promise is
      the [Rejected] reply.
    - React state is a record; a handler reads the record it was called
      with and returns the record after all its setters.  The grade
      handler of the lecturer's list, which replaces the list after an
      [await] by a value computed from the list of its render, is split
      at the [await] and given that list as an argument. *)

From Stdlib Require Import QArith Qround Qminmax ZArith Lia Lqa Bool Ascii String List.
From Stdlib Require Import Permutation Sorted.
From stdpp Require Import gmap strings list fin_maps.
Import ListNotations.

Local Open Scope string_scope.
Local Open Scope list_scope.

(** ** Numbers *)

Module JS.

Inductive number : Type :=
  | NaN
  | PosInf
  | NegInf
  | Num (q : Q).

(** [a < b] of two numbers; any comparison with [NaN] is false. *)
Definition numLt (a b : number) : bool :=
  match a, b with
  | NaN, _ | _, NaN => false
  | PosInf, _ => false
  | _, NegInf => false
  | NegInf, _ => true
  | _, PosInf => true
  | Num x, Num y => match (x ?= y)%Q with Lt => true | _ => false end
  end.

Definition numGt (a b : number) : bool := numLt b a.

(** [a >= b]: in JavaScript the negation of [a < b] unless an operand
    is [NaN]. *)
Definition numGe (a b : number) : bool :=
  match a, b with
  | NaN, _ | _, NaN => false
  | _, _ => negb (numLt a b)
  end.

Definition isNaN (a : number) : bool :=
  match a with NaN => true | _ => false end.

(** A number is falsy when it is [NaN] or zero. *)
Definition numTruthy (a : number) : bool :=
  match a with
  | NaN => false
  | Num q => negb (Qeq_bool q 0)
  | _ => true
  end.

(** Equality of numbers as values: finite numbers are equal when the
    rationals are. *)
Definition numEq (a b : number) : Prop :=
  match a, b with
  | Num x, Num y => (x == y)%Q
  | NaN, NaN | PosInf, PosInf | NegInf, NegInf => True
  | _, _ => False
  end.

(** [m / n] for two array or string lengths. *)
Definition divLengths (m n : nat) : number :=
  match n with
  | O => match m with O => NaN | _ => PosInf end
  | _ => Num (Z.of_nat m # Pos.of_nat n)
  end.

(** [x * 100] and [Math.round], which rounds halves upwards. *)
Definition times100 (a : number) : number :=
  match a with
  | Num q => Num (q * 100)
  | other => other
  end.

Definition mathRound (a : number) : number :=
  match a with
  | Num q => Num (inject_Z (Qfloor (q + (1 # 2))))
  | other => other
  end.

(** Values of a response or record field that holds a score. *)
Inductive jsval : Type :=
  | Undefined
  | Null
  | Number (n : number).

Definition truthy (v : jsval) : bool :=
  match v with
  | Number n => numTruthy n
  | _ => false
  end.

(** [ToNumber]: [undefined] becomes [NaN], [null] becomes [0]. *)
Definition toNumber (v : jsval) : number :=
  match v with
  | Undefined => NaN
  | Null => Num 0
  | Number n => n
  end.

(** [a || b]. *)
Definition or (a b : jsval) : jsval := if truthy a then a else b.

(** A string is falsy when it is absent or empty. *)
Definition strTruthy (s : option string) : bool :=
  match s with
  | Some s => negb (String.eqb s "")
  | None => false
  end.

(** [a || b] on strings with a string default. *)
Definition strOr (a : option string) (b : string) : string :=
  match a with
  | Some s => if String.eqb s "" then b else s
  | None => b
  end.

(** White space and line terminators among the code units below 256:
    the class [\s] of a regular expression and the characters
    [parseInt] skips. *)
Definition isWhiteSpace (c : ascii) : bool :=
  let n := nat_of_ascii c in
  ((9 <=? n) && (n <=? 13) || (n =? 32) || (n =? 160))%nat.

End JS.

Export JS.

(** ** Rounding to a double

    Where a handler adds or divides numbers that need not be whole, or
    reads a decimal text of any length, the result is the exact value
    rounded to the nearest binary64 number, ties to even: 53 bits of
    precision, exponents of the last place from -1074 to 971, and an
    infinity from magnitude [2^1024 - 2^970] on.  The sign of zero is
    not kept. *)

Module Double.

(** The integer part of the binary logarithm of [n/d]. *)
Definition floorLog2 (n d : positive) : Z :=
  let k := (Z.log2 (Z.pos n) - Z.log2 (Z.pos d))%Z in
  if (Z.pos n * 2 ^ Z.max 0 (- k) <? Z.pos d * 2 ^ Z.max 0 k)%Z
  then (k - 1)%Z else k.

(** The integer nearest to [N/D], the even one of two that are equally
    near. *)
Definition roundHalfEven (N D : Z) : Z :=
  let fl := (N / D)%Z in
  match (2 * (N mod D) ?= D)%Z with
  | Lt => fl
  | Gt => (fl + 1)%Z
  | Eq => if Z.even fl then fl else (fl + 1)%Z
  end.

(** [n/d] rounded: [e] is the exponent of the last place and [m] the
    significand, so the result is [m * 2^e]. *)
Definition roundPos (n d : positive) : number :=
  let e := Z.max (floorLog2 n d - 52) (-1074) in
  let m := roundHalfEven (Z.pos n * 2 ^ Z.max 0 (- e))
                         (Z.pos d * 2 ^ Z.max 0 e) in
  if (2 ^ 1024 * 2 ^ Z.max 0 (- e) <=? m * 2 ^ Z.max 0 e)%Z then PosInf
  else Num (Qred (Qmake (m * 2 ^ Z.max 0 e) (Z.to_pos (2 ^ Z.max 0 (- e))))).

Definition round (q : Q) : number :=
  match Qnum (Qred q) with
  | Z0 => Num 0
  | Zpos n => roundPos n (Qden (Qred q))
  | Zneg n =>
      match roundPos n (Qden (Qred q)) with
      | Num r => Num (- r)
      | PosInf => NegInf
      | other => other
      end
  end.

End Double.

(** ** The similarity report: local fallback matcher *)

Module Report.

(** [calculateStringSimilarity]: the counting loop
    [for (i = 0; i < shorter.length; i++) if (shorter[i] === longer[i]) matches++]. *)
Definition countMatches (shorter longer : string) : nat :=
  fold_left
    (fun matches i =>
       if decide (String.get i shorter = String.get i longer)
       then S matches else matches)
    (seq 0 (String.length shorter)) 0%nat.

Definition calculateStringSimilarity (str1 str2 : option string) : number :=
  if negb (strTruthy str1) || negb (strTruthy str2) then Num 0
  else
    match str1, str2 with
    | Some s1, Some s2 =>
        if String.eqb s1 s2 then Num 1
        else
          let longer :=
            if (String.length s2 <? String.length s1)%nat then s1 else s2 in
          let shorter :=
            if (String.length s2 <? String.length s1)%nat then s2 else s1 in
          let matches := countMatches shorter longer in
          divLengths matches (String.length longer)
    | _, _ => Num 0
    end.

(** [text.split(/(?<=[.!?])\s+/)].  A separator is a maximal run of
    white space whose preceding code unit is one of [. ! ?]; the run is
    dropped and the text between separators is kept, empty strings
    included. *)
Definition isTerminator (c : ascii) : bool :=
  (Ascii.eqb c "." || Ascii.eqb c "!" || Ascii.eqb c "?")%char.

Fixpoint splitFrom (inSeparator prevTerminator : bool) (acc s : string)
  : list string :=
  match s with
  | EmptyString => [acc]
  | String c s' =>
      if inSeparator && isWhiteSpace c then
        splitFrom true false acc s'
      else if prevTerminator && isWhiteSpace c then
        acc :: splitFrom true false "" s'
      else
        splitFrom false (isTerminator c) (acc +:+ String c "") s'
  end.

Definition splitSentences (text : string) : list string :=
  splitFrom false false "" text.

Record SimilarSegment : Type := mkSimilarSegment {
  text1 : string;
  text2 : string;
  text1Index : nat;
  text2Index : nat;
  similarity : number
}.

Record TextSegment : Type := mkTextSegment {
  text : string;
  isMatch : bool;
  percentage : number
}.

(** [Array.prototype.sort] with the comparator [(a, b) => key a - key b]:
    a stable sort on the key. *)
Fixpoint insertByKey {A} (key : A -> nat) (x : A) (l : list A) : list A :=
  match l with
  | [] => [x]
  | y :: l' =>
      if (key x <=? key y)%nat then x :: y :: l'
      else y :: insertByKey key x l'
  end.

Definition sortByKey {A} (key : A -> nat) (l : list A) : list A :=
  fold_right (insertByKey key) [] l.

(** The two nested [forEach] loops that collect the pairs above the
    threshold, in the order they are pushed. *)
Definition threshold : number := Num (7 # 10).

Definition collectSimilar (segments1 segments2 : list string)
  : list SimilarSegment :=
  concat (imap (fun i seg1 =>
    concat (imap (fun j seg2 =>
      let sim := calculateStringSimilarity (Some seg1) (Some seg2) in
      if numGt sim threshold then
        [ {| text1 := seg1; text2 := seg2;
             text1Index := i; text2Index := j;
             similarity := mathRound (times100 sim) |} ]
      else []) segments2)) segments1).

(** [processAndHighlightContent]; the result is the argument of
    [setSimilarTexts], first the [text1] list and then the [text2] list.
    With string arguments nothing in the [try] block throws, so the
    [catch] branch is not reachable. *)
Definition processAndHighlightContent
    (t1 t2 : string) (similarityScore : number)
  : list TextSegment * list TextSegment :=
  let segments1 := splitSentences t1 in
  let segments2 := splitSentences t2 in
  let similarSegments := collectSimilar segments1 segments2 in
  let '(text1Segments, text2Segments) :=
    match similarSegments with
    | [] => ([], [])
    | _ =>
        (map (fun m => {| text := text1 m; isMatch := true;
                          percentage := similarity m |})
             (sortByKey text1Index similarSegments),
         map (fun m => {| text := text2 m; isMatch := true;
                          percentage := similarity m |})
             (sortByKey text2Index similarSegments))
    end in
  if (length text1Segments =? 0)%nat && (length text2Segments =? 0)%nat
     && numGt similarityScore (Num 0)
  then
    (text1Segments ++ [ {| text := t1; isMatch := true;
                           percentage := similarityScore |} ],
     text2Segments ++ [ {| text := t2; isMatch := true;
                           percentage := similarityScore |} ])
  else (text1Segments, text2Segments).

End Report.

(** ** Backend calls and browser storage *)

Module Net.

(** The submission record the backend returns on submit and the view
    keeps in [submissionData] and in local storage. *)
Record SubmissionData : Type := mkSubmissionData {
  submission_id : option Z;
  student_name : option string;
  file_name : option string;
  submitted_at : option string;
  sd_web_similarity_score : jsval;
  sd_report_url : option string;
  sd_report_filename : option string
}.

(** [response.data] of a resolved call, with the fields the views
    read. *)
Record Response : Type := mkResponse {
  status : option string;
  message : option string;
  data : option SubmissionData;
  web_similarity_score : jsval;
  similarity_score : jsval;
  analysis_summary : option string;
  report_url : option string
}.

(** The calls the modelled handlers issue. *)
Inductive request : Type :=
  | SubmitAssignment (assignmentId : string) (form : list (string * string))
  | WebSimilarity (submissionId : Z)
  | DeleteSubmission (submissionId : Z)
  | DeleteWebReport (filename : string)
  | GradeSubmission (submissionId : option Z) (grade : number)
                    (feedback : string).

(** The settled promise: resolved with [response.data], or rejected
    with [err.response?.data?.message]. *)
Inductive reply : Type :=
  | Resolved (r : Response)
  | Rejected (errMessage : option string).

Definition server : Type := request -> reply.

(** A value kept in [localStorage]: a plain string or the JSON text of
    a submission record. *)
Inductive stored : Type :=
  | Raw (s : string)
  | Json (d : SubmissionData).

End Net.

Export Net.

(** ** The student submission view *)

Module Student.

Record State : Type := mkState {
  userId : option string;
  name : string;
  file : option string;
  submitted : bool;
  loading : bool;
  checkingWebSimilarity : bool;
  error : string;
  openDialog : bool;
  snackbarOpen : bool;
  similarityScore : jsval;
  submissionData : option SubmissionData;
  reportUrl : option string;
  reportFilename : option string
}.

Record World : Type := mkWorld {
  state : State;
  localStorage : gmap string stored;
  network : list request
}.

(** Handlers are state transformers over the world. *)
Definition Act (A : Type) : Type := World -> A * World.

Definition ret {A} (a : A) : Act A := fun w => (a, w).

Definition bind {A B} (m : Act A) (k : A -> Act B) : Act B :=
  fun w => let '(a, w') := m w in k a w'.

Notation "'let!' x := m 'in' k" := (bind m (fun x => k))
  (at level 10, x name, m at level 100, k at level 200, only parsing).
Notation "m >> k" := (bind m (fun _ => k))
  (at level 100, k at level 200, right associativity, only parsing).

Definition modify (f : State -> State) : Act unit :=
  fun w => (tt, {| state := f (state w);
                   localStorage := localStorage w;
                   network := network w |}).

Definition setName (v : string) : Act unit :=
  modify (fun s => mkState (userId s) v (file s) (submitted s) (loading s)
    (checkingWebSimilarity s) (error s) (openDialog s) (snackbarOpen s)
    (similarityScore s) (submissionData s) (reportUrl s) (reportFilename s)).

Definition setFile (v : option string) : Act unit :=
  modify (fun s => mkState (userId s) (name s) v (submitted s) (loading s)
    (checkingWebSimilarity s) (error s) (openDialog s) (snackbarOpen s)
    (similarityScore s) (submissionData s) (reportUrl s) (reportFilename s)).

Definition setSubmitted (v : bool) : Act unit :=
  modify (fun s => mkState (userId s) (name s) (file s) v (loading s)
    (checkingWebSimilarity s) (error s) (openDialog s) (snackbarOpen s)
    (similarityScore s) (submissionData s) (reportUrl s) (reportFilename s)).

Definition setLoading (v : bool) : Act unit :=
  modify (fun s => mkState (userId s) (name s) (file s) (submitted s) v
    (checkingWebSimilarity s) (error s) (openDialog s) (snackbarOpen s)
    (similarityScore s) (submissionData s) (reportUrl s) (reportFilename s)).

Definition setCheckingWebSimilarity (v : bool) : Act unit :=
  modify (fun s => mkState (userId s) (name s) (file s) (submitted s)
    (loading s) v (error s) (openDialog s) (snackbarOpen s)
    (similarityScore s) (submissionData s) (reportUrl s) (reportFilename s)).

Definition setError (v : string) : Act unit :=
  modify (fun s => mkState (userId s) (name s) (file s) (submitted s)
    (loading s) (checkingWebSimilarity s) v (openDialog s) (snackbarOpen s)
    (similarityScore s) (submissionData s) (reportUrl s) (reportFilename s)).

Definition setOpenDialog (v : bool) : Act unit :=
  modify (fun s => mkState (userId s) (name s) (file s) (submitted s)
    (loading s) (checkingWebSimilarity s) (error s) v (snackbarOpen s)
    (similarityScore s) (submissionData s) (reportUrl s) (reportFilename s)).

Definition setSnackbarOpen (v : bool) : Act unit :=
  modify (fun s => mkState (userId s) (name s) (file s) (submitted s)
    (loading s) (checkingWebSimilarity s) (error s) (openDialog s) v
    (similarityScore s) (submissionData s) (reportUrl s) (reportFilename s)).

Definition setSimilarityScore (v : jsval) : Act unit :=
  modify (fun s => mkState (userId s) (name s) (file s) (submitted s)
    (loading s) (checkingWebSimilarity s) (error s) (openDialog s)
    (snackbarOpen s) v (submissionData s) (reportUrl s) (reportFilename s)).

Definition setSubmissionData (v : option SubmissionData) : Act unit :=
  modify (fun s => mkState (userId s) (name s) (file s) (submitted s)
    (loading s) (checkingWebSimilarity s) (error s) (openDialog s)
    (snackbarOpen s) (similarityScore s) v (reportUrl s) (reportFilename s)).

Definition setReportUrl (v : option string) : Act unit :=
  modify (fun s => mkState (userId s) (name s) (file s) (submitted s)
    (loading s) (checkingWebSimilarity s) (error s) (openDialog s)
    (snackbarOpen s) (similarityScore s) (submissionData s) v
    (reportFilename s)).

Definition setReportFilename (v : option string) : Act unit :=
  modify (fun s => mkState (userId s) (name s) (file s) (submitted s)
    (loading s) (checkingWebSimilarity s) (error s) (openDialog s)
    (snackbarOpen s) (similarityScore s) (submissionData s) (reportUrl s) v).

Definition removeItem (key : string) : Act unit :=
  fun w => (tt, {| state := state w;
                   localStorage := delete key (localStorage w);
                   network := network w |}).

Definition setItem (key : string) (v : stored) : Act unit :=
  fun w => (tt, {| state := state w;
                   localStorage := <[key := v]> (localStorage w);
                   network := network w |}).

(** [await axios.<method>(...)]: the request is recorded and the
    backend's reply returned. *)
Definition axios (srv : server) (rq : request) : Act reply :=
  fun w => (srv rq, {| state := state w;
                       localStorage := localStorage w;
                       network := network w ++ [rq] |}).

Definition statusKey (id : string) : string := "assignment_" +:+ id +:+ "_status".
Definition dataKey (id : string) : string := "assignment_" +:+ id +:+ "_data".

Definition isSuccess (r : Response) : bool :=
  match status r with
  | Some s => String.eqb s "success"
  | None => false
  end.

(** [submissionData && submissionData.submission_id] as the id when it
    is truthy. *)
Definition truthyId (d : option SubmissionData) : option Z :=
  match d with
  | Some sd =>
      match submission_id sd with
      | Some n => if (n =? 0)%Z then None else Some n
      | None => None
      end
  | None => None
  end.

Definition notNull (v : jsval) : bool :=
  match v with Null => false | _ => true end.

Definition notUndefined (v : jsval) : bool :=
  match v with Undefined => false | _ => true end.

(** *** The score pattern [/Calculated similarity: (\d+\.\d+)%/] *)

Definition isDigit (c : ascii) : bool :=
  let n := nat_of_ascii c in ((48 <=? n) && (n <=? 57))%nat.

Fixpoint stripPrefix (lit s : string) : option string :=
  match lit, s with
  | EmptyString, _ => Some s
  | String a lit', String b s' =>
      if Ascii.eqb a b then stripPrefix lit' s' else None
  | String _ _, EmptyString => None
  end.

(** The longest run of digits at the head of [s], and the rest. *)
Fixpoint spanDigits (s : string) : string * string :=
  match s with
  | String c s' =>
      if isDigit c then
        let '(d, r) := spanDigits s' in (String c d, r)
      else (EmptyString, s)
  | EmptyString => (EmptyString, EmptyString)
  end.

Definition scoreLiteral : string := "Calculated similarity: ".

Definition expectChar (c : ascii) (s : string) : option string :=
  match s with
  | String b s' => if Ascii.eqb b c then Some s' else None
  | EmptyString => None
  end.

Definition nonEmpty (s : string) : bool := negb (String.eqb s "").

(** A match of the pattern that starts at the head of [s]; the result
    is capture group 1.  Both [\d+] are greedy, and giving back a digit
    never helps because the next pattern character is not a digit. *)
Definition matchHere (s : string) : option string :=
  match stripPrefix scoreLiteral s with
  | Some r =>
      let '(d1, r1) := spanDigits r in
      if nonEmpty d1 then
        match expectChar "." r1 with
        | Some r2 =>
            let '(d2, r3) := spanDigits r2 in
            if nonEmpty d2 then
              match expectChar "%" r3 with
              | Some _ => Some (d1 +:+ "." +:+ d2)
              | None => None
              end
            else None
        | None => None
        end
      else None
  | None => None
  end.

(** [text.match(pattern)]: the leftmost match wins. *)
Fixpoint matchPattern (s : string) : option string :=
  match matchHere s with
  | Some capture => Some capture
  | None =>
      match s with
      | String _ s' => matchPattern s'
      | EmptyString => None
      end
  end.

Definition digitValue (c : ascii) : Z := Z.of_nat (nat_of_ascii c) - 48.

Fixpoint digitsValueFrom (acc : Z) (s : string) : Z :=
  match s with
  | String c s' => digitsValueFrom (acc * 10 + digitValue c) s'
  | EmptyString => acc
  end.

(** [parseFloat] on unsigned decimal text without exponent, which is
    all that capture group 1 can hold: the double nearest to the
    decimal, an infinity when the decimal is too large for a double.
    Every digit is read, as the engines do; the language also allows
    an engine to replace the digits after the twentieth by zeros. *)
Definition parseFloat (s : string) : number :=
  let '(ip, r) := spanDigits s in
  match expectChar "." r with
  | Some r' =>
      let '(fp, _) := spanDigits r' in
      if nonEmpty ip || nonEmpty fp then
        Double.round (digitsValueFrom 0 (ip +:+ fp)
                      # Z.to_pos (10 ^ Z.of_nat (String.length fp)))
      else NaN
  | None =>
      if nonEmpty ip then Double.round (inject_Z (digitsValueFrom 0 ip))
      else NaN
  end.

(** [url.split('/').pop()]: the text after the last slash. *)
Fixpoint lastSegmentFrom (acc s : string) : string :=
  match s with
  | String c s' =>
      if Ascii.eqb c "/" then lastSegmentFrom "" s'
      else lastSegmentFrom (acc +:+ String c "") s'
  | EmptyString => acc
  end.

Definition lastSegment (s : string) : string := lastSegmentFrom "" s.

(** *** [handleCheckWebSimilarity] *)

(** The three places the score is looked for, lines 90 to 104. *)
Definition resolveScore (r : Response) : jsval :=
  if notUndefined (web_similarity_score r) then web_similarity_score r
  else if notUndefined (similarity_score r) then similarity_score r
  else
    match analysis_summary r with
    | Some summary =>
        if String.eqb summary "" then Null
        else
          match matchPattern summary with
          | Some capture => Number (parseFloat capture)
          | None => Null
          end
    | None => Null
    end.

Definition truthyString (s : option string) : option string :=
  match s with
  | Some u => if String.eqb u "" then None else Some u
  | None => None
  end.

Definition origin : string := "http://127.0.0.1:8000".

Definition handleCheckWebSimilarity (id : string) (srv : server) : Act unit :=
  fun w0 =>
  let s0 := state w0 in
  (if negb (submitted s0) then
     setError
       "Please submit your assignment first before checking web similarity."
   else
     match truthyId (submissionData s0) with
     | None =>
         setError "Submission data is incomplete. Please try submitting again."
     | Some sid =>
         if notNull (similarityScore s0) && strTruthy (reportUrl s0) then
           setSnackbarOpen true
         else
           setCheckingWebSimilarity true >>
           setError "" >>
           let! response := axios srv (WebSimilarity sid) in
           (match response with
                | Resolved r =>
                    if isSuccess r then
                      let score := resolveScore r in
                      (if notNull score then
                             if negb (isNaN (toNumber score)) then
                               setSimilarityScore score >>
                               setSnackbarOpen true >>
                               match submissionData s0 with
                               | Some sd =>
                                   let updatedData :=
                                     {| submission_id := submission_id sd;
                                        student_name := student_name sd;
                                        file_name := file_name sd;
                                        submitted_at := submitted_at sd;
                                        sd_web_similarity_score := score;
                                        sd_report_url :=
                                          truthyString (report_url r);
                                        sd_report_filename :=
                                          option_map lastSegment
                                            (truthyString (report_url r)) |} in
                                   setItem (dataKey id) (Json updatedData) >>
                                   setSubmissionData (Some updatedData)
                               | None => ret tt
                               end
                             else ret tt
                           else
                             setError
                               "Could not determine similarity score from the response") >>
                      match truthyString (report_url r) with
                      | Some url =>
                          setReportUrl (Some (origin +:+ url)) >>
                          setReportFilename (Some (lastSegment url))
                      | None => ret tt
                      end
                    else
                      setError
                        (strOr (message r)
                           "An error occurred during web similarity check.")
                | Rejected m =>
                    setError
                      (strOr m
                         "Failed to check web similarity. Please try again.")
                end) >>
           setCheckingWebSimilarity false
     end) w0.

(** *** [handleSubmit] *)

Definition handleSubmit (id : string) (srv : server) : Act unit :=
  fun w0 =>
  let s0 := state w0 in
  (if String.eqb (name s0) "" then setError "Please enter your name."
   else
     match file s0 with
     | None => setError "Please upload a file before submitting."
     | Some f =>
         setLoading true >>
         setError "" >>
         let formData :=
           [("name", name s0); ("file", f); ("assignment_id", id)]
           ++ match truthyString (userId s0) with
              | Some uid => [("student_id", uid)]
              | None => []
              end in
         let! response := axios srv (SubmitAssignment id formData) in
         (match response with
              | Resolved r =>
                  if isSuccess r then
                    setItem (statusKey id) (Raw "submitted") >>
                    (match data r with
                         | Some d =>
                             setItem (dataKey id) (Json d) >>
                             setSubmissionData (Some d) >>
                             setSimilarityScore Null
                         | None => ret tt
                         end) >>
                    setSubmitted true >>
                    setSnackbarOpen true
                  else
                    setError
                      (strOr (message r) "An error occurred during submission.")
              | Rejected m =>
                  setError
                    (strOr m
                       "An error occurred while submitting your assignment. Please try again.")
              end) >>
         setLoading false
     end) w0.

(** *** [handleRemove] *)

(** The cleanup block the handler writes out in three of its
    branches. *)
Definition clearLocalState (id : string) : Act unit :=
  removeItem (statusKey id) >>
  removeItem (dataKey id) >>
  setSubmitted false >>
  setSubmissionData None >>
  setSimilarityScore Null >>
  setReportUrl None >>
  setReportFilename None >>
  setFile None >>
  setName "".

Definition handleRemove (id : string) (srv : server) : Act unit :=
  fun w0 =>
  let s0 := state w0 in
  (setOpenDialog false >>
   match truthyId (submissionData s0) with
   | Some sid =>
       setLoading true >>
       setError "" >>
       let! response := axios srv (DeleteSubmission sid) in
       (match response with
            | Resolved r =>
                if isSuccess r then
                  (match truthyString (reportFilename s0) with
                       | Some fn =>
                           (* a rejected report delete is caught and
                              logged; both outcomes continue *)
                           axios srv (DeleteWebReport fn) >> ret tt
                       | None => ret tt
                       end) >>
                  clearLocalState id >>
                  setSnackbarOpen true
                else
                  setError
                    (strOr (message r)
                       "Failed to remove submission. Please try again.")
            | Rejected m =>
                setError
                  (strOr m
                     "An error occurred while removing your submission. Please try again.") >>
                clearLocalState id
            end) >>
       setLoading false
   | None => clearLocalState id
   end) w0.

End Student.

(** ** The lecturer's submission list and grading *)

Module Lecturer.

Record Submission : Type := mkSubmission {
  id : option Z;
  student_name : option string;
  submitted_at : option string;
  file : option string;
  web_similarity_score : jsval;
  grade : jsval;
  feedback : option string;
  status : option string
}.

Record View : Type := mkView {
  submissions : list Submission;
  network : list request;
  alerts : list string
}.

(** [{ ...sub, grade, feedback, status: 'graded' }]. *)
Definition patch (grade0 : number) (feedback0 : string) (sub : Submission)
  : Submission :=
  {| id := id sub;
     student_name := student_name sub;
     submitted_at := submitted_at sub;
     file := file sub;
     web_similarity_score := web_similarity_score sub;
     grade := Number grade0;
     feedback := Some feedback0;
     status := Some "graded" |}.

(** [handleGradeSubmission] up to its [await], lines 194 to 198: the
    call is issued. *)
Definition gradeCall (submissionId : option Z) (grade0 : number)
    (feedback0 : string) (v : View) : View :=
  {| submissions := submissions v;
     network := network v ++ [GradeSubmission submissionId grade0 feedback0];
     alerts := alerts v |}.

(** [handleGradeSubmission] after its [await], lines 200 to 209, run
    when the call has settled with [answer] in the view [v] of that
    time.  [submissions0] is the [submissions] of the render in which
    the handler was created: the [map] of line 201 goes over that list,
    not over the state current when the call settles, and its result
    replaces the state. *)
Definition gradeSettled (submissions0 : list Submission) (answer : reply)
    (submissionId : option Z) (grade0 : number) (feedback0 : string)
    (v : View) : View :=
  match answer with
  | Resolved _ =>
      {| submissions :=
           map (fun sub =>
                  if decide (id sub = submissionId)
                  then patch grade0 feedback0 sub
                  else sub)
               submissions0;
         network := network v;
         alerts := alerts v |}
  | Rejected _ =>
      {| submissions := submissions v;
         network := network v;
         alerts := alerts v
                   ++ ["Failed to grade submission. Please try again."] |}
  end.

(** [handleGradeSubmission] when its call settles before anything else
    happens in the view. *)
Definition handleGradeSubmission (submissions0 : list Submission)
    (srv : server) (submissionId : option Z)
    (grade0 : number) (feedback0 : string) (v : View) : View :=
  gradeSettled submissions0
    (srv (GradeSubmission submissionId grade0 feedback0))
    submissionId grade0 feedback0
    (gradeCall submissionId grade0 feedback0 v).

(** *** [parseInt] with no radix argument *)

Fixpoint trimStart (s : string) : string :=
  match s with
  | String c s' => if isWhiteSpace c then trimStart s' else s
  | EmptyString => EmptyString
  end.

(** The value of a digit in radix 10 or 16, when it is one. *)
Definition radixDigit (radix : Z) (c : ascii) : option Z :=
  let n := Z.of_nat (nat_of_ascii c) in
  if (48 <=? n)%Z && (n <=? 57)%Z then Some (n - 48)%Z
  else if (radix =? 16)%Z && (97 <=? n)%Z && (n <=? 102)%Z then Some (n - 87)%Z
  else if (radix =? 16)%Z && (65 <=? n)%Z && (n <=? 70)%Z then Some (n - 55)%Z
  else None.

(** The digits at the head of [s] read in the radix: [None] when there
    is none, else the integer they spell. *)
Fixpoint readDigits (radix : Z) (acc : option Z) (s : string) : option Z :=
  match s with
  | String c s' =>
      match radixDigit radix c with
      | Some d =>
          readDigits radix
            (Some (match acc with Some a => a * radix + d | None => d end)%Z)
            s'
      | None => acc
      end
  | EmptyString => acc
  end.

Definition startsWith (c : ascii) (s : string) : bool :=
  match s with
  | String b _ => Ascii.eqb b c
  | EmptyString => false
  end.

Definition tail (s : string) : string :=
  match s with
  | String _ s' => s'
  | EmptyString => EmptyString
  end.

Definition parseInt (input : string) : number :=
  let s := trimStart input in
  let sign := if startsWith "-" s then (-1)%Z else 1%Z in
  let s1 := if startsWith "-" s || startsWith "+" s then tail s else s in
  let hex :=
    startsWith "0" s1 && (startsWith "x" (tail s1) || startsWith "X" (tail s1)) in
  let radix := if hex then 16%Z else 10%Z in
  let s2 := if hex then tail (tail s1) else s1 in
  match readDigits radix None s2 with
  | Some mathInt => Num (inject_Z (sign * mathInt))
  | None => NaN
  end.

(** *** The grade button's [onClick]

    [gradePrompt] and [feedbackPrompt] are what the two [prompt] calls
    return; [None] is a cancelled prompt.  [submissions0] is the list
    of the render the button belongs to. *)
Definition validationMessage : string :=
  "Please enter a valid grade between 0 and 100".

Definition gradeClick (submissions0 : list Submission) (srv : server)
    (submission : Submission)
    (gradePrompt feedbackPrompt : option string) (v : View) : View :=
  match gradePrompt with
  | None => v
  | Some grade0 =>
      match feedbackPrompt with
      | None => v
      | Some feedback0 =>
          let numericGrade := parseInt grade0 in
          if isNaN numericGrade
             || numLt numericGrade (Num 0)
             || numGt numericGrade (Num 100)
          then
            {| submissions := submissions v;
               network := network v;
               alerts := alerts v ++ [validationMessage] |}
          else
            handleGradeSubmission submissions0 srv (id submission)
              numericGrade feedback0 v
      end
  end.

End Lecturer.

(** ** The comparison workspace: threshold filter *)

Module Workspace.

Record ComparisonResult : Type := mkComparisonResult {
  submission_id : option Z;
  student_name : option string;
  assignment_title : option string;
  web_similarity_score : jsval;
  similarity_score : jsval;
  similarity : jsval;
  report_url : option string
}.

(** [result.web_similarity_score || result.similarity_score ||
    result.similarity || 0]. *)
Definition similarityScoreOf (result : ComparisonResult) : jsval :=
  JS.or (JS.or (JS.or (web_similarity_score result) (similarity_score result))
               (similarity result))
        (Number (Num 0)).

(** [filterResults]; [threshold] is the slider state and [results] is
    [None] for a null list. *)
Definition filterResults (threshold : number)
    (results : option (list ComparisonResult)) : list ComparisonResult :=
  match results with
  | None => []
  | Some rs =>
      List.filter
        (fun result => numGe (toNumber (similarityScoreOf result)) threshold)
        rs
  end.

End Workspace.

(** ** Sample data

    Assignment 7 with submission 55, as in the scenario of the
    specification, and a few backends. *)

Module Examples.

Import Student.

Definition submission55 : SubmissionData :=
  {| submission_id := Some 55%Z;
     student_name := Some "Alice";
     file_name := Some "essay.txt";
     submitted_at := Some "2024-05-01T10:00:00Z";
     sd_web_similarity_score := Undefined;
     sd_report_url := None;
     sd_report_filename := None |}.

Definition bareResponse (st : string) : Response :=
  {| status := Some st;
     message := None;
     data := None;
     Net.web_similarity_score := Undefined;
     Net.similarity_score := Undefined;
     analysis_summary := None;
     Net.report_url := None |}.

(** The view after mount with nothing stored. *)
Definition freshState : State :=
  {| userId := None; name := ""; file := None; submitted := false;
     loading := false; checkingWebSimilarity := false; error := "";
     openDialog := false; snackbarOpen := false; similarityScore := Null;
     submissionData := None; reportUrl := None; reportFilename := None |}.

Definition freshWorld : World :=
  {| state := freshState; localStorage := ∅; network := [] |}.

(** The view after assignment 7 was submitted as submission 55. *)
Definition submittedState : State :=
  {| userId := None; name := "Alice"; file := Some "essay.txt";
     submitted := true;
     loading := false; checkingWebSimilarity := false; error := "";
     openDialog := true; snackbarOpen := false; similarityScore := Null;
     submissionData := Some submission55;
     reportUrl := None; reportFilename := None |}.

Definition submittedWorld : World :=
  {| state := submittedState;
     localStorage :=
       <[statusKey "7" := Raw "submitted"]>
         (<[dataKey "7" := Json submission55]> ∅);
     network := [] |}.

(** A backend that answers every call with status ["error"]. *)
Definition refusingServer : server :=
  fun _ =>
    Resolved {| status := Some "error";
                message := Some "Submission is locked";
                data := None;
                Net.web_similarity_score := Undefined;
                Net.similarity_score := Undefined;
                analysis_summary := None;
                Net.report_url := None |}.

(** A backend whose calls all reject. *)
Definition unreachableServer : server := fun _ => Rejected None.

(** A backend that answers with status ["success"] and nothing else. *)
Definition agreeingServer : server := fun _ => Resolved (bareResponse "success").

(** A backend whose web-similarity answer carries a score and no
    report. *)
Definition scoreOnlyServer : server :=
  fun _ =>
    Resolved {| status := Some "success";
                message := None;
                data := None;
                Net.web_similarity_score := Number (Num 42);
                Net.similarity_score := Undefined;
                analysis_summary := None;
                Net.report_url := None |}.

(** A backend whose web-similarity answer carries the score only in
    its summary text. *)
Definition summaryResponse : Response :=
  {| status := Some "success";
     message := None;
     data := None;
     Net.web_similarity_score := Undefined;
     Net.similarity_score := Undefined;
     analysis_summary :=
       Some ("Checked 12 sources. "
             +:+ "Calculated similarity: 42.5%" +:+ " of the text matched.");
     Net.report_url := Some "/reports/55.pdf" |}.

Definition summaryServer : server := fun _ => Resolved summaryResponse.

(** An answer whose summary names an earlier percentage before the one
    of the scenario. *)
Definition twoPercentages : Response :=
  {| status := Some "success";
     message := None;
     data := None;
     Net.web_similarity_score := Undefined;
     Net.similarity_score := Undefined;
     analysis_summary :=
       Some ("Calculated similarity: 10.0% before, "
             +:+ "Calculated similarity: 42.5%" +:+ " after filtering.");
     Net.report_url := None |}.

(** The view with a score and a report already loaded. *)
Definition cachedState : State :=
  {| userId := None; name := "Alice"; file := Some "essay.txt";
     submitted := true;
     loading := false; checkingWebSimilarity := false; error := "";
     openDialog := false; snackbarOpen := false;
     similarityScore := Number (Num 81);
     submissionData := Some submission55;
     reportUrl := Some "http://127.0.0.1:8000/reports/55.pdf";
     reportFilename := Some "55.pdf" |}.

Definition cachedWorld : World :=
  {| state := cachedState; localStorage := ∅; network := [] |}.

End Examples.

Module LecturerExamples.

Import Lecturer.

Definition pending (n : Z) (who : string) : Submission :=
  {| id := Some n; student_name := Some who;
     submitted_at := Some "2024-05-01T10:00:00Z";
     file := Some "/media/essay.txt";
     web_similarity_score := Undefined;
     grade := Undefined; feedback := None; status := Some "submitted" |}.

Definition classView : View :=
  {| submissions := [pending 1 "Alice"; pending 2 "Bob"; pending 3 "Carol"];
     network := []; alerts := [] |}.

End LecturerExamples.

Module WorkspaceExamples.

Import Workspace.

(** A row that carries two of the three score fields. *)
Definition twoScores : ComparisonResult :=
  {| submission_id := Some 55%Z; student_name := Some "Alice";
     assignment_title := None;
     web_similarity_score := Number (Num 10);
     similarity_score := Number (Num 90);
     similarity := Undefined;
     report_url := None |}.

(** A row of the web-results table. *)
Definition webRow : ComparisonResult :=
  {| submission_id := Some 55%Z; student_name := Some "Alice";
     assignment_title := None;
     web_similarity_score := Number (Num 81);
     similarity_score := Undefined;
     similarity := Undefined;
     report_url := Some "/reports/55.pdf" |}.

End WorkspaceExamples.

(** ** Specification-side notions

    What the specification's sentences speak of, written down
    independently of the handlers, for comparison with the code. *)

Module Claimed.

(** The grade condition read on the number the lecturer typed:
    [g < 0], [g > 100] or not a number. *)
Definition gradeRejected (g : number) : bool :=
  isNaN g || numLt g (Num 0) || numGt g (Num 100).

(** A field's contribution to a maximum that also ranges over 0: its
    value when it holds a finite number, else nothing. *)
Definition fieldValue (v : jsval) : Q :=
  match v with
  | Number (Num q) => q
  | _ => 0
  end.

(** [max(r.web_similarity_score, r.similarity_score, r.similarity, 0)]. *)
Definition maxScore (r : Workspace.ComparisonResult) : Q :=
  Qmax (fieldValue (Workspace.web_similarity_score r))
    (Qmax (fieldValue (Workspace.similarity_score r))
       (Qmax (fieldValue (Workspace.similarity r)) 0)).

(** The first of the three fields, in the order of the source, that is
    present and not zero; 0 when there is none. *)
Definition firstNonzeroScore (r : Workspace.ComparisonResult) : number :=
  if truthy (Workspace.web_similarity_score r)
  then toNumber (Workspace.web_similarity_score r)
  else if truthy (Workspace.similarity_score r)
  then toNumber (Workspace.similarity_score r)
  else if truthy (Workspace.similarity r)
  then toNumber (Workspace.similarity r)
  else Num 0.

(** The count the ratio is defined by: the positions, among the
    indices of the shorter string, where both strings hold the same
    character. *)
Definition positionalMatches (s1 s2 : string) : nat :=
  length
    (List.filter
       (fun i => bool_decide (String.get i s1 = String.get i s2))
       (seq 0 (Nat.min (String.length s1) (String.length s2)))).

(** What the cleanup block leaves behind. *)
Definition localCleared (id : string) (w' : Student.World) : Prop :=
  Student.localStorage w' !! Student.statusKey id = None
  /\ Student.localStorage w' !! Student.dataKey id = None
  /\ Student.submitted (Student.state w') = false
  /\ Student.submissionData (Student.state w') = None
  /\ Student.similarityScore (Student.state w') = Null
  /\ Student.reportUrl (Student.state w') = None
  /\ Student.reportFilename (Student.state w') = None.

(** Whether a character occurs in a string. *)
Fixpoint occursIn (c : ascii) (s : string) : bool :=
  match s with
  | String b s' => Ascii.eqb b c || occursIn c s'
  | EmptyString => false
  end.

(** The [D] of the pattern [Calculated similarity: D.D%]: a non-empty
    run of decimal digits. *)
Fixpoint allDecimal (s : string) : bool :=
  match s with
  | String c s' => occursIn c "0123456789" && allDecimal s'
  | EmptyString => true
  end.

Definition digits (s : string) : bool :=
  negb (String.eqb s "") && allDecimal s.

(** The text the pattern stands for, with its whole and its fractional
    digits. *)
Definition scoreText (whole fraction : string) : string :=
  "Calculated similarity: " +:+ whole +:+ "." +:+ fraction +:+ "%".

(** The summary reads [pre], then the pattern, then [post]. *)
Definition occurrence (summary pre whole fraction post : string) : Prop :=
  digits whole = true /\ digits fraction = true
  /\ summary = pre +:+ scoreText whole fraction +:+ post.

(** No occurrence of the pattern starts further left. *)
Definition firstOccurrence (summary pre whole fraction post : string)
  : Prop :=
  occurrence summary pre whole fraction post
  /\ forall pre' whole' fraction' post',
       occurrence summary pre' whole' fraction' post' ->
       (String.length pre <= String.length pre')%nat.

(** The number a run of decimal digits denotes, and the decimal
    [whole.fraction]. *)
Fixpoint wholeNumber (s : string) : Z :=
  match s with
  | String c s' =>
      ((Z.of_nat (nat_of_ascii c) - 48) * 10 ^ Z.of_nat (String.length s')
       + wholeNumber s')%Z
  | EmptyString => 0%Z
  end.

Definition decimalValue (whole fraction : string) : Q :=
  inject_Z (wholeNumber whole)
  + inject_Z (wholeNumber fraction)
    / inject_Z (10 ^ Z.of_nat (String.length fraction)).

End Claimed.

(** ** The student view: mount effect and rendering *)

Module StudentView.

Import Student.

(** [getSimilarityColor] of the student view. *)
Definition getSimilarityColor (score : jsval) : string :=
  if numGe (toNumber score) (Num 70) then "#D32F2F"
  else if numGe (toNumber score) (Num 40) then "#FFEB3B"
  else "#388E3C".

(** A score as [JSON.parse] gives it back: JSON text has no [NaN] and
    no infinities, [JSON.stringify] writes [null] for them. *)
Definition jsonScore (v : jsval) : jsval :=
  match v with
  | Number (Num q) => Number (Num q)
  | Number _ => Null
  | other => other
  end.

(** [parseFloat(v)] of a parsed score: a finite number is printed and
    read back unchanged, [null] is read as the text ["null"]. *)
Definition parseFloatOfScore (v : jsval) : number :=
  match v with
  | Number n => n
  | _ => NaN
  end.

(** The effect that runs on mount and when the assignment id changes,
    lines 352 to 384.  The result is [None] when the data key holds a
    non-empty string that is not a stored submission record: the view
    never writes one, and arbitrary JSON text is not modelled. *)
Definition mountEffect (id : string) (w : World) : option World :=
  match localStorage w !! statusKey id with
  | Some (Raw isSubmitted) =>
      if String.eqb isSubmitted "submitted" then
        match localStorage w !! dataKey id with
        | None => Some (snd (setSubmitted true w))
        | Some (Raw savedData) =>
            if String.eqb savedData "" then Some (snd (setSubmitted true w))
            else None
        | Some (Json d) =>
            let score := jsonScore (sd_web_similarity_score d) in
            let data :=
              {| submission_id := submission_id d;
                 student_name := student_name d;
                 file_name := file_name d;
                 submitted_at := submitted_at d;
                 sd_web_similarity_score := score;
                 sd_report_url := sd_report_url d;
                 sd_report_filename := sd_report_filename d |} in
            Some (snd
              ((setSubmitted true >>
                setSubmissionData (Some data) >>
                (if notUndefined score && negb (isNaN (toNumber score))
                 then setSimilarityScore (Number (parseFloatOfScore score))
                 else ret tt) >>
                (match truthyString (sd_report_url d) with
                 | Some url => setReportUrl (Some (origin +:+ url))
                 | None => ret tt
                 end) >>
                match truthyString (sd_report_filename d) with
                | Some fn => setReportFilename (Some fn)
                | None => ret tt
                end) w))
        end
      else Some w
  | _ => Some w
  end.

(** The [message] of the snackbar, lines 612 to 620. *)
Definition snackbarMessage (s : State) : string :=
  if notNull (similarityScore s) && snackbarOpen s
  then "Web similarity check complete!"
  else if negb (submitted s) && snackbarOpen s
  then "Submission removed successfully!"
  else if strTruthy (reportFilename s) && snackbarOpen s
  then "Report downloaded successfully!"
  else "Assignment submitted successfully!".

(** The state a newly mounted view starts from, lines 24 to 36. *)
Definition initialState : State :=
  {| userId := None; name := ""; file := None; submitted := false;
     loading := false; checkingWebSimilarity := false; error := "";
     openDialog := false; snackbarOpen := false; similarityScore := Null;
     submissionData := None; reportUrl := None; reportFilename := None |}.

End StudentView.

(** ** The lecturer's list: the counters of the header card *)

Module LecturerView.

Import Lecturer.

Definition hasStatus (st : string) (s : Submission) : bool :=
  match status s with
  | Some t => String.eqb t st
  | None => false
  end.

(** [submissions.filter(s => s.status === 'graded').length]. *)
Definition gradedCount (v : View) : nat :=
  length (List.filter (hasStatus "graded") (submissions v)).

(** [submissions.filter(s => s.status === 'submitted').length]. *)
Definition pendingCount (v : View) : nat :=
  length (List.filter (hasStatus "submitted") (submissions v)).

(** The lecturer-side [getSimilarityColor], lines 1542 to 1547. *)
Definition getSimilarityColor (percentage : jsval) : string :=
  match percentage with
  | Null | Undefined => "secondary"
  | Number n =>
      if numLt n (Num 30) then "success"
      else if numLt n (Num 60) then "warning"
      else "danger"
  end.

End LecturerView.

(** ** The similarity report: statistics, rendering, export *)

Module ReportView.

Import Report.

(** [a + b] on doubles: the exact sum, rounded. *)
Definition numAdd (a b : number) : number :=
  match a, b with
  | NaN, _ | _, NaN => NaN
  | PosInf, NegInf | NegInf, PosInf => NaN
  | PosInf, _ | _, PosInf => PosInf
  | NegInf, _ | _, NegInf => NegInf
  | Num x, Num y => Double.round (x + y)
  end.

(** [a / n] for an array length [n]: the exact quotient, rounded. *)
Definition numDivLength (a : number) (n : nat) : number :=
  match n with
  | O =>
      match a with
      | Num q =>
          match (q ?= 0)%Q with
          | Eq => NaN | Gt => PosInf | Lt => NegInf
          end
      | other => other
      end
  | _ =>
      match a with
      | Num q => Double.round (q / inject_Z (Z.of_nat n))
      | other => other
      end
  end.

(** A row of the backend's result list. *)
Record ResultRow : Type := mkResultRow {
  assignment1_title : option string;
  assignment2_title : option string;
  similarity_score : jsval;
  row_report_url : option string;
  assignment1_id : option Z;
  assignment2_id : option Z
}.

(** An entry of [formattedData.assignment]. *)
Record ReportItem : Type := mkReportItem {
  id : nat;
  file1 : string;
  file2 : string;
  similarity : jsval;
  report_url : option string;
  item_assignment1_id : option Z;
  item_assignment2_id : option Z
}.

(** The shapes [reportData] is tested for. *)
Inductive ReportData : Type :=
  | Formatted (assignment : list ReportItem)
  | ResultsArray (results : list ResultRow)
  | ResultsObject (results : list ResultRow)
  | OtherShape (similarity_score0 : jsval).

(** [prepareReportData]; the result is the [assignment] array of the
    object it returns, [None] for [null]. *)
Definition prepareReportData (reportData : option ReportData)
  : option (list ReportItem) :=
  match reportData with
  | None => None
  | Some (Formatted assignment) => Some assignment
  | Some (ResultsArray results) | Some (ResultsObject results) =>
      Some (imap (fun index result =>
              {| id := index + 1;
                 file1 := strOr (assignment1_title result) "Document 1";
                 file2 := strOr (assignment2_title result) "Document 2";
                 similarity := JS.or (similarity_score result) (Number (Num 0));
                 report_url :=
                   match row_report_url result with
                   | Some u => if String.eqb u "" then None else Some u
                   | None => None
                   end;
                 item_assignment1_id := assignment1_id result;
                 item_assignment2_id := assignment2_id result |}) results)
  | Some (OtherShape score) =>
      Some [ {| id := 1; file1 := "Document 1"; file2 := "Document 2";
                similarity := JS.or score (Number (Num 0));
                report_url := None;
                item_assignment1_id := None;
                item_assignment2_id := None |} ]
  end.

Record Stats : Type := mkStats {
  average : number;
  high : nat;
  medium : nat;
  low : nat;
  minimal : nat;
  comparisons : nat
}.

Definition sim (item : ReportItem) : number := toNumber (similarity item).

(** [generateStats]. *)
Definition generateStats (formattedData : option (list ReportItem)) : Stats :=
  match formattedData with
  | None | Some [] =>
      {| average := Num 0; high := 0; medium := 0; low := 0; minimal := 0;
         comparisons := 0 |}
  | Some assignments =>
      {| average :=
           numDivLength
             (fold_left (fun acc item => numAdd acc (sim item))
                        assignments (Num 0))
             (length assignments);
         high :=
           length (List.filter (fun item => numGe (sim item) (Num 75))
                               assignments);
         medium :=
           length (List.filter
                     (fun item => numGe (sim item) (Num 50)
                                  && numLt (sim item) (Num 75))
                     assignments);
         low :=
           length (List.filter
                     (fun item => numGe (sim item) (Num 25)
                                  && numLt (sim item) (Num 50))
                     assignments);
         minimal :=
           length (List.filter
                     (fun item => numLt (sim item) (Num 25)
                                  && numGt (sim item) (Num 0))
                     assignments);
         comparisons := length assignments |}
  end.

(** *** [highlightMatches] on segments of the matcher's shape *)

(** Line 727. *)
Definition displayText (expandText : bool) (text0 : string) : string :=
  if expandText || (String.length text0 <? 100)%nat then text0
  else String.substring 0 100 text0 +:+ "...".

(** Lines 734 to 738. *)
Definition bgColor (percentage0 : number) : string :=
  if numGe percentage0 (Num 75) then "#ff9999"
  else if numGe percentage0 (Num 50) then "#ffcc99"
  else if numGe percentage0 (Num 25) then "#ffff99"
  else "#e6ffe6".

(** What one segment is rendered as: the text shown and, for a match,
    the background colour and the percentage of the badge. *)
Record Rendered : Type := mkRendered {
  shown : string;
  background : option string;
  badge : option number
}.

(** The body of the [map], for a segment with [text], [isMatch] and
    [percentage].  With an empty [text] the expression
    [segment.text || segment] is the segment object itself and the
    rendering throws: the result is [None]. *)
Definition highlightSegment (expandText : bool) (segment : TextSegment)
  : option Rendered :=
  let percentage0 :=
    if numTruthy (percentage segment) then percentage segment
    else if isMatch segment then Num 75 else Num 0 in
  if String.eqb (text segment) "" then None
  else if negb (isMatch segment) then
    Some {| shown := displayText expandText (text segment);
            background := None; badge := None |}
  else
    Some {| shown := displayText expandText (text segment);
            background := Some (bgColor percentage0);
            badge := Some percentage0 |}.

(** *** The page loop of [generatePDFReport]

    [imgHeight] and [pageHeight] are in millimetres; the result lists
    the vertical position of the image on every page, and is [None]
    when the fuel does not reach the end of the loop. *)
Fixpoint pageLoop (fuel : nat) (imgHeight pageHeight heightLeft : Q)
  : option (list Q) :=
  if Qle_bool 0 heightLeft then
    match fuel with
    | O => None
    | S fuel' =>
        option_map (cons (heightLeft - imgHeight)%Q)
          (pageLoop fuel' imgHeight pageHeight (heightLeft - pageHeight)%Q)
    end
  else Some [].

Definition pageHeight : Q := 295.

Definition pagePositions (fuel : nat) (imgHeight : Q) : option (list Q) :=
  option_map (cons 0%Q)
    (pageLoop fuel imgHeight pageHeight (imgHeight - pageHeight)%Q).

End ReportView.

(** ** Notions and sample data of the further properties *)

Module Notions.

Import Student StudentView.

(** The form [handleSubmit] posts. *)
Definition submitRequest (id : string) (s : State) (f : string) : request :=
  SubmitAssignment id
    ([("name", name s); ("file", f); ("assignment_id", id)]
     ++ match truthyString (userId s) with
        | Some uid => [("student_id", uid)]
        | None => []
        end).

(** The form filled in, nothing stored, nothing sent. *)
Definition typedState : State :=
  {| userId := Some "s-17"; name := "Alice"; file := Some "essay.txt";
     submitted := false;
     loading := false; checkingWebSimilarity := false; error := "";
     openDialog := false; snackbarOpen := false; similarityScore := Null;
     submissionData := None; reportUrl := None; reportFilename := None |}.

Definition typedWorld : World :=
  {| state := typedState; localStorage := ∅; network := [] |}.

(** A backend that accepts a submission and returns its record. *)
Definition acceptedResponse : Response :=
  {| status := Some "success"; message := None;
     data := Some Examples.submission55;
     web_similarity_score := Undefined;
     similarity_score := Undefined;
     analysis_summary := None;
     report_url := None |}.

Definition acceptingServer : server := fun _ => Resolved acceptedResponse.

(** A stored record as a backend may return it, with a [null] score. *)
Definition nullScoreRecord : SubmissionData :=
  {| submission_id := Some 55%Z;
     student_name := Some "Alice";
     file_name := Some "essay.txt";
     submitted_at := None;
     sd_web_similarity_score := Null;
     sd_report_url := None;
     sd_report_filename := None |}.

Definition nullScoreStorage : gmap string stored :=
  <[statusKey "7" := Raw "submitted"]>
    (<[dataKey "7" := Json nullScoreRecord]> ∅).

(** A newly mounted view over a given local storage. *)
(** A record with another score; what a record's score is after
    [JSON.stringify] and [JSON.parse]; and the score a newly mounted
    view shows for a stored record: none when the record has none, the
    score when it is a finite number, [NaN] when it is [null]. *)
Definition withScore (v : jsval) (d : SubmissionData) : SubmissionData :=
  {| submission_id := submission_id d;
     student_name := student_name d;
     file_name := file_name d;
     submitted_at := submitted_at d;
     sd_web_similarity_score := v;
     sd_report_url := sd_report_url d;
     sd_report_filename := sd_report_filename d |}.

Definition reloadedScore (v : jsval) : jsval :=
  match v with
  | Undefined => Null
  | Number (Num q) => Number (Num q)
  | _ => Number NaN
  end.

Definition freshViewOn (ls : gmap string stored) : World :=
  {| state := initialState; localStorage := ls; network := [] |}.

(** The severity a colour stands for in either view: 0 low, 1 medium,
    2 high, 3 for no score. *)
Definition studentLevel (score : jsval) : nat :=
  if String.eqb (StudentView.getSimilarityColor score) "#D32F2F" then 2
  else if String.eqb (StudentView.getSimilarityColor score) "#FFEB3B" then 1
  else 0.

Definition lecturerLevel (score : jsval) : nat :=
  if String.eqb (LecturerView.getSimilarityColor score) "danger" then 2
  else if String.eqb (LecturerView.getSimilarityColor score) "warning" then 1
  else if String.eqb (LecturerView.getSimilarityColor score) "success" then 0
  else 3.

(** A graded entry whose grade is a whole number from 0 to 100. *)
Definition gradeInRange (s : Lecturer.Submission) : Prop :=
  exists k : Z, Lecturer.grade s = Number (Num (inject_Z k)) /\ (0 <= k <= 100)%Z.

Definition validGrades (l : list Lecturer.Submission) : Prop :=
  forall s, In s l -> Lecturer.status s = Some "graded" -> gradeInRange s.

(** 1 for [true], 0 for [false]. *)
Definition b2n (b : bool) : nat := if b then 1 else 0.

(** Two comparisons of a report. *)
Definition sampleItems : list ReportView.ReportItem :=
  [ {| ReportView.id := 1; ReportView.file1 := "a.txt"; ReportView.file2 := "b.txt";
       ReportView.similarity := Number (Num 80); ReportView.report_url := None;
       ReportView.item_assignment1_id := None; ReportView.item_assignment2_id := None |};
    {| ReportView.id := 2; ReportView.file1 := "a.txt"; ReportView.file2 := "c.txt";
       ReportView.similarity := Number (Num 20); ReportView.report_url := None;
       ReportView.item_assignment1_id := None; ReportView.item_assignment2_id := None |} ].

(** The last character of a string. *)
Fixpoint lastChar (s : string) : option ascii :=
  match s with
  | EmptyString => None
  | String c EmptyString => Some c
  | String _ s' => lastChar s'
  end.

Definition endsInTerminator (s : string) : bool :=
  match lastChar s with
  | Some c => Report.isTerminator c
  | None => false
  end.

Definition startsWhite (s : string) : bool :=
  match s with
  | String c _ => isWhiteSpace c
  | EmptyString => false
  end.

(** A string without its white-space characters. *)
Fixpoint nonWhite (s : string) : string :=
  match s with
  | String c s' => if isWhiteSpace c then nonWhite s' else String c (nonWhite s')
  | EmptyString => EmptyString
  end.

(** The units of a list written one after the other. *)
Definition joinAll (l : list string) : string :=
  fold_right String.append EmptyString l.

(** A list in non-decreasing order of a key. *)
Definition keySorted {A} (key : A -> nat) (l : list A) : Prop :=
  StronglySorted (fun a b => (key a <= key b)%nat) l.

(** A collected pair seen from the other document. *)
Definition swapSegment (m : Report.SimilarSegment) : Report.SimilarSegment :=
  {| Report.text1 := Report.text2 m;
     Report.text2 := Report.text1 m;
     Report.text1Index := Report.text2Index m;
     Report.text2Index := Report.text1Index m;
     Report.similarity := Report.similarity m |}.

(** What the inner loop of the matcher pushes for the pair of units
    at positions [i] and [j]. *)
Definition pairCell (i j : nat) (seg1 seg2 : string)
  : list Report.SimilarSegment :=
  let sim := Report.calculateStringSimilarity (Some seg1) (Some seg2) in
  if numGt sim Report.threshold then
    [ {| Report.text1 := seg1; Report.text2 := seg2;
         Report.text1Index := i; Report.text2Index := j;
         Report.similarity := mathRound (times100 sim) |} ]
  else [].

(** The segment a collected pair gives in the first and in the second
    pane. *)
Definition firstPane (m : Report.SimilarSegment) : Report.TextSegment :=
  {| Report.text := Report.text1 m; Report.isMatch := true;
     Report.percentage := Report.similarity m |}.

Definition secondPane (m : Report.SimilarSegment) : Report.TextSegment :=
  {| Report.text := Report.text2 m; Report.isMatch := true;
     Report.percentage := Report.similarity m |}.

End Notions.

(** ** The similarity workspace: selections and the compare button

    The selections of [SimilarityChecker] and the calls its compare
    handler issues.  Submission and assignment ids are the integers the
    backend sends; a chosen file is known by its name.  The calls of a
    handler are listed in the order they are issued; the state updates
    that a refresh makes when its reply arrives are outside the
    model. *)

Module Checker.

(** A row of [existingAssignments]: the backend's row with the
    [selected] flag that [fetchExistingAssignments] adds. *)
Record Assignment : Type := mkAssignment {
  id : Z;
  title : option string;
  uploaded_at : option string;
  selected : bool
}.

Record State : Type := mkState {
  files : list string;
  existingAssignments : list Assignment;
  activeTab : string;
  selectedSubmissions : list Z
}.

(** [toggleAssignmentSelection], lines 1299 to 1307. *)
Definition toggleAssignmentSelection (assignmentId : Z)
    (prevAssignments : list Assignment) : list Assignment :=
  map (fun assignment =>
         if Z.eqb (id assignment) assignmentId
         then {| id := id assignment;
                 title := title assignment;
                 uploaded_at := uploaded_at assignment;
                 selected := negb (selected assignment) |}
         else assignment)
      prevAssignments.

(** [Array.prototype.includes] on ids. *)
Definition includes (l : list Z) (x : Z) : bool := existsb (Z.eqb x) l.

(** [toggleSubmissionSelection], lines 1310 to 1316.  The test reads
    the selection of the render the handler belongs to, the updater is
    applied to the selection current at that time. *)
Definition toggleSubmissionSelection (submissionId : Z)
    (selectedSubmissions prevSelected : list Z) : list Z :=
  if includes selectedSubmissions submissionId
  then List.filter (fun id => negb (Z.eqb id submissionId)) prevSelected
  else prevSelected ++ [submissionId].

(** The calls of the compare handler and of [uploadFiles]. *)
Inductive call : Type :=
  | GetList
  | PostUpload (title : string)
  | PostCompare (assignment_ids : list (option Z)).

(** The body of a resolved upload, of which [assignment_id] is read;
    [None] is [undefined]. *)
Record UploadResult : Type := mkUploadResult {
  assignment_id : option Z
}.

(** The backend's answers to the uploads, by position and name of the
    file: resolved with a body, or rejected. *)
Definition backend : Type := nat -> string -> option UploadResult.

(** [Promise.all]: every result in order, or rejection when one of the
    promises is rejected. *)
Fixpoint promiseAll {A} (ps : list (option A)) : option (list A) :=
  match ps with
  | [] => Some []
  | p :: rest =>
      match p, promiseAll rest with
      | Some a, Some results => Some (a :: results)
      | _, _ => None
      end
  end.

(** [uploadFiles], lines 1255 to 1296: the value it resolves with and
    the calls it issues.  Every upload is posted before any is awaited;
    the list is refreshed when all have resolved. *)
Definition uploadFiles (srv : backend) (s : State)
  : list UploadResult * list call :=
  if (length (files s) =? 0)%nat then ([], [])
  else
    let posts := map PostUpload (files s) in
    match promiseAll (imap srv (files s)) with
    | Some results => (results, posts ++ [GetList])
    | None => ([], posts)
    end.

(** The calls of [checkAssignmentSimilarity], lines 1356 to 1461. *)
Definition checkAssignmentSimilarity (srv : backend) (s : State)
  : list call :=
  if String.eqb (activeTab s) "submissions"
     && (2 <=? length (selectedSubmissions s))%nat
  then [PostCompare (map Some (selectedSubmissions s))]
  else
    let selectedAssignments :=
      List.filter selected (existingAssignments s) in
    let totalAssignments :=
      (length (files s) + length selectedAssignments)%nat in
    if (totalAssignments <? 2)%nat then []
    else
      let compare (calls : list call) (assignmentIds : list (option Z)) :=
        let assignmentIds :=
          assignmentIds ++ map (fun a => Some (id a)) selectedAssignments in
        if (length assignmentIds <? 2)%nat then calls
        else calls ++ [PostCompare assignmentIds] in
      if (0 <? length (files s))%nat then
        let '(uploadResults, calls) := uploadFiles srv s in
        if (length uploadResults =? 0)%nat
           && (length selectedAssignments <? 2)%nat
        then calls
        else compare calls (map assignment_id uploadResults)
      else compare [] [].

(** The [disabled] attribute of the compare button of the assignments
    tab, line 1962, without the [loading] disjunct. *)
Definition compareAssignmentsDisabled (s : State) : bool :=
  (length (files s)
   + length (List.filter selected (existingAssignments s)) <? 2)%nat.


End Checker.

(** * Properties *)

(** ** Rounding *)

Section DoubleRounding.

Lemma round_compat (q q' : Q) : q == q' -> Double.round q = Double.round q'.
Proof.
  intros E. unfold Double.round. rewrite (Qred_complete _ _ E). reflexivity.
Qed.

Lemma roundHalfEven_bounds (N D lo hi : Z) :
  (0 < D)%Z -> (lo * D <= N)%Z -> (N <= hi * D)%Z ->
  (lo <= Double.roundHalfEven N D <= hi)%Z.
Proof.
  intros HD Hlo Hhi. unfold Double.roundHalfEven.
  pose proof (Z.div_mod N D ltac:(lia)) as Hdm.
  pose proof (Z.mod_pos_bound N D HD) as Hrem.
  assert (lo <= N / D)%Z as Hfl_lo by (apply Z.div_le_lower_bound; lia).
  assert (N / D <= hi)%Z as Hfl_hi by (apply Z.div_le_upper_bound; lia).
  assert (0 < N mod D -> N / D + 1 <= hi)%Z as Hup.
  { intros Hpos. destruct (Z.eq_dec (N / D)%Z hi) as [E|E]; [|lia].
    rewrite E in Hdm. nia. }
  destruct (2 * (N mod D) ?= D)%Z eqn:Ec.
  - apply Z.compare_eq in Ec. destruct (Z.even (N / D)); lia.
  - lia.
  - apply Z.compare_gt_iff in Ec. lia.
Qed.

Lemma floorLog2_small (n d : positive) :
  (Z.pos n < 2 ^ 53 * Z.pos d)%Z -> (Double.floorLog2 n d <= 52)%Z.
Proof.
  intros Hlt. unfold Double.floorLog2. cbv zeta.
  pose proof (Z.log2_spec (Z.pos n) ltac:(lia)) as [Hn _].
  pose proof (Z.log2_spec (Z.pos d) ltac:(lia)) as [_ Hd].
  pose proof (Z.log2_nonneg (Z.pos n)) as Hn0.
  pose proof (Z.log2_nonneg (Z.pos d)) as Hd0.
  set (ln := Z.log2 (Z.pos n)) in *. set (ld := Z.log2 (Z.pos d)) in *.
  assert (ln - ld <= 53)%Z as Hk.
  { destruct (Z_le_gt_dec (ln - ld)%Z 53%Z) as [H|H]; [exact H|exfalso].
    assert (2 ^ (ld + 54) <= 2 ^ ln)%Z as Hpow
      by (apply Z.pow_le_mono_r; lia).
    rewrite Z.pow_add_r in Hpow by lia.
    rewrite Z.pow_succ_r in Hd by lia.
    change (2 ^ 54)%Z with (2 * 2 ^ 53)%Z in Hpow. nia. }
  destruct (Z.pos n * 2 ^ Z.max 0 (- (ln - ld))
            <? Z.pos d * 2 ^ Z.max 0 (ln - ld))%Z eqn:Et; [lia|].
  apply Z.ltb_ge in Et.
  destruct (Z.eq_dec (ln - ld)%Z 53%Z) as [E|E]; [exfalso|lia].
  rewrite E in Et.
  change (Z.pos d * 2 ^ 53 <= Z.pos n * 1)%Z in Et. lia.
Qed.

(** Rounding does not cross a whole number below [2^53]: a value
    between two such numbers is rounded to a finite value between
    them. *)
Lemma round_between (q : Q) (lo hi : Z) :
  (0 <= lo)%Z -> (hi < 2 ^ 53)%Z ->
  (inject_Z lo <= q)%Q -> (q <= inject_Z hi)%Q ->
  exists r, Double.round q = Num r
            /\ (inject_Z lo <= r)%Q /\ (r <= inject_Z hi)%Q.
Proof.
  intros Hlo0 Hhi53 Hlo Hhi.
  rewrite <- (Qred_correct q) in Hlo, Hhi.
  unfold Double.round. destruct (Qred q) as [num d]. cbn [Qnum Qden].
  unfold Qle in Hlo, Hhi. cbn [Qnum Qden inject_Z] in Hlo, Hhi.
  destruct num as [|n|n].
  - exists 0%Q. split; [reflexivity|]. unfold Qle. cbn. lia.
  - unfold Double.roundPos. cbv zeta.
    assert (Z.pos n < 2 ^ 53 * Z.pos d)%Z as Hsmall by nia.
    pose proof (floorLog2_small n d Hsmall) as Hfl.
    set (e := Z.max (Double.floorLog2 n d - 52) (-1074)) in *.
    assert (e <= 0)%Z as He by lia.
    rewrite (Z.max_l 0 e) by lia. rewrite (Z.max_r 0 (- e)) by lia.
    change (2 ^ 0)%Z with 1%Z. rewrite !Z.mul_1_r.
    assert (0 < 2 ^ (- e))%Z as Hpow by (apply Z.pow_pos_nonneg; lia).
    set (p := (2 ^ (- e))%Z) in *.
    pose proof (roundHalfEven_bounds (Z.pos n * p) (Z.pos d)
                  (lo * p) (hi * p) ltac:(lia) ltac:(nia) ltac:(nia))
      as [Hm_lo Hm_hi].
    set (m := Double.roundHalfEven (Z.pos n * p) (Z.pos d)) in *.
    assert (2 ^ 53 < 2 ^ 1024)%Z as Hbig by (apply Z.pow_lt_mono_r; lia).
    destruct (2 ^ 1024 * p <=? m)%Z eqn:Eover.
    { apply Z.leb_le in Eover. exfalso. nia. }
    eexists. split; [reflexivity|].
    split; rewrite Qred_correct; unfold Qle; cbn [Qnum Qden inject_Z];
      rewrite Z2Pos.id by lia; lia.
  - exfalso. nia.
Qed.

End DoubleRounding.

(** ** The string-similarity ratio *)

Section Similarity.

Import Report Claimed.

Lemma fold_count_filter (P : nat -> Prop) `{forall i, Decision (P i)}
    (l : list nat) (a : nat) :
  fold_left (fun m i => if decide (P i) then S m else m) l a
  = (a + length (List.filter (fun i => bool_decide (P i)) l))%nat.
Proof.
  revert a; induction l as [|i l IH]; intros a; simpl.
  - lia.
  - rewrite IH. destruct (decide (P i)) as [Hp|Hp].
    + rewrite bool_decide_eq_true_2 by exact Hp. simpl. lia.
    + rewrite bool_decide_eq_false_2 by exact Hp. lia.
Qed.

Lemma countMatches_filter (shorter longer : string) :
  countMatches shorter longer
  = length
      (List.filter
         (fun i => bool_decide (String.get i shorter = String.get i longer))
         (seq 0 (String.length shorter))).
Proof.
  unfold countMatches.
  rewrite (fold_count_filter
             (fun i => String.get i shorter = String.get i longer)).
  reflexivity.
Qed.

Lemma filter_length_le {A} (f : A -> bool) (l : list A) :
  (length (List.filter f l) <= length l)%nat.
Proof.
  induction l as [|x l IH]; simpl; [lia|].
  destruct (f x); simpl; lia.
Qed.

Lemma countMatches_le (shorter longer : string) :
  (countMatches shorter longer <= String.length shorter)%nat.
Proof.
  rewrite countMatches_filter.
  etransitivity; [apply filter_length_le|].
  rewrite length_seq. lia.
Qed.

Lemma filter_ext_seq (f g : nat -> bool) (l : list nat) :
  (forall i, In i l -> f i = g i) -> List.filter f l = List.filter g l.
Proof.
  induction l as [|x l IH]; intros Hfg; simpl; [reflexivity|].
  rewrite (Hfg x) by (left; reflexivity).
  rewrite IH by (intros i Hi; apply Hfg; right; exact Hi).
  reflexivity.
Qed.

Lemma positionalMatches_sym (s1 s2 : string) :
  positionalMatches s1 s2 = positionalMatches s2 s1.
Proof.
  unfold positionalMatches. rewrite Nat.min_comm. f_equal.
  apply filter_ext_seq. intros i _.
  apply bool_decide_ext. split; intros E; symmetry; exact E.
Qed.

Lemma countMatches_positional (shorter longer : string) :
  (String.length shorter <= String.length longer)%nat ->
  countMatches shorter longer = positionalMatches shorter longer.
Proof.
  intros Hle. rewrite countMatches_filter. unfold positionalMatches.
  rewrite Nat.min_l by exact Hle. reflexivity.
Qed.

Lemma string_eqb_empty (s : string) :
  String.eqb s "" = false <-> (0 < String.length s)%nat.
Proof.
  destruct s; simpl; split; intros; try lia; try discriminate; reflexivity.
Qed.

Lemma divLengths_Num (m n : nat) :
  (0 < n)%nat -> divLengths m n = Num (Z.of_nat m # Pos.of_nat n).
Proof. destruct n; [lia|reflexivity]. Qed.

Lemma Zpos_of_nat (n : nat) :
  (0 < n)%nat -> Z.pos (Pos.of_nat n) = Z.of_nat n.
Proof.
  intros Hn. rewrite <- (Nat2Pos.id n) at 2 by lia.
  symmetry. apply positive_nat_Z.
Qed.

Lemma ratio_bounds (m n : nat) :
  (m <= n)%nat -> (0 < n)%nat ->
  (0 <= Z.of_nat m # Pos.of_nat n)%Q /\ (Z.of_nat m # Pos.of_nat n <= 1)%Q.
Proof.
  intros Hmn Hn. unfold Qle; simpl.
  rewrite Zpos_of_nat by exact Hn. lia.
Qed.

Lemma similarity_nonempty_distinct (s1 s2 : string) :
  (0 < String.length s1)%nat -> (0 < String.length s2)%nat ->
  String.eqb s1 s2 = false ->
  calculateStringSimilarity (Some s1) (Some s2)
  = Num (Z.of_nat (positionalMatches s1 s2)
         # Pos.of_nat (Nat.max (String.length s1) (String.length s2))).
Proof.
  intros H1 H2 Hne. unfold calculateStringSimilarity, strTruthy.
  rewrite (proj2 (string_eqb_empty s1) H1), (proj2 (string_eqb_empty s2) H2).
  simpl. rewrite Hne.
  destruct (String.length s2 <? String.length s1)%nat eqn:Hlt.
  - apply Nat.ltb_lt in Hlt.
    rewrite countMatches_positional by lia.
    rewrite divLengths_Num by lia.
    rewrite Nat.max_l by lia. rewrite positionalMatches_sym. reflexivity.
  - apply Nat.ltb_ge in Hlt.
    rewrite countMatches_positional by lia.
    rewrite divLengths_Num by lia.
    rewrite Nat.max_r by lia. reflexivity.
Qed.

Lemma positionalMatches_le (s1 s2 : string) :
  (positionalMatches s1 s2 <= Nat.min (String.length s1) (String.length s2))%nat.
Proof.
  unfold positionalMatches.
  etransitivity; [apply filter_length_le|]. rewrite length_seq. lia.
Qed.

Lemma filter_true_id {A} (l : list A) : List.filter (fun _ => true) l = l.
Proof. induction l as [|x xs IH]; simpl; congruence. Qed.

Lemma positionalMatches_refl (s : string) :
  positionalMatches s s = String.length s.
Proof.
  unfold positionalMatches. rewrite Nat.min_id.
  rewrite (filter_ext_seq _ (fun _ => true)).
  - rewrite filter_true_id. apply length_seq.
  - intros i _. apply bool_decide_eq_true_2. reflexivity.
Qed.

Lemma similarity_self (s : string) :
  s <> "" -> calculateStringSimilarity (Some s) (Some s) = Num 1.
Proof.
  intros Hs. unfold calculateStringSimilarity, strTruthy.
  destruct (String.eqb s "") eqn:E.
  - apply String.eqb_eq in E. contradiction.
  - simpl. rewrite String.eqb_refl. reflexivity.
Qed.

Lemma similarity_empty_l (str2 : option string) :
  calculateStringSimilarity (Some "") str2 = Num 0.
Proof. reflexivity. Qed.

Lemma similarity_empty_r (str1 : option string) :
  calculateStringSimilarity str1 (Some "") = Num 0.
Proof.
  unfold calculateStringSimilarity. simpl.
  rewrite orb_true_r. reflexivity.
Qed.

Lemma similarity_absent_r (str1 : option string) :
  calculateStringSimilarity str1 None = Num 0.
Proof.
  unfold calculateStringSimilarity. simpl.
  rewrite orb_true_r. reflexivity.
Qed.

Lemma similarity_cases (s1 s2 : string) :
  (s1 = "" \/ s2 = "") /\ calculateStringSimilarity (Some s1) (Some s2) = Num 0
  \/ (s1 <> "" /\ s1 = s2)
     /\ calculateStringSimilarity (Some s1) (Some s2) = Num 1
  \/ ((0 < String.length s1)%nat /\ (0 < String.length s2)%nat /\ s1 <> s2)
     /\ calculateStringSimilarity (Some s1) (Some s2)
        = Num (Z.of_nat (positionalMatches s1 s2)
               # Pos.of_nat (Nat.max (String.length s1) (String.length s2))).
Proof.
  destruct (String.eqb s1 "") eqn:E1.
  { apply String.eqb_eq in E1. subst. left. split; [left|]; reflexivity. }
  destruct (String.eqb s2 "") eqn:E2.
  { apply String.eqb_eq in E2. subst. left.
    split; [right; reflexivity | apply similarity_empty_r]. }
  destruct (String.eqb s1 s2) eqn:E.
  - apply String.eqb_eq in E. subst s2. right; left.
    assert (s1 <> "") by (intros ->; discriminate).
    split; [split; [assumption|reflexivity] | apply similarity_self; assumption].
  - right; right.
    apply string_eqb_empty in E1. apply string_eqb_empty in E2.
    split.
    + repeat split; try assumption.
      intros ->. rewrite String.eqb_refl in E. discriminate.
    + apply similarity_nonempty_distinct; assumption.
Qed.

End Similarity.

Section Matcher.

Import Report Claimed.

Lemma similarity_is_ratio (s1 s2 : string) :
  (0 < Nat.max (String.length s1) (String.length s2))%nat ->
  numEq (calculateStringSimilarity (Some s1) (Some s2))
        (Num (Z.of_nat (positionalMatches s1 s2)
              # Pos.of_nat (Nat.max (String.length s1) (String.length s2)))).
Proof.
  intros Hmax.
  destruct (similarity_cases s1 s2)
    as [[Hempty ->] | [[[Hne <-] ->] | [_ ->]]].
  - assert (positionalMatches s1 s2 = 0%nat) as ->.
    { pose proof (positionalMatches_le s1 s2) as Hle.
      destruct Hempty as [-> | ->]; simpl in Hle; lia. }
    reflexivity.
  - rewrite positionalMatches_refl, Nat.max_id.
    rewrite Nat.max_id in Hmax.
    unfold numEq, Qeq; simpl. rewrite Zpos_of_nat by exact Hmax. lia.
  - simpl. reflexivity.
Qed.

Lemma above_threshold_iff (s1 s2 : string) :
  numGt (calculateStringSimilarity (Some s1) (Some s2)) threshold = true
  <-> (7 * Nat.max (String.length s1) (String.length s2)
       < 10 * positionalMatches s1 s2)%nat.
Proof.
  pose proof (positionalMatches_le s1 s2) as Hle.
  destruct (similarity_cases s1 s2)
    as [[Hempty ->] | [[[Hne <-] ->] | [(H1 & H2 & _) ->]]].
  - split; [discriminate|].
    destruct Hempty as [-> | ->]; simpl in Hle; lia.
  - rewrite positionalMatches_refl, Nat.max_id.
    split; [|reflexivity]. intros _.
    destruct s1; [contradiction|simpl; lia].
  - unfold numGt, numLt, threshold.
    set (m := positionalMatches s1 s2) in *.
    set (n := Nat.max (String.length s1) (String.length s2)).
    assert (0 < n)%nat as Hn by (unfold n; lia).
    destruct (Qcompare_spec (7 # 10) (Z.of_nat m # Pos.of_nat n)) as [E|L|G].
    + split; [discriminate|]. intros Hlt. exfalso.
      unfold Qeq in E; simpl in E. rewrite Zpos_of_nat in E by exact Hn. lia.
    + split; [|reflexivity]. intros _.
      unfold Qlt in L; simpl in L. rewrite Zpos_of_nat in L by exact Hn. lia.
    + split; [discriminate|]. intros Hlt. exfalso.
      unfold Qlt in G; simpl in G. rewrite Zpos_of_nat in G by exact Hn. lia.
Qed.

(** Membership in the list of collected pairs. *)
Lemma in_collectSimilar (segments1 segments2 : list string)
    (m : SimilarSegment) :
  In m (collectSimilar segments1 segments2)
  <-> exists i j u1 u2,
        segments1 !! i = Some u1 /\ segments2 !! j = Some u2
        /\ numGt (calculateStringSimilarity (Some u1) (Some u2)) threshold = true
        /\ m = {| text1 := u1; text2 := u2; text1Index := i; text2Index := j;
                  similarity :=
                    mathRound (times100
                      (calculateStringSimilarity (Some u1) (Some u2))) |}.
Proof.
  unfold collectSimilar. rewrite in_concat. split.
  - intros (row & Hrow & Hm).
    apply list_elem_of_In, elem_of_lookup_imap in Hrow.
    destruct Hrow as (i & u1 & -> & Hi).
    apply in_concat in Hm. destruct Hm as (cell & Hcell & Hm).
    apply list_elem_of_In, elem_of_lookup_imap in Hcell.
    destruct Hcell as (j & u2 & -> & Hj).
    exists i, j, u1, u2.
    cbv beta zeta in Hm.
    destruct (numGt _ threshold) eqn:Hgt; [|contradiction].
    destruct Hm as [<- | []]. auto.
  - intros (i & j & u1 & u2 & Hi & Hj & Hgt & ->).
    eexists. split.
    + apply list_elem_of_In, elem_of_lookup_imap. exists i, u1. split; [reflexivity|exact Hi].
    + apply in_concat. eexists. split.
      * apply list_elem_of_In, elem_of_lookup_imap.
        exists j, u2. split; [reflexivity|exact Hj].
      * cbv beta zeta. rewrite Hgt. left. reflexivity.
Qed.

Lemma in_insertByKey {A} (key : A -> nat) (x y : A) (l : list A) :
  In y (insertByKey key x l) <-> y = x \/ In y l.
Proof.
  induction l as [|z l IH]; simpl.
  - intuition.
  - destruct (key x <=? key z)%nat; simpl; rewrite ?IH; intuition.
Qed.

Lemma in_sortByKey {A} (key : A -> nat) (y : A) (l : list A) :
  In y (sortByKey key l) <-> In y l.
Proof.
  induction l as [|x l IH]; simpl; [reflexivity|].
  rewrite in_insertByKey, IH. intuition.
Qed.

Lemma length_insertByKey {A} (key : A -> nat) (x : A) (l : list A) :
  length (insertByKey key x l) = S (length l).
Proof.
  induction l as [|z l IH]; simpl; [reflexivity|].
  destruct (key x <=? key z)%nat; simpl; rewrite ?IH; reflexivity.
Qed.

Lemma length_sortByKey {A} (key : A -> nat) (l : list A) :
  length (sortByKey key l) = length l.
Proof.
  induction l as [|x l IH]; simpl; [reflexivity|].
  rewrite length_insertByKey, IH. reflexivity.
Qed.

(** The output when at least one pair was collected. *)
Lemma process_with_matches (t1 t2 : string) (score : number)
    (m : SimilarSegment) :
  In m (collectSimilar (splitSentences t1) (splitSentences t2)) ->
  processAndHighlightContent t1 t2 score
  = (map (fun m => {| text := text1 m; isMatch := true;
                      percentage := similarity m |})
         (sortByKey text1Index
            (collectSimilar (splitSentences t1) (splitSentences t2))),
     map (fun m => {| text := text2 m; isMatch := true;
                      percentage := similarity m |})
         (sortByKey text2Index
            (collectSimilar (splitSentences t1) (splitSentences t2)))).
Proof.
  intros Hm. unfold processAndHighlightContent.
  destruct (collectSimilar (splitSentences t1) (splitSentences t2))
    as [|c l] eqn:E; [destruct Hm|].
  cbv zeta. rewrite !length_map, !length_sortByKey. reflexivity.
Qed.

(** The output when no pair was collected. *)
Lemma process_without_matches (t1 t2 : string) (score : number) :
  collectSimilar (splitSentences t1) (splitSentences t2) = [] ->
  processAndHighlightContent t1 t2 score
  = if numGt score (Num 0)
    then ([ {| text := t1; isMatch := true; percentage := score |} ],
          [ {| text := t2; isMatch := true; percentage := score |} ])
    else ([], []).
Proof.
  intros E. unfold processAndHighlightContent. rewrite E. simpl.
  destruct (numGt score (Num 0)); reflexivity.
Qed.

End Matcher.

Section MatcherClaims.

Import Report Claimed.

(** C9.  [calculateStringSimilarity] always returns a finite number
    between 0 and 1, so its division is never a division by zero (which
    would give [NaN] or an infinity); it returns 0 as soon as one
    argument is absent or empty, and in particular for two empty
    strings. *)
Theorem calculateStringSimilarity_unit_interval (str1 str2 : option string) :
  (exists q, calculateStringSimilarity str1 str2 = Num q
             /\ (0 <= q)%Q /\ (q <= 1)%Q)
  /\ calculateStringSimilarity None str2 = Num 0
  /\ calculateStringSimilarity (Some "") str2 = Num 0
  /\ calculateStringSimilarity str1 None = Num 0
  /\ calculateStringSimilarity str1 (Some "") = Num 0
  /\ calculateStringSimilarity (Some "") (Some "") = Num 0.
Proof.
  split; [|repeat split;
           auto using similarity_empty_r, similarity_absent_r].
  destruct str1 as [s1|]; [|exists 0%Q; repeat split; discriminate].
  destruct str2 as [s2|].
  2:{ exists 0%Q. rewrite similarity_absent_r. repeat split; discriminate. }
  destruct (similarity_cases s1 s2) as [[_ ->] | [[_ ->] | [(H1 & H2 & _) ->]]].
  - exists 0%Q. repeat split; discriminate.
  - exists 1%Q. repeat split; discriminate.
  - eexists. split; [reflexivity|].
    apply ratio_bounds; [|lia].
    pose proof (positionalMatches_le s1 s2). lia.
Qed.

(** C5, as stated, fails on a text that ends in white space after its
    final full stop: the last unit of ["Hi. "] is the empty string,
    which scores 0 against itself and is left out of the matches. *)
Lemma empty_unit_not_matched :
  splitSentences "Hi. " = ["Hi."; ""]
  /\ calculateStringSimilarity (Some "") (Some "") = Num 0
  /\ calculateStringSimilarity (Some "") (Some "") <> Num 1
  /\ processAndHighlightContent "Hi. " "Hi. " (Num 100)
     = ([ {| text := "Hi."; isMatch := true; percentage := Num 100 |} ],
        [ {| text := "Hi."; isMatch := true; percentage := Num 100 |} ])
  /\ ~ (forall t u, In u (splitSentences t) ->
          calculateStringSimilarity (Some u) (Some u) = Num 1).
Proof.
  split; [reflexivity|]. split; [reflexivity|]. split; [discriminate|].
  split; [reflexivity|].
  intros H. specialize (H "Hi. " "" ltac:(right; left; reflexivity)).
  discriminate H.
Qed.

(** C5, amended.  The ratio of two units that are not both empty is the
    number of positions, among the indices of the shorter unit, where
    the two hold the same character, divided by the longer unit's
    length.  The pair of units at positions [i] and [j] is recorded
    exactly when its ratio is above 0.7, which is when ten times that
    count exceeds seven times the longer length.  For two identical
    texts every non-empty unit has ratio 1 with itself and appears on
    both sides as a match at 100 percent. *)
Theorem fallback_ratio_threshold_identical :
  (forall s1 s2,
     (0 < Nat.max (String.length s1) (String.length s2))%nat ->
     numEq (calculateStringSimilarity (Some s1) (Some s2))
           (Num (Z.of_nat (positionalMatches s1 s2)
                 # Pos.of_nat (Nat.max (String.length s1) (String.length s2)))))
  /\ (forall (segments1 segments2 : list string) i j u1 u2,
        segments1 !! i = Some u1 -> segments2 !! j = Some u2 ->
        ((exists m, In m (collectSimilar segments1 segments2)
                    /\ text1Index m = i /\ text2Index m = j)
         <-> numGt (calculateStringSimilarity (Some u1) (Some u2)) threshold
             = true))
  /\ (forall u1 u2,
        numGt (calculateStringSimilarity (Some u1) (Some u2)) threshold = true
        <-> (7 * Nat.max (String.length u1) (String.length u2)
             < 10 * positionalMatches u1 u2)%nat)
  /\ (forall t score u,
        In u (splitSentences t) -> u <> "" ->
        calculateStringSimilarity (Some u) (Some u) = Num 1
        /\ In {| text := u; isMatch := true; percentage := Num 100 |}
              (fst (processAndHighlightContent t t score))
        /\ In {| text := u; isMatch := true; percentage := Num 100 |}
              (snd (processAndHighlightContent t t score))).
Proof.
  split; [exact similarity_is_ratio|].
  split; [|split; [exact above_threshold_iff|]].
  - intros segments1 segments2 i j u1 u2 Hi Hj. split.
    + intros (m & Hm & <- & <-).
      apply in_collectSimilar in Hm.
      destruct Hm as (i' & j' & v1 & v2 & Hi' & Hj' & Hgt & ->).
      simpl in Hi, Hj. congruence.
    + intros Hgt. eexists. split.
      * apply in_collectSimilar. exists i, j, u1, u2. auto.
      * split; reflexivity.
  - intros t score u Hu Hne.
    pose proof (similarity_self u Hne) as Hself.
    split; [exact Hself|].
    apply list_elem_of_In, list_elem_of_lookup in Hu. destruct Hu as [i Hi].
    set (m := {| text1 := u; text2 := u; text1Index := i; text2Index := i;
                 similarity := Num 100 |}).
    assert (In m (collectSimilar (splitSentences t) (splitSentences t))) as Hm.
    { apply in_collectSimilar. exists i, i, u, u.
      rewrite Hself. repeat split; assumption || reflexivity. }
    rewrite (process_with_matches t t score m Hm). simpl. split.
    + apply (in_map (fun m => {| text := text1 m; isMatch := true;
                                 percentage := similarity m |}) _ m).
      apply in_sortByKey. exact Hm.
    + apply (in_map (fun m => {| text := text2 m; isMatch := true;
                                 percentage := similarity m |}) _ m).
      apply in_sortByKey. exact Hm.
Qed.

Lemma fallback_ratio_threshold_identical_witness :
  numEq (calculateStringSimilarity (Some "abcd") (Some "abXd")) (Num (3 # 4))
  /\ (exists m, In m (collectSimilar ["abcd"] ["abXd"])
                /\ text1Index m = 0%nat /\ text2Index m = 0%nat)
  /\ In {| text := "Yo."; isMatch := true; percentage := Num 100 |}
        (fst (processAndHighlightContent "Hi. Yo." "Hi. Yo." (Num 30))).
Proof.
  destruct fallback_ratio_threshold_identical as (Hratio & Hrec & _ & Hid).
  split; [|split].
  - exact (Hratio "abcd" "abXd" ltac:(simpl; lia)).
  - apply (Hrec ["abcd"] ["abXd"] 0%nat 0%nat "abcd" "abXd");
      reflexivity.
  - apply (Hid "Hi. Yo." (Num 30) "Yo.").
    + right; left; reflexivity.
    + discriminate.
Defined.

(** C6.  When no pair of units scores above 0.7 and the aggregate
    score, a percentage between 0 and 100, is not zero, the output is
    one segment per side holding the whole input text, marked as a
    match and carrying the aggregate score. *)
Theorem fallback_full_text_pair (t1 t2 : string) (q : Q) :
  (forall u1 u2,
     In u1 (splitSentences t1) -> In u2 (splitSentences t2) ->
     numGt (calculateStringSimilarity (Some u1) (Some u2)) threshold = false) ->
  (0 <= q)%Q -> (q <= 100)%Q -> ~ (q == 0)%Q ->
  processAndHighlightContent t1 t2 (Num q)
  = ([ {| text := t1; isMatch := true; percentage := Num q |} ],
     [ {| text := t2; isMatch := true; percentage := Num q |} ]).
Proof.
  intros Hnone Hlo _ Hnz.
  rewrite process_without_matches.
  - assert (numGt (Num q) (Num 0) = true) as ->; [|reflexivity].
    unfold numGt, numLt.
    destruct (Qcompare_spec 0 q) as [E|L|G]; [|reflexivity|].
    + exfalso. apply Hnz. symmetry. exact E.
    + exfalso. apply (Qlt_not_le _ _ G). exact Hlo.
  - destruct (collectSimilar (splitSentences t1) (splitSentences t2))
      as [|m l] eqn:E; [reflexivity|exfalso].
    assert (In m (collectSimilar (splitSentences t1) (splitSentences t2)))
      as Hm by (rewrite E; left; reflexivity).
    apply in_collectSimilar in Hm.
    destruct Hm as (i & j & u1 & u2 & Hi & Hj & Hgt & _).
    rewrite Hnone in Hgt; [discriminate| |].
    + apply list_elem_of_In, list_elem_of_lookup. eauto.
    + apply list_elem_of_In, list_elem_of_lookup. eauto.
Qed.

Lemma fallback_full_text_pair_witness :
  processAndHighlightContent "Hello." "Zzzzz?" (Num 50)
  = ([ {| text := "Hello."; isMatch := true; percentage := Num 50 |} ],
     [ {| text := "Zzzzz?"; isMatch := true; percentage := Num 50 |} ]).
Proof.
  apply (fallback_full_text_pair "Hello." "Zzzzz?" 50).
  - intros u1 u2 [<- | []] [<- | []]. reflexivity.
  - discriminate.
  - discriminate.
  - discriminate.
Defined.

End MatcherClaims.

(** ** The score pattern *)

Section ScorePattern.

Import Student Claimed.

Local Arguments Ascii.eqb : simpl never.

Lemma append_cons (x : ascii) (a b : string) :
  String x a +:+ b = String x (a +:+ b).
Proof. reflexivity. Qed.

Lemma append_assoc (a b c : string) : (a +:+ b) +:+ c = a +:+ (b +:+ c).
Proof.
  induction a as [|x a IH]; [reflexivity|].
  rewrite !append_cons, IH. reflexivity.
Qed.

Lemma append_empty_r (a : string) : a +:+ "" = a.
Proof.
  induction a as [|x a IH]; [reflexivity|].
  rewrite append_cons, IH. reflexivity.
Qed.

Lemma stripPrefix_app (lit p r x : string) :
  stripPrefix lit p = Some r -> stripPrefix lit (p +:+ x) = Some (r +:+ x).
Proof.
  revert p. induction lit as [|a lit IH]; intros p H.
  - destruct p; simpl in *; congruence.
  - destruct p as [|b p]; simpl in *; [discriminate|].
    destruct (Ascii.eqb a b); [apply IH; exact H|discriminate].
Qed.

Lemma stripPrefix_app_fresh (lit p x : string) (c : ascii) :
  occursIn c lit = false ->
  stripPrefix lit p = None -> stripPrefix lit (p +:+ String c x) = None.
Proof.
  revert p. induction lit as [|a lit IH]; intros p Hc H.
  - destruct p; discriminate.
  - simpl in Hc. apply orb_false_iff in Hc. destruct Hc as [Hac Hc].
    destruct p as [|b p]; simpl in *.
    + rewrite Hac. reflexivity.
    + destruct (Ascii.eqb a b); [apply IH; assumption|reflexivity].
Qed.

Lemma stripPrefix_cons (a b : ascii) (lit s : string) :
  stripPrefix (String a lit) (String b s)
  = if Ascii.eqb a b then stripPrefix lit s else None.
Proof. reflexivity. Qed.

Lemma stripPrefix_scoreLiteral_app (p x : string) :
  p <> "" -> stripPrefix scoreLiteral p = None ->
  stripPrefix scoreLiteral (p +:+ String "C" x) = None.
Proof.
  intros Hp H. destruct p as [|b p]; [contradiction|].
  change scoreLiteral with (String "C" "alculated similarity: ") in *.
  change (String b p +:+ String "C" x) with (String b (p +:+ String "C" x)).
  rewrite stripPrefix_cons in *.
  destruct (Ascii.eqb "C" b); [|reflexivity].
  apply stripPrefix_app_fresh; [reflexivity|exact H].
Qed.

Lemma spanDigits_app (r x : string) (c : ascii) :
  isDigit c = false ->
  spanDigits (r +:+ String c x)
  = (fst (spanDigits r), snd (spanDigits r) +:+ String c x).
Proof.
  intros Hc. induction r as [|b r IH]; simpl.
  - rewrite Hc. reflexivity.
  - destruct (isDigit b); [|reflexivity].
    rewrite IH. destruct (spanDigits r). reflexivity.
Qed.

Lemma expectChar_app (d c : ascii) (r x : string) :
  Ascii.eqb c d = false ->
  expectChar d (r +:+ String c x)
  = option_map (fun t => t +:+ String c x) (expectChar d r).
Proof.
  intros Hcd. destruct r as [|b r]; simpl.
  - rewrite Hcd. reflexivity.
  - destruct (Ascii.eqb b d); reflexivity.
Qed.

(** A failed match at the head of a non-empty text stays failed when
    the text is followed by an occurrence of the pattern. *)
Lemma matchHere_app_none (p x : string) :
  p <> "" -> matchHere p = None -> matchHere (p +:+ String "C" x) = None.
Proof.
  intros Hp. unfold matchHere.
  destruct (stripPrefix scoreLiteral p) as [r|] eqn:Es.
  - rewrite (stripPrefix_app _ _ _ _ Es).
    rewrite spanDigits_app by reflexivity.
    destruct (spanDigits r) as [d1 r1]. cbn [fst snd].
    destruct (nonEmpty d1); [|reflexivity].
    rewrite expectChar_app by reflexivity.
    destruct (expectChar "." r1) as [r2|]; [|reflexivity]. cbn [option_map].
    rewrite spanDigits_app by reflexivity.
    destruct (spanDigits r2) as [d2 r3]. cbn [fst snd].
    destruct (nonEmpty d2); [|reflexivity].
    rewrite expectChar_app by reflexivity.
    destruct (expectChar "%" r3); [discriminate|reflexivity].
  - intros _. rewrite stripPrefix_scoreLiteral_app by assumption. reflexivity.
Qed.

Lemma matchPattern_unfold (s : string) :
  matchPattern s
  = match matchHere s with
    | Some capture => Some capture
    | None =>
        match s with
        | String _ s' => matchPattern s'
        | EmptyString => None
        end
    end.
Proof. destruct s; reflexivity. Qed.

Lemma matchPattern_app (pre x : string) :
  matchPattern pre = None ->
  matchPattern (pre +:+ String "C" x) = matchPattern (String "C" x).
Proof.
  induction pre as [|b pre IH]; intros H; [reflexivity|].
  rewrite matchPattern_unfold in H.
  destruct (matchHere (String b pre)) eqn:Eh; [discriminate|].
  rewrite matchPattern_unfold.
  rewrite matchHere_app_none by (assumption || discriminate).
  simpl. apply IH. exact H.
Qed.

Lemma matchPattern_first_occurrence (pre post : string) :
  matchPattern pre = None ->
  matchPattern (pre +:+ "Calculated similarity: 42.5%" +:+ post)
  = Some "42.5".
Proof.
  intros H.
  change ("Calculated similarity: 42.5%" +:+ post)
    with (String "C" ("alculated similarity: 42.5%" +:+ post)).
  rewrite matchPattern_app by exact H.
  rewrite matchPattern_unfold. reflexivity.
Qed.

(** With an earlier occurrence in the text, the earlier one is the
    match. *)
Example matchPattern_leftmost :
  matchPattern
    "Calculated similarity: 10.0% then Calculated similarity: 42.5%"
  = Some "10.0".
Proof. reflexivity. Qed.

Lemma matchPattern_empty : matchPattern "" = None.
Proof. reflexivity. Qed.

(** *** The pattern against its description *)

Lemma digit_char (c : ascii) : occursIn c "0123456789" = isDigit c.
Proof. destruct c as [[] [] [] [] [] [] [] []]; reflexivity. Qed.

Lemma allDecimal_span (d : string) :
  allDecimal d = true -> spanDigits d = (d, "").
Proof.
  induction d as [|c d IH]; [reflexivity|]. cbn [allDecimal].
  intros H. apply andb_true_iff in H. destruct H as [Hc Hd].
  rewrite digit_char in Hc. cbn [spanDigits]. rewrite Hc, (IH Hd).
  reflexivity.
Qed.

Lemma spanDigits_digits_then (d x : string) (c : ascii) :
  allDecimal d = true -> isDigit c = false ->
  spanDigits (d +:+ String c x) = (d, String c x).
Proof.
  intros Hd Hc. rewrite spanDigits_app by exact Hc.
  rewrite (allDecimal_span d Hd). reflexivity.
Qed.

Lemma spanDigits_spec (s d r : string) :
  spanDigits s = (d, r) -> s = d +:+ r /\ allDecimal d = true.
Proof.
  revert d r. induction s as [|c s IH]; intros d r H; cbn [spanDigits] in H.
  - injection H as <- <-. split; reflexivity.
  - destruct (isDigit c) eqn:Ec.
    + destruct (spanDigits s) as [d' r'] eqn:Es. injection H as <- <-.
      destruct (IH d' r' eq_refl) as [-> Hd]. split; [reflexivity|].
      cbn [allDecimal]. rewrite digit_char, Ec, Hd. reflexivity.
    + injection H as <- <-. split; reflexivity.
Qed.

Lemma stripPrefix_Some (lit s r : string) :
  stripPrefix lit s = Some r -> s = lit +:+ r.
Proof.
  revert s. induction lit as [|a lit IH]; intros s H.
  - destruct s; simpl in H; injection H as <-; reflexivity.
  - destruct s as [|b s]; simpl in H; [discriminate|].
    destruct (Ascii.eqb a b) eqn:E; [|discriminate].
    apply Ascii.eqb_eq in E. subst b. rewrite (IH s H). reflexivity.
Qed.

Lemma stripPrefix_append (lit x : string) :
  stripPrefix lit (lit +:+ x) = Some x.
Proof.
  induction lit as [|a lit IH]; [destruct x; reflexivity|].
  rewrite append_cons, stripPrefix_cons, Ascii.eqb_refl. exact IH.
Qed.

Lemma expectChar_Some (c : ascii) (s r : string) :
  expectChar c s = Some r -> s = String c r.
Proof.
  destruct s as [|b s]; simpl; [discriminate|].
  destruct (Ascii.eqb b c) eqn:E; [|discriminate].
  intros H. injection H as <-. apply Ascii.eqb_eq in E. subst b. reflexivity.
Qed.

Lemma expectChar_head (c : ascii) (s : string) :
  expectChar c (String c s) = Some s.
Proof. unfold expectChar. rewrite Ascii.eqb_refl. reflexivity. Qed.

Lemma scoreText_append (whole fraction post : string) :
  scoreText whole fraction +:+ post
  = scoreLiteral
    +:+ (whole +:+ String "." (fraction +:+ String "%" post)).
Proof.
  unfold scoreText, scoreLiteral. rewrite !append_assoc. reflexivity.
Qed.

Lemma digits_parts (d : string) :
  digits d = true <-> nonEmpty d = true /\ allDecimal d = true.
Proof. unfold digits, nonEmpty. apply andb_true_iff. Qed.

(** A match at the head of the text is an occurrence of the pattern at
    the head, and its capture is the decimal of the occurrence. *)
Lemma matchHere_sound (s capture : string) :
  matchHere s = Some capture ->
  exists whole fraction post,
    occurrence s "" whole fraction post
    /\ capture = whole +:+ "." +:+ fraction.
Proof.
  unfold matchHere.
  destruct (stripPrefix scoreLiteral s) as [r|] eqn:Es; [|discriminate].
  destruct (spanDigits r) as [d1 r1] eqn:E1.
  destruct (nonEmpty d1) eqn:N1; [|discriminate].
  destruct (expectChar "." r1) as [r2|] eqn:E2; [|discriminate].
  destruct (spanDigits r2) as [d2 r3] eqn:E3.
  destruct (nonEmpty d2) eqn:N2; [|discriminate].
  destruct (expectChar "%" r3) as [post|] eqn:E4; [|discriminate].
  intros H. injection H as <-.
  apply stripPrefix_Some in Es. apply spanDigits_spec in E1, E3.
  apply expectChar_Some in E2, E4.
  destruct E1 as [E1 H1], E3 as [E3 H3]. subst.
  exists d1, d2, post. split; [|reflexivity].
  split; [apply digits_parts; auto|].
  split; [apply digits_parts; auto|].
  change ("" +:+ scoreText d1 d2 +:+ post) with (scoreText d1 d2 +:+ post).
  rewrite scoreText_append. reflexivity.
Qed.

Lemma matchHere_complete (s whole fraction post : string) :
  occurrence s "" whole fraction post ->
  matchHere s = Some (whole +:+ "." +:+ fraction).
Proof.
  intros (Hw & Hf & ->).
  apply digits_parts in Hw, Hf. destruct Hw as [Nw Aw], Hf as [Nf Af].
  change ("" +:+ scoreText whole fraction +:+ post)
    with (scoreText whole fraction +:+ post).
  rewrite scoreText_append. unfold matchHere.
  rewrite stripPrefix_append.
  rewrite (spanDigits_digits_then whole _ "." Aw eq_refl), Nw.
  rewrite expectChar_head.
  rewrite (spanDigits_digits_then fraction _ "%" Af eq_refl), Nf.
  rewrite expectChar_head. reflexivity.
Qed.

Lemma occurrence_cons (c : ascii) (s pre whole fraction post : string) :
  occurrence s pre whole fraction post ->
  occurrence (String c s) (String c pre) whole fraction post.
Proof. intros (Hw & Hf & ->). repeat split; assumption. Qed.

Lemma occurrence_tail (c : ascii) (s pre whole fraction post : string) :
  occurrence (String c s) pre whole fraction post ->
  pre <> "" ->
  exists pre', pre = String c pre' /\ occurrence s pre' whole fraction post.
Proof.
  intros (Hw & Hf & E) Hpre. destruct pre as [|b pre]; [contradiction|].
  rewrite append_cons in E. injection E as <- ->.
  exists pre. split; [reflexivity|]. repeat split; assumption.
Qed.

(** A text without an occurrence of the pattern has no match. *)
Lemma matchPattern_none (s : string) :
  (forall pre whole fraction post, ~ occurrence s pre whole fraction post) ->
  matchPattern s = None.
Proof.
  induction s as [|c s IH]; intros Hnone.
  - reflexivity.
  - rewrite matchPattern_unfold.
    destruct (matchHere (String c s)) as [capture|] eqn:Eh.
    + destruct (matchHere_sound _ _ Eh) as (w & f & post & Hocc & _).
      exfalso. exact (Hnone "" w f post Hocc).
    + apply IH. intros pre w f post Hocc.
      exact (Hnone _ _ _ _ (occurrence_cons c _ _ _ _ _ Hocc)).
Qed.

(** The match is the capture of the first occurrence. *)
Lemma matchPattern_first (s pre whole fraction post : string) :
  firstOccurrence s pre whole fraction post ->
  matchPattern s = Some (whole +:+ "." +:+ fraction).
Proof.
  revert s. induction pre as [|c pre IH]; intros s [Hocc Hmin].
  - rewrite matchPattern_unfold, (matchHere_complete _ _ _ _ Hocc).
    reflexivity.
  - destruct s as [|b s].
    { destruct Hocc as (_ & _ & E). rewrite append_cons in E. discriminate E. }
    destruct (occurrence_tail _ _ _ _ _ _ Hocc ltac:(discriminate))
      as (pre0 & Epre & Htail).
    injection Epre as -> <-.
    rewrite matchPattern_unfold.
    destruct (matchHere (String b s)) as [capture|] eqn:Eh.
    + destruct (matchHere_sound _ _ Eh) as (w & f & post' & Hocc' & _).
      specialize (Hmin _ _ _ _ Hocc'). cbn [String.length] in Hmin. lia.
    + apply IH. split; [exact Htail|].
      intros pre' w f post' Hocc'.
      specialize (Hmin _ _ _ _ (occurrence_cons b _ _ _ _ _ Hocc')).
      cbn [String.length] in Hmin. lia.
Qed.

(** An occurrence is the first one when the text before it has no
    match. *)
Lemma firstOccurrence_intro (s pre whole fraction post : string) :
  occurrence s pre whole fraction post ->
  matchPattern pre = None ->
  firstOccurrence s pre whole fraction post.
Proof.
  intros Hocc Hpre. split; [exact Hocc|].
  destruct Hocc as (_ & _ & ->).
  rewrite scoreText_append.
  change (scoreLiteral +:+ ?x) with (String "C" ("alculated similarity: " +:+ x)).
  set (x := "alculated similarity: "
            +:+ (whole +:+ String "." (fraction +:+ String "%" post))).
  clearbody x. revert Hpre.
  induction pre as [|c pre IH]; intros Hpre pre' w f post' Hocc'.
  - cbn [String.length]. lia.
  - rewrite matchPattern_unfold in Hpre.
    destruct (matchHere (String c pre)) eqn:Eh; [discriminate|].
    destruct pre' as [|c' pre'].
    + exfalso.
      pose proof (matchHere_complete _ _ _ _ Hocc') as Hm.
      rewrite (matchHere_app_none (String c pre) x ltac:(discriminate) Eh)
        in Hm.
      discriminate Hm.
    + rewrite append_cons in Hocc'.
      destruct (occurrence_tail _ _ _ _ _ _ Hocc' ltac:(discriminate))
        as (pre0 & Epre & Htail).
      injection Epre as _ <-.
      specialize (IH Hpre _ _ _ _ Htail). cbn [String.length]. lia.
Qed.

Lemma digitsValueFrom_value (s : string) (acc : Z) :
  digitsValueFrom acc s
  = (acc * 10 ^ Z.of_nat (String.length s) + wholeNumber s)%Z.
Proof.
  revert acc. induction s as [|c s IH]; intros acc;
    cbn [digitsValueFrom wholeNumber String.length].
  - change (10 ^ Z.of_nat 0)%Z with 1%Z. lia.
  - rewrite IH. unfold digitValue.
    rewrite Nat2Z.inj_succ, Z.pow_succ_r by lia. ring.
Qed.

Lemma digitsValueFrom_append (a b : string) (acc : Z) :
  digitsValueFrom acc (a +:+ b) = digitsValueFrom (digitsValueFrom acc a) b.
Proof.
  revert acc. induction a as [|c a IH]; intros acc; [reflexivity|].
  rewrite append_cons. cbn [digitsValueFrom]. apply IH.
Qed.

(** [parseFloat] of a capture is the double nearest to the decimal it
    spells. *)
Lemma parseFloat_decimal (whole fraction : string) :
  digits whole = true -> digits fraction = true ->
  parseFloat (whole +:+ "." +:+ fraction)
  = Double.round (decimalValue whole fraction).
Proof.
  intros Hw Hf. apply digits_parts in Hw, Hf.
  destruct Hw as [Nw Aw], Hf as [Nf Af].
  unfold parseFloat.
  change (whole +:+ "." +:+ fraction) with (whole +:+ String "." fraction).
  rewrite (spanDigits_digits_then whole _ "." Aw eq_refl).
  rewrite expectChar_head, (allDecimal_span fraction Af), Nw. cbn [orb].
  apply round_compat.
  rewrite digitsValueFrom_append, !digitsValueFrom_value.
  unfold decimalValue.
  set (k := Z.of_nat (String.length fraction)).
  assert (0 < 10 ^ k)%Z as Hpow by (apply Z.pow_pos_nonneg; lia).
  rewrite Qmake_Qdiv, Z2Pos.id by exact Hpow.
  rewrite inject_Z_plus, inject_Z_mult, inject_Z_plus, inject_Z_mult.
  assert (~ inject_Z (10 ^ k) == 0)%Q as Hnz.
  { change 0%Q with (inject_Z 0). rewrite inject_Z_injective. lia. }
  change (inject_Z 0) with 0%Q. field. exact Hnz.
Qed.

End ScorePattern.

(** ** The student view *)

Section StudentClaims.

Import Student Examples Claimed.

Local Arguments resolveScore : simpl never.
Local Arguments String.eqb : simpl never.

(** Reduce projections of worlds and states by value, leaving the
    storage map and the strings as they are. *)
Ltac reduce_world :=
  cbv [fst snd state localStorage network
       userId name file submitted loading checkingWebSimilarity error
       openDialog snackbarOpen similarityScore submissionData reportUrl
       reportFilename
       submission_id student_name file_name submitted_at
       sd_web_similarity_score sd_report_url sd_report_filename
       notNull notUndefined toNumber isNaN negb andb orb].

(** Unfold the monadic plumbing of a handler and reduce. *)
Ltac run_acts :=
  cbv [clearLocalState bind ret axios setItem removeItem
       setName setFile setSubmitted setLoading setCheckingWebSimilarity
       setError setOpenDialog setSnackbarOpen setSimilarityScore
       setSubmissionData setReportUrl setReportFilename modify
       fst snd state localStorage network
       userId name file submitted loading checkingWebSimilarity error
       openDialog snackbarOpen similarityScore submissionData reportUrl
       reportFilename
       submission_id student_name file_name submitted_at
       sd_web_similarity_score sd_report_url sd_report_filename
       notNull notUndefined toNumber isNaN negb andb orb].

Lemma notNull_true (v : jsval) : v <> Null -> notNull v = true.
Proof. destruct v; [reflexivity|contradiction|reflexivity]. Qed.

(** C8.  With an empty name or no file selected, [handleSubmit] issues
    no request, sets a validation message, leaves [submitted] as it
    was (the form is only shown while it is false) and does not touch
    local storage. *)
Theorem handleSubmit_validates_before_network
    (id : string) (srv : server) (w : World) :
  name (state w) = "" \/ file (state w) = None ->
  let w' := snd (handleSubmit id srv w) in
  network w' = network w
  /\ localStorage w' = localStorage w
  /\ (error (state w') = "Please enter your name."
      \/ error (state w') = "Please upload a file before submitting.")
  /\ submitted (state w') = submitted (state w)
  /\ submissionData (state w') = submissionData (state w).
Proof.
  intros H. unfold handleSubmit.
  destruct (String.eqb (name (state w)) "") eqn:En.
  - simpl. repeat split; auto.
  - destruct (file (state w)) as [f|] eqn:Ef.
    + destruct H as [H|H]; [|discriminate].
      rewrite H in En. discriminate.
    + simpl. repeat split; auto.
Qed.

Lemma handleSubmit_validates_before_network_witness :
  network (snd (handleSubmit "7" agreeingServer freshWorld)) = []
  /\ submitted (state (snd (handleSubmit "7" agreeingServer freshWorld)))
     = false.
Proof.
  pose proof (handleSubmit_validates_before_network
                "7" agreeingServer freshWorld
                ltac:(left; reflexivity)) as (Hn & _ & _ & Hs & _).
  split; [exact Hn|exact Hs].
Defined.

(** C3, as stated, fails: a score alone does not stop the query.
    After a check whose answer carried a score and no report, the
    score is loaded and stored, and the next check calls the backend
    again. *)
Lemma cached_score_without_report_requeries :
  let w1 := snd (handleCheckWebSimilarity "7" scoreOnlyServer submittedWorld) in
  let w2 := snd (handleCheckWebSimilarity "7" scoreOnlyServer w1) in
  similarityScore (state w1) = Number (Num 42)
  /\ reportUrl (state w1) = None
  /\ network w1 = [WebSimilarity 55]
  /\ network w2 = [WebSimilarity 55; WebSimilarity 55].
Proof. repeat split. Qed.

(** C3, amended.  For a submitted assignment with its submission
    record, when both a similarity score and a report URL are already
    loaded, the check action issues no request and writes nothing to
    storage; it only opens the notification, and the score and report
    stay as they were. *)
Theorem check_with_cached_score_and_report
    (id : string) (srv : server) (w : World) (sid : Z) :
  submitted (state w) = true ->
  truthyId (submissionData (state w)) = Some sid ->
  similarityScore (state w) <> Null ->
  strTruthy (reportUrl (state w)) = true ->
  let w' := snd (handleCheckWebSimilarity id srv w) in
  network w' = network w
  /\ localStorage w' = localStorage w
  /\ snackbarOpen (state w') = true
  /\ similarityScore (state w') = similarityScore (state w)
  /\ reportUrl (state w') = reportUrl (state w)
  /\ submissionData (state w') = submissionData (state w)
  /\ error (state w') = error (state w).
Proof.
  intros Hsub Hid Hscore Hurl. unfold handleCheckWebSimilarity.
  rewrite Hsub, Hid, (notNull_true _ Hscore), Hurl. simpl.
  repeat split.
Qed.

Lemma check_with_cached_score_and_report_witness :
  network (snd (handleCheckWebSimilarity "7" unreachableServer cachedWorld))
  = []
  /\ similarityScore
       (state (snd (handleCheckWebSimilarity "7" unreachableServer cachedWorld)))
     = Number (Num 81).
Proof.
  pose proof (check_with_cached_score_and_report
                "7" unreachableServer cachedWorld 55%Z
                ltac:(reflexivity) ltac:(reflexivity)
                ltac:(discriminate) ltac:(reflexivity))
    as (Hn & _ & _ & Hs & _).
  split; [exact Hn|exact Hs].
Defined.

Lemma notUndefined_true (v : jsval) : v <> Undefined -> notUndefined v = true.
Proof. destruct v; [contradiction|reflexivity|reflexivity]. Qed.

Lemma resolveScore_from_summary (r : Response) (summary capture : string) :
  web_similarity_score r = Undefined -> similarity_score r = Undefined ->
  analysis_summary r = Some summary ->
  matchPattern summary = Some capture ->
  resolveScore r = Number (parseFloat capture).
Proof.
  intros Hw Hs Ha Hm. unfold resolveScore. rewrite Hw, Hs, Ha. simpl.
  destruct summary as [|c rest]; [discriminate Hm|].
  change (String.eqb (String c rest) "") with false. cbv iota.
  rewrite Hm. reflexivity.
Qed.

(** A check that is not short-circuited, answered with status
    ["success"] and a finite score: the score is loaded, the request
    was the only one, and the score is stored with the submission. *)
Lemma check_loads_resolved_score
    (id : string) (srv : server) (w : World) (sid : Z) (r : Response) (q : Q) :
  submitted (state w) = true ->
  truthyId (submissionData (state w)) = Some sid ->
  similarityScore (state w) = Null ->
  srv (WebSimilarity sid) = Resolved r ->
  isSuccess r = true ->
  resolveScore r = Number (Num q) ->
  let w' := snd (handleCheckWebSimilarity id srv w) in
  similarityScore (state w') = Number (Num q)
  /\ network w' = network w ++ [WebSimilarity sid]
  /\ exists sd, localStorage w' !! dataKey id = Some (Json sd)
                /\ sd_web_similarity_score sd = Number (Num q).
Proof.
  intros Hsub Hid Hnull Hsrv Hok Hscore.
  assert (exists sd, submissionData (state w) = Some sd) as [sd Esd].
  { unfold truthyId in Hid. destruct (submissionData (state w)); [eauto|discriminate]. }
  unfold handleCheckWebSimilarity.
  rewrite Hsub, Hid, Hnull, Esd.
  destruct w as [st ls net].
  destruct (truthyString (report_url r)) as [url|] eqn:Eurl;
    run_acts; rewrite Hsrv; reduce_world; rewrite Hok, Hscore; reduce_world;
    rewrite ?Eurl; reduce_world;
    (repeat split; eexists; split; [apply lookup_insert_eq|reflexivity]).
Qed.

(** C4, as stated, fails: the summary contains the text
    [Calculated similarity: 42.5%] and neither field is present, yet
    the resolved score is 10, the percentage of the earlier
    occurrence. *)
Lemma earlier_percentage_wins :
  web_similarity_score twoPercentages = Undefined
  /\ similarity_score twoPercentages = Undefined
  /\ analysis_summary twoPercentages
     = Some ("Calculated similarity: 10.0% before, "
             +:+ "Calculated similarity: 42.5%" +:+ " after filtering.")
  /\ resolveScore twoPercentages = Number (Num 10)
  /\ resolveScore twoPercentages <> Number (Num (85 # 2)).
Proof.
  assert (resolveScore twoPercentages = Number (Num 10)) as E
    by (vm_compute; reflexivity).
  split; [reflexivity|]. split; [reflexivity|]. split; [reflexivity|].
  split; [exact E|]. rewrite E. discriminate.
Qed.

Lemma resolveScore_without_summary (r : Response) :
  web_similarity_score r = Undefined -> similarity_score r = Undefined ->
  analysis_summary r = None -> resolveScore r = Null.
Proof.
  intros Hw Hs Ha. unfold resolveScore. rewrite Hw, Hs, Ha. reflexivity.
Qed.

Lemma resolveScore_no_match (r : Response) (summary : string) :
  web_similarity_score r = Undefined -> similarity_score r = Undefined ->
  analysis_summary r = Some summary ->
  matchPattern summary = None -> resolveScore r = Null.
Proof.
  intros Hw Hs Ha Hm. unfold resolveScore. rewrite Hw, Hs, Ha. simpl.
  destruct (String.eqb summary ""); [reflexivity|].
  rewrite Hm. reflexivity.
Qed.

(** C4, amended.  The score of a web-similarity answer is taken from
    [web_similarity_score] when that field is present, else from
    [similarity_score] when present, else from [analysis_summary]: it
    is the double nearest to the decimal of the first occurrence of
    [Calculated similarity: D.D%] in the summary, each [D] a non-empty
    run of decimal digits, and there is no score when the summary is
    absent or has no such occurrence.  For a summary whose first
    occurrence reads [Calculated similarity: 42.5%], and neither direct
    field, the score is exactly 42.5, which is then the score the check
    action loads. *)
Theorem resolveScore_precedence (r : Response) :
  (web_similarity_score r <> Undefined ->
   resolveScore r = web_similarity_score r)
  /\ (web_similarity_score r = Undefined -> similarity_score r <> Undefined ->
      resolveScore r = similarity_score r)
  /\ (web_similarity_score r = Undefined -> similarity_score r = Undefined ->
      (analysis_summary r = None -> resolveScore r = Null)
      /\ forall summary,
           analysis_summary r = Some summary ->
           ((forall pre whole fraction post,
               ~ occurrence summary pre whole fraction post) ->
            resolveScore r = Null)
           /\ (forall pre whole fraction post,
                 firstOccurrence summary pre whole fraction post ->
                 resolveScore r
                 = Number (Double.round (decimalValue whole fraction)))
           /\ (forall pre post,
                 firstOccurrence summary pre "42" "5" post ->
                 resolveScore r = Number (Num (85 # 2))
                 /\ forall id srv w sid,
                      submitted (state w) = true ->
                      truthyId (submissionData (state w)) = Some sid ->
                      similarityScore (state w) = Null ->
                      srv (WebSimilarity sid) = Resolved r ->
                      isSuccess r = true ->
                      similarityScore
                        (state (snd (handleCheckWebSimilarity id srv w)))
                      = Number (Num (85 # 2)))).
Proof.
  split; [|split].
  - intros Hw. unfold resolveScore.
    rewrite (notUndefined_true _ Hw). reflexivity.
  - intros Hw Hs. unfold resolveScore.
    rewrite Hw, (notUndefined_true _ Hs). reflexivity.
  - intros Hw Hs. split; [apply resolveScore_without_summary; assumption|].
    intros summary Ha.
    assert (forall pre whole fraction post,
              firstOccurrence summary pre whole fraction post ->
              resolveScore r
              = Number (Double.round (decimalValue whole fraction)))
      as Hfirst.
    { intros pre whole fraction post Hocc.
      rewrite (resolveScore_from_summary r summary
                 (whole +:+ "." +:+ fraction) Hw Hs Ha
                 (matchPattern_first _ _ _ _ _ Hocc)).
      destruct Hocc as [(Hwhole & Hfraction & _) _].
      rewrite (parseFloat_decimal _ _ Hwhole Hfraction). reflexivity. }
    split; [|split; [exact Hfirst|]].
    + intros Hnone.
      apply (resolveScore_no_match r summary Hw Hs Ha).
      apply matchPattern_none. exact Hnone.
    + intros pre post Hocc.
      assert (resolveScore r = Number (Num (85 # 2))) as Hscore.
      { rewrite (Hfirst _ _ _ _ Hocc). vm_compute. reflexivity. }
      split; [exact Hscore|].
      intros id srv w sid Hsub Hid Hnull Hsrv Hok.
      apply (check_loads_resolved_score id srv w sid r (85 # 2)); assumption.
Qed.

Lemma resolveScore_precedence_witness :
  resolveScore summaryResponse = Number (Num (85 # 2))
  /\ similarityScore
       (state (snd (handleCheckWebSimilarity "7" summaryServer submittedWorld)))
     = Number (Num (85 # 2)).
Proof.
  destruct (resolveScore_precedence summaryResponse) as (_ & _ & H).
  destruct (H eq_refl eq_refl) as (_ & Hsummary).
  destruct (Hsummary _ eq_refl) as (_ & _ & Hscenario).
  destruct (Hscenario "Checked 12 sources. " " of the text matched.")
    as [Hscore Hload].
  { apply firstOccurrence_intro; [|reflexivity].
    repeat split; reflexivity. }
  split; [exact Hscore|].
  apply (Hload "7" summaryServer submittedWorld 55%Z); reflexivity.
Defined.

(** *** Removing a submission *)

Lemma keys_differ (id : string) : statusKey id <> dataKey id.
Proof.
  unfold statusKey, dataKey. intros E.
  assert (forall a b c : string, a +:+ b = a +:+ c -> b = c) as Hcancel.
  { intros a b c. induction a as [|x a IH]; simpl; [auto|].
    intros H. injection H as H. auto. }
  apply Hcancel, Hcancel in E. discriminate E.
Qed.

Lemma cleared_status (id : string) (m : gmap string stored) :
  delete (dataKey id) (delete (statusKey id) m) !! statusKey id = None.
Proof.
  rewrite lookup_delete_ne
    by (intros E; symmetry in E; exact (keys_differ id E)).
  apply lookup_delete_eq.
Qed.

Lemma cleared_data (id : string) (m : gmap string stored) :
  delete (dataKey id) (delete (statusKey id) m) !! dataKey id = None.
Proof. apply lookup_delete_eq. Qed.

Lemma clearLocalState_clears (id : string) (w : World) :
  localCleared id (snd (clearLocalState id w))
  /\ network (snd (clearLocalState id w)) = network w.
Proof.
  destruct w as [st ls net]. unfold localCleared. run_acts.
  repeat split; auto using cleared_status, cleared_data.
Qed.

(** The delete call rejects: local state is cleared all the same. *)
Lemma handleRemove_rejected_clears
    (id : string) (srv : server) (w : World) (sid : Z) (m : option string) :
  truthyId (submissionData (state w)) = Some sid ->
  srv (DeleteSubmission sid) = Rejected m ->
  localCleared id (snd (handleRemove id srv w))
  /\ network (snd (handleRemove id srv w)) = network w ++ [DeleteSubmission sid].
Proof.
  intros Hid Hsrv. unfold handleRemove. rewrite Hid.
  destruct w as [st ls net].
  unfold localCleared. run_acts. rewrite Hsrv. reduce_world.
  repeat split; auto using cleared_status, cleared_data.
Qed.

(** The delete call resolves with status ["success"]: local state is
    cleared whatever becomes of the report delete. *)
Lemma handleRemove_success_clears
    (id : string) (srv : server) (w : World) (sid : Z) (r : Response) :
  truthyId (submissionData (state w)) = Some sid ->
  srv (DeleteSubmission sid) = Resolved r ->
  isSuccess r = true ->
  localCleared id (snd (handleRemove id srv w)).
Proof.
  intros Hid Hsrv Hok. unfold handleRemove. rewrite Hid.
  destruct w as [st ls net].
  destruct (truthyString (reportFilename (state (mkWorld st ls net))));
    unfold localCleared; run_acts; rewrite Hsrv; reduce_world;
    rewrite Hok; reduce_world;
    repeat split; auto using cleared_status, cleared_data.
Qed.

(** The delete call resolves with any other status: nothing local is
    cleared; only the error text, the dialog and the spinner change. *)
Lemma handleRemove_non_success_keeps
    (id : string) (srv : server) (w : World) (sid : Z) (r : Response) :
  truthyId (submissionData (state w)) = Some sid ->
  srv (DeleteSubmission sid) = Resolved r ->
  isSuccess r = false ->
  let w' := snd (handleRemove id srv w) in
  localStorage w' = localStorage w
  /\ submitted (state w') = submitted (state w)
  /\ submissionData (state w') = submissionData (state w)
  /\ similarityScore (state w') = similarityScore (state w)
  /\ error (state w')
     = strOr (message r) "Failed to remove submission. Please try again."
  /\ network w' = network w ++ [DeleteSubmission sid].
Proof.
  intros Hid Hsrv Hok. unfold handleRemove. rewrite Hid.
  destruct w as [[] ls net].
  run_acts. rewrite Hsrv. reduce_world. rewrite Hok. reduce_world.
  repeat split.
Qed.

(** C1 fails on the code when the delete call resolves with a status
    other than ["success"]: for assignment 7 with stored submission 55
    and a backend that answers ["error"], the status key and the data
    blob are still stored after [handleRemove], and the view is still
    in the submitted state. *)
Theorem handleRemove_non_success_leaves_submission :
  let w' := snd (handleRemove "7" refusingServer submittedWorld) in
  network w' = [DeleteSubmission 55]
  /\ localStorage w' !! statusKey "7" = Some (Raw "submitted")
  /\ localStorage w' !! dataKey "7" = Some (Json submission55)
  /\ submitted (state w') = true
  /\ submissionData (state w') = Some submission55
  /\ error (state w') = "Submission is locked"
  /\ ~ localCleared "7" w'.
Proof.
  assert (localStorage submittedWorld !! statusKey "7" = Some (Raw "submitted"))
    as Hstatus by apply lookup_insert_eq.
  assert (localStorage submittedWorld !! dataKey "7" = Some (Json submission55))
    as Hdata.
  { unfold submittedWorld. cbn [localStorage].
    rewrite lookup_insert_ne by apply keys_differ. apply lookup_insert_eq. }
  pose proof (handleRemove_non_success_keeps
                "7" refusingServer submittedWorld 55%Z _
                eq_refl eq_refl eq_refl)
    as (Hls & Hsub & Hsd & _ & Herr & Hnet).
  cbv zeta. rewrite Hls. repeat split; try assumption.
  intros (_ & _ & Hfalse & _). rewrite Hsub in Hfalse. discriminate Hfalse.
Qed.

(** The same backend failing by rejection instead: everything is
    cleared. *)
Example handleRemove_rejecting_backend :
  localCleared "7" (snd (handleRemove "7" unreachableServer submittedWorld)).
Proof.
  apply (handleRemove_rejected_clears "7" unreachableServer submittedWorld
           55%Z None); reflexivity.
Qed.

End StudentClaims.

(** ** The lecturer's views *)

Section LecturerClaims.

Import Lecturer LecturerExamples.

Lemma lookup_map {A B} (f : A -> B) (l : list A) (i : nat) :
  map f l !! i = option_map f (l !! i).
Proof.
  revert i. induction l as [|x l IH]; intros [|i]; simpl; auto.
Qed.

(** After a grade call that resolves, the list on display is the list
    of the handler's render with the same length and the same ids in
    the same order; an entry of that list whose id is not the graded
    one is taken over as it is, and an entry whose id is the graded one
    gets the grade, the feedback and status ["graded"] and keeps its
    other fields. *)
Lemma gradeSettled_frame (shown : list Submission) (submissionId : option Z)
    (g : number) (f : string) (v : View) (r : Response) :
  let v' := gradeSettled shown (Resolved r) submissionId g f v in
  length (submissions v') = length shown
  /\ map id (submissions v') = map id shown
  /\ alerts v' = alerts v
  /\ network v' = network v
  /\ forall i sub,
       shown !! i = Some sub ->
       (id sub <> submissionId -> submissions v' !! i = Some sub)
       /\ (id sub = submissionId ->
           submissions v' !! i = Some (patch g f sub)).
Proof.
  cbv zeta. unfold gradeSettled. cbn [submissions alerts network].
  split; [apply length_map|]. split; [|split; [reflexivity|split; [reflexivity|]]].
  - rewrite map_map. apply map_ext. intros sub.
    destruct (decide (id sub = submissionId)); reflexivity.
  - intros i sub Hi. rewrite lookup_map, Hi. simpl. split.
    + intros Hne. destruct (decide (id sub = submissionId)); [contradiction|].
      reflexivity.
    + intros Heq. destruct (decide (id sub = submissionId)); [|contradiction].
      reflexivity.
Qed.

(** Two grade calls that overlap.  Both buttons belong to the same
    render, so both handlers hold the list [shown].  When the first
    call settles, the entry with id [s1] is graded; when the second
    settles, line 201 maps over [shown] again and replaces the state:
    the entry with id [s1], which is not the id of the second call,
    goes back to what it was before the first call, though both calls
    reached the backend. *)
Lemma later_patch_reverts_earlier
    (shown : list Submission) (srv : server) (s1 s2 : option Z)
    (g1 g2 : number) (f1 f2 : string) (v : View) (r1 r2 : Response)
    (i : nat) (sub : Submission) :
  s1 <> s2 ->
  srv (GradeSubmission s1 g1 f1) = Resolved r1 ->
  srv (GradeSubmission s2 g2 f2) = Resolved r2 ->
  shown !! i = Some sub -> id sub = s1 ->
  status sub <> Some "graded" ->
  let issued := gradeCall s2 g2 f2 (gradeCall s1 g1 f1 v) in
  let first :=
    gradeSettled shown (srv (GradeSubmission s1 g1 f1)) s1 g1 f1 issued in
  let second :=
    gradeSettled shown (srv (GradeSubmission s2 g2 f2)) s2 g2 f2 first in
  submissions issued = submissions v
  /\ network second
     = network v ++ [GradeSubmission s1 g1 f1; GradeSubmission s2 g2 f2]
  /\ submissions first !! i = Some (patch g1 f1 sub)
  /\ submissions second !! i = Some sub
  /\ submissions second !! i <> submissions first !! i.
Proof.
  intros Hne Hr1 Hr2 Hi Hid Hst. cbv zeta. rewrite Hr1, Hr2.
  destruct (gradeSettled_frame shown s1 g1 f1
              (gradeCall s2 g2 f2 (gradeCall s1 g1 f1 v)) r1)
    as (_ & _ & _ & Hnet1 & Hframe1).
  destruct (gradeSettled_frame shown s2 g2 f2
              (gradeSettled shown (Resolved r1) s1 g1 f1
                 (gradeCall s2 g2 f2 (gradeCall s1 g1 f1 v))) r2)
    as (_ & _ & _ & Hnet2 & Hframe2).
  cbv zeta in Hnet1, Hframe1, Hnet2, Hframe2.
  assert (submissions
            (gradeSettled shown (Resolved r1) s1 g1 f1
               (gradeCall s2 g2 f2 (gradeCall s1 g1 f1 v))) !! i
          = Some (patch g1 f1 sub)) as H1
    by (apply (Hframe1 i sub Hi); exact Hid).
  assert (submissions
            (gradeSettled shown (Resolved r2) s2 g2 f2
               (gradeSettled shown (Resolved r1) s1 g1 f1
                  (gradeCall s2 g2 f2 (gradeCall s1 g1 f1 v)))) !! i
          = Some sub) as H2
    by (apply (Hframe2 i sub Hi); congruence).
  split; [reflexivity|]. split.
  - rewrite Hnet2, Hnet1. cbn [gradeCall network].
    rewrite <- app_assoc. reflexivity.
  - split; [exact H1|]. split; [exact H2|].
    rewrite H1, H2. intros E. injection E as E.
    apply Hst. rewrite E. reflexivity.
Qed.

(** C10 fails on the code when two grade calls overlap: with Alice,
    Bob and Carol pending, the lecturer grades Alice's submission and,
    before that call has settled, Bob's.  Both calls reach the backend
    and resolve.  When the second settles, Alice's entry, whose id is
    not the one graded by that call, loses the grade, the feedback and
    the status it had on display. *)
Theorem overlapping_grades_revert_earlier :
  let issued :=
    gradeCall (Some 2%Z) (Num 70) "Fair"
      (gradeCall (Some 1%Z) (Num 90) "Good" classView) in
  let first :=
    gradeSettled (submissions classView)
      (Examples.agreeingServer (GradeSubmission (Some 1%Z) (Num 90) "Good"))
      (Some 1%Z) (Num 90) "Good" issued in
  let second :=
    gradeSettled (submissions classView)
      (Examples.agreeingServer (GradeSubmission (Some 2%Z) (Num 70) "Fair"))
      (Some 2%Z) (Num 70) "Fair" first in
  submissions issued = submissions classView
  /\ network second
     = [GradeSubmission (Some 1%Z) (Num 90) "Good";
        GradeSubmission (Some 2%Z) (Num 70) "Fair"]
  /\ submissions first !! 0%nat
     = Some (patch (Num 90) "Good" (pending 1 "Alice"))
  /\ submissions second !! 0%nat = Some (pending 1 "Alice")
  /\ submissions second !! 0%nat <> submissions first !! 0%nat.
Proof.
  apply (later_patch_reverts_earlier (submissions classView)
           Examples.agreeingServer (Some 1%Z) (Some 2%Z) (Num 90) (Num 70)
           "Good" "Fair" classView
           (Examples.bareResponse "success") (Examples.bareResponse "success")
           0%nat (pending 1 "Alice"));
    try reflexivity; discriminate.
Qed.

Lemma app_singleton_neq {A} (l : list A) (x : A) : l ++ [x] <> l.
Proof.
  intros E. apply (f_equal (@length A)) in E.
  rewrite length_app in E. simpl in E. lia.
Qed.

Lemma handleGradeSubmission_network (shown : list Submission) (srv : server)
    (submissionId : option Z) (g : number) (f : string) (v : View) :
  network (handleGradeSubmission shown srv submissionId g f v)
  = network v ++ [GradeSubmission submissionId g f].
Proof.
  unfold handleGradeSubmission, gradeSettled.
  destruct (srv (GradeSubmission submissionId g f)); reflexivity.
Qed.

(** C7, as stated, fails: the text [100.5] denotes a number above 100,
    yet the click sends grade 100 to the backend and shows no
    message. *)
Lemma fractional_grade_accepted :
  let v' := gradeClick (submissions classView) Examples.agreeingServer
              (pending 2 "Bob") (Some "100.5") (Some "Good") classView in
  Student.parseFloat "100.5" = Num (201 # 2)
  /\ Claimed.gradeRejected (Num (201 # 2)) = true
  /\ parseInt "100.5" = Num 100
  /\ network v' = [GradeSubmission (Some 2%Z) (Num 100) "Good"]
  /\ alerts v' = [].
Proof. repeat split. Qed.

(** C7, amended.  With both prompts answered, the click shows the
    validation message and issues no request exactly when the integer
    that [parseInt] reads at the head of the entered text is [NaN],
    below 0 or above 100; otherwise it issues the one grade request,
    carrying that integer. *)
Theorem grade_rejected_iff (shown : list Submission) (srv : server)
    (sub : Submission) (g f : string) (v : View) :
  let v' := gradeClick shown srv sub (Some g) (Some f) v in
  ((alerts v' = alerts v ++ [validationMessage] /\ network v' = network v)
   <-> Claimed.gradeRejected (parseInt g) = true)
  /\ (Claimed.gradeRejected (parseInt g) = false ->
      network v' = network v ++ [GradeSubmission (id sub) (parseInt g) f]).
Proof.
  unfold gradeClick, Claimed.gradeRejected.
  destruct (isNaN (parseInt g) || numLt (parseInt g) (Num 0)
            || numGt (parseInt g) (Num 100)) eqn:E; cbv zeta; simpl.
  - split; [|discriminate]. split; auto.
  - split; [|intros _; apply handleGradeSubmission_network].
    split; [|discriminate]. intros [_ Hnet]. exfalso.
    rewrite handleGradeSubmission_network in Hnet.
    exact (app_singleton_neq _ _ Hnet).
Qed.

Lemma grade_rejected_iff_witness :
  network (gradeClick (submissions classView) Examples.agreeingServer
             (pending 2 "Bob") (Some "85") (Some "Good") classView)
  = [GradeSubmission (Some 2%Z) (Num 85) "Good"]
  /\ alerts (gradeClick (submissions classView) Examples.agreeingServer
               (pending 2 "Bob") (Some "101") (Some "Good") classView)
     = [validationMessage].
Proof.
  split.
  - apply (proj2 (grade_rejected_iff (submissions classView)
                    Examples.agreeingServer (pending 2 "Bob")
                    "85" "Good" classView)). reflexivity.
  - apply (proj2 (proj1 (grade_rejected_iff (submissions classView)
                           Examples.agreeingServer
                           (pending 2 "Bob") "101" "Good" classView))).
    reflexivity.
Defined.

(** What [parseInt] makes of some entered texts. *)
Example parseInt_samples :
  parseInt "0" = Num 0 /\ parseInt "100" = Num 100
  /\ parseInt "101" = Num 101 /\ parseInt "-1" = Num (-1)
  /\ parseInt "abc" = NaN /\ parseInt "" = NaN
  /\ parseInt "50abc" = Num 50 /\ parseInt " 7" = Num 7
  /\ parseInt "1e3" = Num 1 /\ parseInt "0x10" = Num 16.
Proof. repeat split. Qed.

End LecturerClaims.

(** ** The threshold filter *)

Section WorkspaceClaims.

Import Workspace WorkspaceExamples.

Lemma similarityScoreOf_first (r : ComparisonResult) :
  toNumber (similarityScoreOf r) = Claimed.firstNonzeroScore r.
Proof.
  unfold similarityScoreOf, Claimed.firstNonzeroScore, JS.or.
  destruct (truthy (web_similarity_score r)) eqn:Ew; rewrite ?Ew.
  - reflexivity.
  - destruct (truthy (similarity_score r)) eqn:Es; rewrite ?Es.
    + reflexivity.
    + destruct (truthy (similarity r)) eqn:Et; rewrite ?Et; reflexivity.
Qed.

(** C2, as stated, fails: a row with [web_similarity_score] 10 and
    [similarity_score] 90 has maximum 90, yet with the threshold at 50
    the filter drops it, because the first non-zero field, 10, is the
    one compared. *)
Lemma filter_uses_first_field_not_max :
  filterResults (Num 50) (Some [twoScores]) = []
  /\ (50 <= Claimed.maxScore twoScores)%Q
  /\ Claimed.firstNonzeroScore twoScores = Num 10.
Proof.
  split; [reflexivity|]. split; [|reflexivity].
  vm_compute. discriminate.
Qed.

Lemma Qmax_zero_chain (q : Q) :
  (0 <= q)%Q -> (Qmax q (Qmax 0 (Qmax 0 0)) == q)%Q.
Proof.
  intros Hq.
  assert (Qmax 0 0 == 0)%Q as E0 by (apply Q.max_l; apply Qle_refl).
  assert (Qmax 0 (Qmax 0 0) == 0)%Q as E1.
  { apply Q.max_l. rewrite E0. apply Qle_refl. }
  apply Q.max_l. rewrite E1. exact Hq.
Qed.

(** C2, amended.  A row is displayed exactly when the first of
    [web_similarity_score], [similarity_score] and [similarity] that is
    present and not zero (0 when there is none) is at least the
    threshold; a null result list displays nothing.  On a row whose
    only score is a non-negative [web_similarity_score] this is the
    maximum of the claim. *)
Theorem filter_displays_iff (t : number) (results : list ComparisonResult)
    (r : ComparisonResult) :
  (In r (filterResults t (Some results))
   <-> In r results /\ numGe (Claimed.firstNonzeroScore r) t = true)
  /\ filterResults t None = []
  /\ (forall q,
        web_similarity_score r = Number (Num q) -> (0 <= q)%Q ->
        similarity_score r = Undefined -> similarity r = Undefined ->
        numEq (Claimed.firstNonzeroScore r) (Num (Claimed.maxScore r))).
Proof.
  split; [|split; [reflexivity|]].
  - unfold filterResults. rewrite filter_In, similarityScoreOf_first.
    reflexivity.
  - intros q Hw Hq Hs Ht.
    unfold Claimed.firstNonzeroScore, Claimed.maxScore.
    rewrite Hw, Hs, Ht.
    cbn [Claimed.fieldValue truthy numTruthy toNumber].
    pose proof (Qmax_zero_chain q Hq) as Hmax.
    destruct (Qeq_bool q 0) eqn:E; cbn [negb numEq].
    + apply Qeq_bool_iff in E. rewrite Hmax. symmetry. exact E.
    + rewrite Hmax. reflexivity.
Qed.

Lemma filter_displays_iff_witness :
  In webRow (filterResults (Num 70) (Some [webRow]))
  /\ numEq (Claimed.firstNonzeroScore webRow) (Num (Claimed.maxScore webRow)).
Proof.
  destruct (filter_displays_iff (Num 70) [webRow] webRow) as (Hiff & _ & Hmax).
  split.
  - apply Hiff. split; [left; reflexivity|reflexivity].
  - apply (Hmax 81%Q); [reflexivity|discriminate|reflexivity|reflexivity].
Defined.

End WorkspaceClaims.

(** * Further properties *)

(** ** The fallback matcher *)

Section MatcherMore.

Import Report Claimed.

(** X1.  The similarity ratio does not depend on the order of its two
    arguments. *)
Theorem calculateStringSimilarity_sym (str1 str2 : option string) :
  calculateStringSimilarity str1 str2 = calculateStringSimilarity str2 str1.
Proof.
  destruct str1 as [s1|], str2 as [s2|];
    rewrite ?similarity_absent_r; try reflexivity.
  destruct (similarity_cases s1 s2)
    as [[[-> | ->] ->] | [[[_ <-] ->] | [(H1 & H2 & Hne) ->]]].
  - rewrite similarity_empty_r. reflexivity.
  - reflexivity.
  - reflexivity.
  - rewrite (similarity_nonempty_distinct s2 s1 H2 H1).
    + rewrite positionalMatches_sym, Nat.max_comm. reflexivity.
    + destruct (String.eqb s2 s1) eqn:E; [|reflexivity].
      apply String.eqb_eq in E. congruence.
Qed.

Lemma filter_length_all {A} (f : A -> bool) (l : list A) :
  length (List.filter f l) = length l -> forall x, In x l -> f x = true.
Proof.
  induction l as [|y l IH]; simpl; [contradiction|].
  intros Hlen x [<- | Hx].
  - destruct (f y); [reflexivity|].
    pose proof (filter_length_le f l). lia.
  - apply IH; [|exact Hx].
    destruct (f y); simpl in Hlen; [lia|].
    pose proof (filter_length_le f l). lia.
Qed.

Lemma get_beyond (s : string) (i : nat) :
  (String.length s <= i)%nat -> String.get i s = None.
Proof.
  revert i. induction s as [|c s IH]; intros i Hi; [reflexivity|].
  destruct i as [|i]; simpl in *; [lia|]. apply IH. lia.
Qed.

Lemma positionalMatches_full (s1 s2 : string) :
  String.length s1 = String.length s2 ->
  positionalMatches s1 s2 = String.length s1 -> s1 = s2.
Proof.
  intros Hlen Hpm. apply String.get_correct. intros i.
  destruct (Nat.lt_ge_cases i (String.length s1)) as [Hi|Hi].
  - unfold positionalMatches in Hpm.
    rewrite <- Hlen, Nat.min_id in Hpm.
    assert (length (seq 0 (String.length s1)) = String.length s1) as Hseq
      by apply length_seq.
    rewrite <- Hseq in Hpm at 2.
    pose proof (filter_length_all _ _ Hpm i) as Hall.
    specialize (Hall ltac:(apply in_seq; lia)).
    apply bool_decide_eq_true in Hall. exact Hall.
  - rewrite !get_beyond by lia. reflexivity.
Qed.

(** X2.  Only identical non-empty units reach ratio 1: two units that
    differ anywhere, in a character or in length, score below 1. *)
Theorem ratio_one_iff_identical (s1 s2 : string) :
  numEq (calculateStringSimilarity (Some s1) (Some s2)) (Num 1)
  <-> s1 = s2 /\ s1 <> "".
Proof.
  destruct (similarity_cases s1 s2)
    as [[Hempty ->] | [[[Hne <-] ->] | [(H1 & H2 & Hne) ->]]].
  - split; [intros H; discriminate H|].
    intros [<- Hne]. destruct Hempty; contradiction.
  - split; [auto|reflexivity].
  - split; [|intros [E _]; contradiction].
    intros Hone. exfalso.
    pose proof (positionalMatches_le s1 s2) as Hle.
    unfold numEq, Qeq in Hone. simpl in Hone.
    rewrite Zpos_of_nat in Hone by lia.
    assert (String.length s1 = String.length s2) as Hlen by lia.
    apply Hne, positionalMatches_full; [exact Hlen|lia].
Qed.

Lemma round_percentage_bounds (q : Q) :
  (7 # 10 < q)%Q -> (q <= 1)%Q ->
  (70 <= Qfloor (q * 100 + (1 # 2)) <= 100)%Z.
Proof.
  intros Hlo Hhi.
  assert (Qfloor (70 # 1) <= Qfloor (q * 100 + (1 # 2)))%Z as H70
    by (apply Qfloor_resp_le; lra).
  assert (Qfloor (q * 100 + (1 # 2)) <= Qfloor (201 # 2))%Z as H100
    by (apply Qfloor_resp_le; lra).
  change (Qfloor (70 # 1)) with 70%Z in H70.
  change (Qfloor (201 # 2)) with 100%Z in H100.
  split; assumption.
Qed.

(** X3.  Every pair the matcher collects carries a whole percentage
    between 70 and 100. *)
Theorem collected_percentage_range (segments1 segments2 : list string)
    (m : SimilarSegment) :
  In m (collectSimilar segments1 segments2) ->
  exists k : Z, similarity m = Num (inject_Z k) /\ (70 <= k <= 100)%Z.
Proof.
  intros Hm. apply in_collectSimilar in Hm.
  destruct Hm as (i & j & u1 & u2 & _ & _ & Hgt & ->). simpl.
  destruct (calculateStringSimilarity_unit_interval (Some u1) (Some u2))
    as ((q & Eq & _ & Hq1) & _).
  rewrite Eq in *. simpl. eexists. split; [reflexivity|].
  apply round_percentage_bounds; [|exact Hq1].
  unfold numGt, numLt, threshold in Hgt.
  destruct (Qcompare_spec (7 # 10) q); try discriminate. assumption.
Qed.

Lemma collected_percentage_range_witness :
  exists k : Z,
    similarity {| text1 := "abcd"; text2 := "abcX"; text1Index := 0;
                  text2Index := 0; similarity := Num 75 |}
    = Num (inject_Z k) /\ (70 <= k <= 100)%Z.
Proof.
  apply (collected_percentage_range ["abcd"] ["abcX"]).
  left. reflexivity.
Defined.

(** X4.  The two panes always hold the same number of segments, and
    they are empty exactly when no pair was collected and the aggregate
    score is not above zero. *)
Theorem panes_same_length (t1 t2 : string) (score : number) :
  length (fst (processAndHighlightContent t1 t2 score))
  = length (snd (processAndHighlightContent t1 t2 score))
  /\ (fst (processAndHighlightContent t1 t2 score) = []
      <-> collectSimilar (splitSentences t1) (splitSentences t2) = []
          /\ numGt score (Num 0) = false).
Proof.
  destruct (collectSimilar (splitSentences t1) (splitSentences t2))
    as [|m l] eqn:E.
  - rewrite (process_without_matches t1 t2 score E).
    destruct (numGt score (Num 0)); simpl.
    + split; [reflexivity|]. split; [discriminate|].
      intros [_ H]. discriminate H.
    + split; [reflexivity|]. split; auto.
  - assert (In m (collectSimilar (splitSentences t1) (splitSentences t2)))
      as Hm by (rewrite E; left; reflexivity).
    rewrite (process_with_matches t1 t2 score m Hm). rewrite E. simpl.
    rewrite !length_map, !length_insertByKey.
    fold (sortByKey text1Index l). fold (sortByKey text2Index l).
    rewrite !length_sortByKey. split; [reflexivity|].
    split; [|intros [H _]; discriminate H].
    intros H. apply (f_equal (@length TextSegment)) in H.
    rewrite length_map, length_insertByKey in H. discriminate H.
Qed.

End MatcherMore.

(** ** The student view *)

Section StudentMore.

Import Student StudentView Examples Claimed Notions.

Local Arguments resolveScore : simpl never.
Local Arguments String.eqb : simpl never.

Ltac reduce_view :=
  cbv [fst snd state localStorage network
       userId name file submitted loading checkingWebSimilarity error
       openDialog snackbarOpen similarityScore submissionData reportUrl
       reportFilename
       submission_id student_name file_name submitted_at
       sd_web_similarity_score sd_report_url sd_report_filename
       notNull notUndefined toNumber isNaN negb andb orb].

Ltac run_view :=
  cbv [clearLocalState bind ret axios setItem removeItem
       setName setFile setSubmitted setLoading setCheckingWebSimilarity
       setError setOpenDialog setSnackbarOpen setSimilarityScore
       setSubmissionData setReportUrl setReportFilename modify
       fst snd state localStorage network
       userId name file submitted loading checkingWebSimilarity error
       openDialog snackbarOpen similarityScore submissionData reportUrl
       reportFilename
       submission_id student_name file_name submitted_at
       sd_web_similarity_score sd_report_url sd_report_filename
       notNull notUndefined toNumber isNaN negb andb orb].

Lemma strOr_nonempty (m : option string) (d : string) :
  d <> "" -> strOr m d <> "".
Proof.
  intros Hd. unfold strOr. destruct m as [s|]; [|exact Hd].
  destruct (String.eqb s "") eqn:E; [exact Hd|].
  intros ->. discriminate E.
Qed.

(** X5.  A submit call that rejects, or resolves with a status other
    than ["success"], leaves local storage, the submitted flag and the
    submission record as they were; the one request has been made, an
    error text is set and the spinner is off. *)
Theorem handleSubmit_failure_keeps_state
    (id : string) (srv : server) (w : World) (f : string) :
  name (state w) <> "" ->
  file (state w) = Some f ->
  (forall r, srv (submitRequest id (state w) f) = Resolved r ->
             isSuccess r = false) ->
  let w' := snd (handleSubmit id srv w) in
  network w' = network w ++ [submitRequest id (state w) f]
  /\ localStorage w' = localStorage w
  /\ submitted (state w') = submitted (state w)
  /\ submissionData (state w') = submissionData (state w)
  /\ similarityScore (state w') = similarityScore (state w)
  /\ error (state w') <> ""
  /\ loading (state w') = false.
Proof.
  destruct w as [st ls net]. cbn [state].
  intros Hname Hfile Hfail. unfold handleSubmit. cbn [state].
  destruct (String.eqb (name st) "") eqn:En.
  { apply String.eqb_eq in En. contradiction. }
  rewrite Hfile. fold (submitRequest id st f).
  destruct (srv (submitRequest id st f)) as [r|m] eqn:Hsrv.
  - specialize (Hfail r eq_refl).
    run_view. rewrite Hsrv. reduce_view. rewrite Hfail. reduce_view.
    repeat split. apply strOr_nonempty. discriminate.
  - run_view. rewrite Hsrv. reduce_view.
    repeat split. apply strOr_nonempty. discriminate.
Qed.

Lemma handleSubmit_failure_keeps_state_witness :
  localStorage (snd (handleSubmit "7" unreachableServer typedWorld)) = ∅
  /\ submitted (state (snd (handleSubmit "7" unreachableServer typedWorld)))
     = false.
Proof.
  pose proof (handleSubmit_failure_keeps_state "7" unreachableServer
                typedWorld "essay.txt"
                ltac:(discriminate) eq_refl
                ltac:(intros r H; discriminate H))
    as (_ & Hls & Hsub & _).
  split; [exact Hls|exact Hsub].
Defined.

(** X6.  Submit, then reload.  After a submit call that resolves with
    status ["success"] and a submission record, the view is in the
    submitted state with that record and no score.  A view mounted
    afterwards on the same local storage is again in the submitted
    state, without a request, with the record as JSON keeps it (a score
    that is [NaN] or infinite becomes [null], and a record from a JSON
    answer is kept as it is).  Its score is the record's score when
    that is a finite number, [NaN] when it is [null] and none when the
    record has none; its report URL and file name are those of the
    record when they are not empty.  So the reloaded view shows a score
    or a report that the submitting view did not show exactly when the
    record carries one. *)
Theorem submit_then_mount
    (id : string) (srv : server) (w : World) (f : string)
    (r : Response) (d : SubmissionData) :
  name (state w) <> "" ->
  file (state w) = Some f ->
  srv (submitRequest id (state w) f) = Resolved r ->
  isSuccess r = true ->
  data r = Some d ->
  let w' := snd (handleSubmit id srv w) in
  submitted (state w') = true
  /\ submissionData (state w') = Some d
  /\ similarityScore (state w') = Null
  /\ network w' = network w ++ [submitRequest id (state w) f]
  /\ exists w'',
       mountEffect id (freshViewOn (localStorage w')) = Some w''
       /\ submitted (state w'') = true
       /\ submissionData (state w'')
          = Some (withScore (jsonScore (sd_web_similarity_score d)) d)
       /\ (jsonScore (sd_web_similarity_score d) = sd_web_similarity_score d ->
           submissionData (state w'') = Some d)
       /\ similarityScore (state w'')
          = reloadedScore (sd_web_similarity_score d)
       /\ reportUrl (state w'')
          = option_map (String.append origin) (truthyString (sd_report_url d))
       /\ reportFilename (state w'') = truthyString (sd_report_filename d)
       /\ network w'' = [].
Proof.
  destruct w as [st ls net]. cbn [state].
  intros Hname Hfile Hsrv Hok Hdata.
  destruct d as [sid sn fn sa sc ru rf].
  cbn [sd_web_similarity_score sd_report_url sd_report_filename] in *.
  unfold handleSubmit. cbn [state].
  destruct (String.eqb (name st) "") eqn:En.
  { apply String.eqb_eq in En. contradiction. }
  rewrite Hfile. fold (submitRequest id st f).
  run_view. rewrite Hsrv. reduce_view. rewrite Hok, Hdata. reduce_view.
  repeat split.
  unfold mountEffect, freshViewOn. cbn [localStorage].
  rewrite lookup_insert_ne by (intros E; exact (keys_differ id (eq_sym E))).
  rewrite lookup_insert_eq.
  change (String.eqb "submitted" "submitted") with true. cbv iota.
  rewrite lookup_insert_eq.
  unfold withScore.
  cbn [sd_web_similarity_score sd_report_url sd_report_filename
       submission_id student_name file_name submitted_at].
  eexists. split; [reflexivity|].
  destruct (truthyString ru) as [url|]; destruct (truthyString rf) as [fname|];
    destruct sc as [| |[| | |q]];
    cbn [jsonScore parseFloatOfScore reloadedScore option_map];
    run_view; repeat split; intros E; try discriminate E; reflexivity.
Qed.

Lemma submit_then_mount_witness :
  exists w'',
    mountEffect "7"
      (freshViewOn
         (localStorage (snd (handleSubmit "7" acceptingServer typedWorld))))
    = Some w''
    /\ submissionData (state w'') = Some submission55
    /\ similarityScore (state w'') = Null.
Proof.
  pose proof (submit_then_mount "7" acceptingServer typedWorld "essay.txt"
                acceptedResponse submission55
                ltac:(discriminate) eq_refl eq_refl eq_refl eq_refl)
    as (_ & _ & _ & _ & w'' & Hm & _ & _ & Hd & Hs & _).
  exists w''. split; [exact Hm|]. split; [exact (Hd eq_refl)|exact Hs].
Defined.

(** The world a successful submit leaves. *)
Lemma handleSubmit_success_world
    (id : string) (srv : server) (st : State) (ls : gmap string stored)
    (net : list request) (f : string) (r : Response) (d : SubmissionData) :
  name st <> "" ->
  file st = Some f ->
  srv (submitRequest id st f) = Resolved r ->
  isSuccess r = true ->
  data r = Some d ->
  snd (handleSubmit id srv (mkWorld st ls net))
  = {| state :=
         {| userId := userId st; name := name st; file := file st;
            submitted := true; loading := false;
            checkingWebSimilarity := checkingWebSimilarity st;
            error := ""; openDialog := openDialog st; snackbarOpen := true;
            similarityScore := Null; submissionData := Some d;
            reportUrl := reportUrl st; reportFilename := reportFilename st |};
       localStorage :=
         <[dataKey id := Json d]> (<[statusKey id := Raw "submitted"]> ls);
       network := net ++ [submitRequest id st f] |}.
Proof.
  intros Hname Hfile Hsrv Hok Hdata.
  destruct st. unfold submitRequest in *. cbn [name file userId] in *.
  subst file0.
  unfold handleSubmit. cbn [state name file userId].
  destruct (String.eqb name0 "") eqn:En.
  { apply String.eqb_eq in En. contradiction. }
  run_view. rewrite Hsrv. reduce_view. rewrite Hok, Hdata. reduce_view.
  reflexivity.
Qed.

(** X7.  Submit, then remove.  When neither key of the assignment was
    stored before, a successful submit followed by a removal whose
    delete call rejects or resolves with status ["success"] leaves
    local storage exactly as it was before the submit. *)
Theorem submit_then_remove_restores_storage
    (id : string) (srv1 srv2 : server) (w : World) (f : string)
    (r : Response) (d : SubmissionData) (sid : Z) :
  name (state w) <> "" ->
  file (state w) = Some f ->
  srv1 (submitRequest id (state w) f) = Resolved r ->
  isSuccess r = true ->
  data r = Some d ->
  truthyId (Some d) = Some sid ->
  localStorage w !! statusKey id = None ->
  localStorage w !! dataKey id = None ->
  (forall r2, srv2 (DeleteSubmission sid) = Resolved r2 -> isSuccess r2 = true) ->
  let w' := snd (handleRemove id srv2 (snd (handleSubmit id srv1 w))) in
  localStorage w' = localStorage w
  /\ submitted (state w') = false
  /\ submissionData (state w') = None.
Proof.
  destruct w as [st ls net]. cbn [state localStorage].
  intros Hname Hfile Hsrv Hok Hdata Hid Hs Hd Hdel.
  rewrite (handleSubmit_success_world id srv1 st ls net f r d)
    by assumption.
  assert (delete (dataKey id)
            (delete (statusKey id)
               (<[dataKey id := Json d]>
                  (<[statusKey id := Raw "submitted"]> ls))) = ls) as Hback.
  { rewrite (delete_insert_ne _ (statusKey id) (dataKey id))
      by apply keys_differ.
    rewrite (delete_insert_id ls (statusKey id)) by exact Hs.
    apply delete_insert_id. exact Hd. }
  unfold handleRemove. cbn [state submissionData]. rewrite Hid.
  destruct (truthyString (reportFilename st)) as [fn|] eqn:Efn;
    destruct (srv2 (DeleteSubmission sid)) as [r2|m] eqn:Hsrv2;
    try (pose proof (Hdel r2 eq_refl) as Hok2);
    cbn [reportFilename]; rewrite ?Efn;
    run_view; rewrite Hsrv2; reduce_view; rewrite ?Hok2; reduce_view;
    rewrite Hback; repeat split.
Qed.

Lemma submit_then_remove_restores_storage_witness :
  localStorage
    (snd (handleRemove "7" unreachableServer
            (snd (handleSubmit "7" acceptingServer typedWorld))))
  = ∅.
Proof.
  pose proof (submit_then_remove_restores_storage
                "7" acceptingServer unreachableServer typedWorld "essay.txt"
                acceptedResponse submission55 55%Z
                ltac:(discriminate) eq_refl eq_refl eq_refl eq_refl eq_refl
                ltac:(apply lookup_empty) ltac:(apply lookup_empty)
                ltac:(intros r2 H; discriminate H))
    as (Hls & _).
  exact Hls.
Defined.

(** X8.  Check, then reload.  Take a submitted view with its
    submission record, no report URL and no report file name, on a
    local storage that holds the submitted status, and a check whose
    call resolves with status ["success"] and a finite score.  A view
    mounted afterwards on the same local storage shows the same score,
    the same report URL and file name and the same submission record
    as the view that made the check.  The file name is assumed
    non-empty: a report URL ending in a slash stores an empty name,
    which a reload does not restore.  A score too large for a double
    is not finite: the check loads an infinity, which is stored as
    [null]. *)
Theorem check_then_mount
    (id : string) (srv : server) (w : World) (sid : Z) (r : Response) (q : Q) :
  submitted (state w) = true ->
  truthyId (submissionData (state w)) = Some sid ->
  reportUrl (state w) = None -> reportFilename (state w) = None ->
  localStorage w !! statusKey id = Some (Raw "submitted") ->
  srv (WebSimilarity sid) = Resolved r ->
  isSuccess r = true ->
  resolveScore r = Number (Num q) ->
  (forall url, truthyString (report_url r) = Some url -> lastSegment url <> "") ->
  let w1 := snd (handleCheckWebSimilarity id srv w) in
  exists w2,
    mountEffect id (freshViewOn (localStorage w1)) = Some w2
    /\ similarityScore (state w1) = Number (Num q)
    /\ similarityScore (state w2) = similarityScore (state w1)
    /\ reportUrl (state w2) = reportUrl (state w1)
    /\ reportFilename (state w2) = reportFilename (state w1)
    /\ submissionData (state w2) = submissionData (state w1)
    /\ submitted (state w2) = true.
Proof.
  destruct w as [st ls net]. cbn [state localStorage].
  intros Hsub Hid Hurl0 Hfn0 Hstatus Hsrv Hok Hscore Hname.
  assert (exists sd, submissionData st = Some sd) as [sd Esd].
  { unfold truthyId in Hid. destruct (submissionData st); [eauto|discriminate]. }
  unfold handleCheckWebSimilarity. cbn [state].
  rewrite Hsub, Hid, Hurl0, Esd.
  change (strTruthy None) with false. rewrite andb_false_r.
  destruct st. cbn [reportUrl reportFilename] in Hurl0, Hfn0. subst.
  assert (forall v : stored,
            <[dataKey id := v]> ls !! statusKey id = Some (Raw "submitted"))
    as Hst.
  { intros v. rewrite lookup_insert_ne
      by (intros E; exact (keys_differ id (eq_sym E))). exact Hstatus. }
  destruct (truthyString (report_url r)) as [url|] eqn:Eurl.
  - specialize (Hname url eq_refl).
    assert (truthyString (Some (lastSegment url)) = Some (lastSegment url))
      as Hfn.
    { unfold truthyString. destruct (String.eqb (lastSegment url) "") eqn:E;
        [apply String.eqb_eq in E; contradiction|reflexivity]. }
    run_view. rewrite Hsrv. reduce_view. rewrite Hok, Hscore. reduce_view.
    rewrite ?Eurl. reduce_view. rewrite ?Eurl.
    unfold mountEffect, freshViewOn. cbn [localStorage].
    rewrite Hst. change (String.eqb "submitted" "submitted") with true.
    cbv iota. rewrite lookup_insert_eq.
    cbn [jsonScore sd_web_similarity_score sd_report_url sd_report_filename
         option_map notUndefined toNumber isNaN negb andb].
    assert (truthyString (Some url) = Some url) as Hu.
    { unfold truthyString in *. destruct (report_url r) as [u|]; [|discriminate].
      destruct (String.eqb u "") eqn:E; [discriminate|].
      injection Eurl as ->. rewrite E. reflexivity. }
    rewrite Hu, Hfn.
    eexists. split; [reflexivity|]. run_view. repeat split.
  - run_view. rewrite Hsrv. reduce_view. rewrite Hok, Hscore. reduce_view.
    rewrite ?Eurl. reduce_view. rewrite ?Eurl.
    unfold mountEffect, freshViewOn. cbn [localStorage].
    rewrite Hst. change (String.eqb "submitted" "submitted") with true.
    cbv iota. rewrite lookup_insert_eq.
    cbn [jsonScore sd_web_similarity_score sd_report_url sd_report_filename
         option_map notUndefined toNumber isNaN negb andb truthyString].
    eexists. split; [reflexivity|]. run_view. repeat split.
Qed.

Lemma check_then_mount_witness :
  exists w2,
    mountEffect "7"
      (freshViewOn
         (localStorage
            (snd (handleCheckWebSimilarity "7" summaryServer submittedWorld))))
    = Some w2
    /\ similarityScore (state w2) = Number (Num (85 # 2))
    /\ reportFilename (state w2) = Some "55.pdf".
Proof.
  pose proof (check_then_mount "7" summaryServer submittedWorld 55%Z
                summaryResponse (85 # 2)
                eq_refl eq_refl eq_refl eq_refl
                ltac:(apply lookup_insert_eq) eq_refl eq_refl eq_refl
                ltac:(intros url H; injection H as <-; discriminate))
    as (w2 & Hm & H1 & H2 & _ & H4 & _).
  exists w2. split; [exact Hm|]. split.
  - rewrite H2. exact H1.
  - rewrite H4. reflexivity.
Defined.

(** X9.  Whatever the backend answers, the check action never changes
    the submitted flag, the name, the selected file or any stored key
    other than the assignment's data blob; it makes at most one
    request, and it does not leave its spinner on. *)
Theorem handleCheckWebSimilarity_frame
    (id : string) (srv : server) (w : World) :
  let w' := snd (handleCheckWebSimilarity id srv w) in
  submitted (state w') = submitted (state w)
  /\ name (state w') = name (state w)
  /\ file (state w') = file (state w)
  /\ (forall k, k <> dataKey id -> localStorage w' !! k = localStorage w !! k)
  /\ (network w' = network w
      \/ exists sid, network w' = network w ++ [WebSimilarity sid])
  /\ (checkingWebSimilarity (state w) = false ->
      checkingWebSimilarity (state w') = false).
Proof.
  destruct w as [st ls net]. destruct st. cbv zeta.
  unfold handleCheckWebSimilarity. cbn [state submitted submissionData
    similarityScore reportUrl].
  assert (forall (v : stored) k,
            k <> dataKey id -> <[dataKey id := v]> ls !! k = ls !! k) as Hins.
  { intros v k Hk. apply lookup_insert_ne. congruence. }
  destruct submitted0; cbn [negb]; [|run_view; repeat split; auto].
  destruct (truthyId submissionData0) as [sid|];
    [|run_view; repeat split; auto].
  destruct (notNull similarityScore0 && strTruthy reportUrl0);
    [run_view; repeat split; auto|].
  destruct (srv (WebSimilarity sid)) as [r|m] eqn:Hsrv.
  - destruct (isSuccess r) eqn:Hok.
    + destruct (resolveScore r) as [| |[| | |q]] eqn:Hscore;
        destruct submissionData0 as [sd|];
        destruct (truthyString (report_url r)) as [url|] eqn:Eurl;
        run_view; rewrite Hsrv; reduce_view; rewrite Hok, ?Hscore;
        reduce_view; rewrite ?Eurl; reduce_view;
        repeat split; eauto.
    + run_view. rewrite Hsrv. reduce_view. rewrite Hok. reduce_view.
      repeat split; eauto.
  - run_view. rewrite Hsrv. reduce_view. repeat split; eauto.
Qed.

Lemma handleCheckWebSimilarity_frame_witness :
  checkingWebSimilarity
    (state (snd (handleCheckWebSimilarity "7" Examples.scoreOnlyServer
                   Examples.submittedWorld))) = false
  /\ localStorage
       (snd (handleCheckWebSimilarity "7" Examples.scoreOnlyServer
               Examples.submittedWorld)) !! statusKey "7"
     = Some (Raw "submitted").
Proof.
  pose proof (handleCheckWebSimilarity_frame "7" Examples.scoreOnlyServer
                Examples.submittedWorld) as H.
  cbv zeta in H. destruct H as (_ & _ & _ & Hkeys & _ & Hspin). split.
  - apply Hspin. reflexivity.
  - rewrite (Hkeys (statusKey "7")); [reflexivity|].
    intros E. discriminate E.
Defined.

(** X10.  The notification text after a successful action: after a
    removal whose delete call resolved with status ["success"] it reads
    ["Submission removed successfully!"], and after a check that loaded
    a score it reads ["Web similarity check complete!"]. *)
Theorem snackbar_after_success
    (id : string) (srv : server) (w : World) (sid : Z) (r : Response) :
  truthyId (submissionData (state w)) = Some sid ->
  isSuccess r = true ->
  (srv (DeleteSubmission sid) = Resolved r ->
   snackbarOpen (state (snd (handleRemove id srv w))) = true
   /\ snackbarMessage (state (snd (handleRemove id srv w)))
      = "Submission removed successfully!")
  /\ (forall q,
        submitted (state w) = true ->
        similarityScore (state w) = Null ->
        srv (WebSimilarity sid) = Resolved r ->
        resolveScore r = Number (Num q) ->
        snackbarOpen (state (snd (handleCheckWebSimilarity id srv w))) = true
        /\ snackbarMessage (state (snd (handleCheckWebSimilarity id srv w)))
           = "Web similarity check complete!").
Proof.
  destruct w as [st ls net]. cbn [state].
  intros Hid Hok. split.
  - intros Hsrv. unfold handleRemove. cbn [state]. rewrite Hid.
    destruct (truthyString (reportFilename st)) as [fn|];
      run_view; rewrite Hsrv; reduce_view; rewrite Hok; reduce_view;
      split; reflexivity.
  - intros q Hsub Hnull Hsrv Hscore.
    assert (exists sd, submissionData st = Some sd) as [sd Esd].
    { unfold truthyId in Hid.
      destruct (submissionData st); [eauto|discriminate]. }
    unfold handleCheckWebSimilarity. cbn [state].
    rewrite Hsub, Hid, Hnull, Esd.
    destruct (truthyString (report_url r)) as [url|] eqn:Eurl;
      run_view; rewrite Hsrv; reduce_view; rewrite Hok, Hscore; reduce_view;
      rewrite ?Eurl; reduce_view; split; reflexivity.
Qed.

Lemma snackbar_after_success_witness :
  snackbarMessage (state (snd (handleRemove "7" agreeingServer submittedWorld)))
  = "Submission removed successfully!".
Proof.
  apply (proj1 (snackbar_after_success "7" agreeingServer submittedWorld 55%Z
                  (bareResponse "success") eq_refl eq_refl)).
  reflexivity.
Defined.

(** X11.  A stored record whose [web_similarity_score] is [null], as a
    backend record may have it, is loaded on mount as the score [NaN]:
    the view is then in the submitted state with a score that is not
    [null], so the score badge is shown. *)
Theorem mount_null_score_is_nan
    (id : string) (ls : gmap string stored) (d : SubmissionData) :
  ls !! statusKey id = Some (Raw "submitted") ->
  ls !! dataKey id = Some (Json d) ->
  sd_web_similarity_score d = Null ->
  exists w',
    mountEffect id (freshViewOn ls) = Some w'
    /\ submitted (state w') = true
    /\ similarityScore (state w') = Number NaN
    /\ notNull (similarityScore (state w')) = true.
Proof.
  intros Hs Hd Hnull. unfold mountEffect, freshViewOn. cbn [localStorage].
  rewrite Hs. change (String.eqb "submitted" "submitted") with true.
  cbv iota. rewrite Hd, Hnull.
  cbn [jsonScore notUndefined toNumber isNaN negb andb parseFloatOfScore].
  eexists. split; [reflexivity|].
  destruct (truthyString (sd_report_url d));
    destruct (truthyString (sd_report_filename d));
    run_view; repeat split.
Qed.

Lemma mount_null_score_is_nan_witness :
  exists w',
    mountEffect "7" (freshViewOn nullScoreStorage) = Some w'
    /\ similarityScore (state w') = Number NaN.
Proof.
  destruct (mount_null_score_is_nan "7" nullScoreStorage nullScoreRecord
              ltac:(apply lookup_insert_eq)
              ltac:(unfold nullScoreStorage;
                    rewrite lookup_insert_ne by apply keys_differ;
                    apply lookup_insert_eq)
              eq_refl)
    as (w' & Hm & _ & Hs & _).
  exists w'. split; [exact Hm|exact Hs].
Defined.

End StudentMore.

(** ** Comparisons of finite numbers *)

Section FiniteComparisons.

Lemma numLt_Num (x y : Q) : numLt (Num x) (Num y) = true <-> (x < y)%Q.
Proof.
  unfold numLt. destruct (Qcompare_spec x y) as [E|L|G].
  - split; [discriminate|]. intros H. rewrite E in H.
    exfalso. exact (Qlt_irrefl _ H).
  - split; auto.
  - split; [discriminate|]. intros H. exfalso.
    exact (Qlt_irrefl _ (Qlt_trans _ _ _ H G)).
Qed.

Lemma numLt_Num_false (x y : Q) : numLt (Num x) (Num y) = false <-> (y <= x)%Q.
Proof.
  split.
  - intros H. apply Qnot_lt_le. intros L.
    apply numLt_Num in L. congruence.
  - intros H. destruct (numLt (Num x) (Num y)) eqn:E; [|reflexivity].
    apply numLt_Num in E. exfalso. exact (Qlt_not_le _ _ E H).
Qed.

Lemma numGe_Num (x y : Q) : numGe (Num x) (Num y) = true <-> (y <= x)%Q.
Proof.
  change (numGe (Num x) (Num y)) with (negb (numLt (Num x) (Num y))).
  rewrite negb_true_iff. apply numLt_Num_false.
Qed.

Lemma numGe_Num_false (x y : Q) : numGe (Num x) (Num y) = false <-> (x < y)%Q.
Proof.
  change (numGe (Num x) (Num y)) with (negb (numLt (Num x) (Num y))).
  rewrite negb_false_iff. apply numLt_Num.
Qed.

Lemma numGt_Num (x y : Q) : numGt (Num x) (Num y) = true <-> (y < x)%Q.
Proof. unfold numGt. apply numLt_Num. Qed.

Lemma numGt_Num_false (x y : Q) : numGt (Num x) (Num y) = false <-> (x <= y)%Q.
Proof. unfold numGt. apply numLt_Num_false. Qed.

End FiniteComparisons.

(** Decide every comparison of [q] with a constant that occurs in the
    goal, and rewrite with the outcome. *)
Ltac split_comparisons q :=
  repeat match goal with
  | |- context [numGe (Num q) (Num ?c)] =>
      let H := fresh "Hc" in
      destruct (Qlt_le_dec q c) as [H|H];
      [ rewrite (proj2 (numGe_Num_false q c) H) in *
      | rewrite (proj2 (numGe_Num q c) H) in * ]
  | |- context [numLt (Num q) (Num ?c)] =>
      let H := fresh "Hc" in
      destruct (Qlt_le_dec q c) as [H|H];
      [ rewrite (proj2 (numLt_Num q c) H) in *
      | rewrite (proj2 (numLt_Num_false q c) H) in * ]
  | |- context [numGt (Num q) (Num ?c)] =>
      let H := fresh "Hc" in
      destruct (Qlt_le_dec c q) as [H|H];
      [ rewrite (proj2 (numGt_Num q c) H) in *
      | rewrite (proj2 (numGt_Num_false q c) H) in * ]
  end.

Section Colours.

Import Notions.

(** X12.  The student view and the lecturer workspace colour the same
    finite score by different bands (40 and 70 against 30 and 60): the
    two severities agree exactly when the score is below 30, from 40 up
    to but not including 60, or at least 70. *)
Theorem colour_bands_agree_iff (q : Q) :
  studentLevel (Number (Num q)) = lecturerLevel (Number (Num q))
  <-> (q < 30 \/ (40 <= q /\ q < 60) \/ 70 <= q)%Q.
Proof.
  unfold studentLevel, lecturerLevel, StudentView.getSimilarityColor,
    LecturerView.getSimilarityColor. cbn [toNumber].
  split_comparisons q; cbn; split; intros H;
    try discriminate; try lra; try reflexivity.
Qed.

End Colours.

(** ** The lecturer's list *)

Section LecturerMore.

Import Lecturer LecturerView LecturerExamples Notions.

Lemma parseInt_integer (g : string) :
  parseInt g = NaN \/ exists k : Z, parseInt g = Num (inject_Z k).
Proof.
  unfold parseInt.
  destruct (readDigits _ None _); [right; eauto|left; reflexivity].
Qed.

(** X13.  Grades that enter the list through the grade button are whole
    numbers from 0 to 100: if every graded entry has such a grade
    before a click, in the list on display and in the list of the
    render the button belongs to, every graded entry has one after it,
    whatever is typed and whatever the backend answers. *)
Theorem gradeClick_keeps_grades_valid (shown : list Submission)
    (srv : server) (sub : Submission)
    (gradePrompt feedbackPrompt : option string) (v : View) :
  validGrades shown ->
  validGrades (submissions v) ->
  validGrades
    (submissions (gradeClick shown srv sub gradePrompt feedbackPrompt v)).
Proof.
  intros Hshown Hvalid. unfold gradeClick.
  destruct gradePrompt as [g|]; [|exact Hvalid].
  destruct feedbackPrompt as [f|]; [|exact Hvalid].
  destruct (isNaN (parseInt g) || numLt (parseInt g) (Num 0)
            || numGt (parseInt g) (Num 100)) eqn:E; [exact Hvalid|].
  apply orb_false_iff in E. destruct E as [E Hhi].
  apply orb_false_iff in E. destruct E as [Hnan Hlo].
  unfold handleGradeSubmission, gradeSettled.
  destruct (srv _); [|exact Hvalid]. cbn [submissions].
  intros s Hs Hst. apply in_map_iff in Hs. destruct Hs as (s0 & <- & Hs0).
  destruct (decide (id s0 = id sub)); [|apply Hshown; assumption].
  destruct (parseInt_integer g) as [En|[k Ek]].
  { rewrite En in Hnan. discriminate. }
  rewrite Ek in *. exists k. split; [reflexivity|].
  apply numLt_Num_false in Hlo. apply numGt_Num_false in Hhi.
  unfold Qle in Hlo, Hhi. simpl in Hlo, Hhi. lia.
Qed.

Lemma gradeClick_keeps_grades_valid_witness :
  validGrades
    (submissions (gradeClick (submissions classView) Examples.agreeingServer
                    (pending 2 "Bob") (Some "85") (Some "Good") classView)).
Proof.
  apply gradeClick_keeps_grades_valid;
    intros s [<- | [<- | [<- | []]]] H; discriminate H.
Defined.

Lemma filter_length_mono {A} (f g : A -> bool) (l : list A) :
  (forall x, f x = true -> g x = true) ->
  (length (List.filter f l) <= length (List.filter g l))%nat.
Proof.
  intros Hfg. induction l as [|x l IH]; simpl; [lia|].
  destruct (f x) eqn:Ef.
  - rewrite (Hfg x Ef). simpl. lia.
  - destruct (g x); simpl; lia.
Qed.

Lemma filter_map_length {A B} (f : B -> bool) (h : A -> B) (l : list A) :
  length (List.filter f (map h l))
  = length (List.filter (fun x => f (h x)) l).
Proof.
  induction l as [|x l IH]; simpl; [reflexivity|].
  destruct (f (h x)); simpl; rewrite IH; reflexivity.
Qed.

(** X14.  The header counters under grading.  After a grade call that
    resolves, the graded counter is the number of entries, in the list
    of the render the button belongs to, that were graded already or
    carry the graded id: against that list the graded counter does not
    go down and the pending counter does not go up, and so against the
    list on display when no other call has settled since the click.
    After a call that rejects, the list on display is left as it is and
    one alert is raised. *)
Theorem grading_counters (shown : list Submission) (srv : server)
    (submissionId : option Z) (g : number) (f : string) (v : View) :
  let v' := handleGradeSubmission shown srv submissionId g f v in
  (forall r, srv (GradeSubmission submissionId g f) = Resolved r ->
     gradedCount v'
     = length (List.filter
                 (fun s => hasStatus "graded" s
                           || bool_decide (id s = submissionId))
                 shown)
     /\ (length (List.filter (hasStatus "graded") shown)
         <= gradedCount v')%nat
     /\ (pendingCount v'
         <= length (List.filter (hasStatus "submitted") shown))%nat
     /\ (shown = submissions v ->
         (gradedCount v <= gradedCount v')%nat
         /\ (pendingCount v' <= pendingCount v)%nat))
  /\ (forall m, srv (GradeSubmission submissionId g f) = Rejected m ->
       submissions v' = submissions v
       /\ alerts v'
          = alerts v ++ ["Failed to grade submission. Please try again."]).
Proof.
  cbv zeta. unfold handleGradeSubmission, gradeSettled. split.
  - intros r ->. unfold gradedCount, pendingCount. cbn [submissions].
    rewrite !filter_map_length.
    assert (forall s,
              hasStatus "graded"
                (if decide (id s = submissionId) then patch g f s else s)
              = hasStatus "graded" s || bool_decide (id s = submissionId))
      as Hg.
    { intros s. destruct (decide (id s = submissionId)) as [E|E].
      - rewrite (bool_decide_eq_true_2 _ E), orb_true_r. reflexivity.
      - rewrite (bool_decide_eq_false_2 _ E), orb_false_r. reflexivity. }
    assert (length (List.filter (hasStatus "graded") shown)
            <= length (List.filter
                         (fun x => hasStatus "graded"
                                     (if decide (id x = submissionId)
                                      then patch g f x else x)) shown))%nat
      as Hup.
    { apply filter_length_mono. intros s Hs. rewrite Hg, Hs. reflexivity. }
    assert (length (List.filter
                      (fun x => hasStatus "submitted"
                                  (if decide (id x = submissionId)
                                   then patch g f x else x)) shown)
            <= length (List.filter (hasStatus "submitted") shown))%nat
      as Hdown.
    { apply filter_length_mono. intros s.
      destruct (decide (id s = submissionId)); [discriminate|auto]. }
    split; [|split; [exact Hup|split; [exact Hdown|]]].
    + f_equal. apply filter_ext_in. intros s _. apply Hg.
    + intros <-. split; assumption.
  - intros m ->. split; reflexivity.
Qed.

Lemma grading_counters_witness :
  gradedCount (handleGradeSubmission (submissions classView)
                 Examples.agreeingServer (Some 2%Z)
                 (Num 85) "Good" classView) = 1%nat
  /\ (pendingCount (handleGradeSubmission (submissions classView)
                      Examples.agreeingServer (Some 2%Z)
                      (Num 85) "Good" classView)
      <= pendingCount classView)%nat.
Proof.
  destruct (grading_counters (submissions classView) Examples.agreeingServer
              (Some 2%Z) (Num 85) "Good" classView) as [Hok _].
  destruct (Hok _ eq_refl) as (Hg & _ & _ & Hsame).
  split; [rewrite Hg; reflexivity|].
  exact (proj2 (Hsame eq_refl)).
Defined.

(** X15.  Grading is idempotent on the list: a second resolved grade
    call with the same id, grade and feedback leaves the list as the
    first one made it, whether its button belongs to the render before
    the first call settled or to the render after it. *)
Theorem grading_idempotent (shown : list Submission) (srv : server)
    (submissionId : option Z)
    (g : number) (f : string) (v : View) (r : Response) :
  srv (GradeSubmission submissionId g f) = Resolved r ->
  let once := handleGradeSubmission shown srv submissionId g f v in
  submissions (handleGradeSubmission shown srv submissionId g f once)
  = submissions once
  /\ submissions
       (handleGradeSubmission (submissions once) srv submissionId g f once)
     = submissions once.
Proof.
  intros Hsrv. cbv zeta. unfold handleGradeSubmission, gradeSettled.
  rewrite Hsrv. cbn [submissions]. split; [reflexivity|].
  rewrite map_map. apply map_ext. intros s.
  destruct (decide (id s = submissionId)) as [E|E].
  - cbn [patch id]. rewrite decide_True by exact E. reflexivity.
  - rewrite decide_False by exact E. reflexivity.
Qed.

Lemma grading_idempotent_witness :
  submissions
    (handleGradeSubmission
       (submissions
          (handleGradeSubmission (submissions classView)
             Examples.agreeingServer (Some 2%Z) (Num 85) "Good" classView))
       Examples.agreeingServer (Some 2%Z) (Num 85) "Good"
       (handleGradeSubmission (submissions classView)
          Examples.agreeingServer (Some 2%Z) (Num 85) "Good" classView))
  = submissions
      (handleGradeSubmission (submissions classView)
         Examples.agreeingServer (Some 2%Z) (Num 85) "Good" classView).
Proof.
  apply (grading_idempotent (submissions classView) Examples.agreeingServer
           (Some 2%Z) (Num 85) "Good" classView
           (Examples.bareResponse "success")).
  reflexivity.
Defined.

End LecturerMore.

(** ** The report view: statistics and rendering *)

Section ReportViewMore.

Import Report ReportView Claimed Notions.

Lemma bucket_pointwise (n : number) :
  (b2n (numGe n (Num 75))
   + b2n (numGe n (Num 50) && numLt n (Num 75))
   + b2n (numGe n (Num 25) && numLt n (Num 50))
   + b2n (numLt n (Num 25) && numGt n (Num 0)))%nat
  = b2n (numGt n (Num 0)).
Proof.
  destruct n as [| | |q]; try reflexivity.
  split_comparisons q; cbn; try reflexivity; lra.
Qed.

(** X16.  The four bands of the statistics are disjoint and together
    cover exactly the comparisons whose similarity is above zero: high,
    medium, low and minimal add up to the number of such comparisons,
    and never to more than the total. *)
Theorem stats_bands_partition (items : list ReportItem) :
  let st := generateStats (Some items) in
  (high st + medium st + low st + minimal st)%nat
  = length (List.filter (fun item => numGt (sim item) (Num 0)) items)
  /\ comparisons st = length items
  /\ (high st + medium st + low st + minimal st <= comparisons st)%nat.
Proof.
  cbv zeta.
  assert (forall l : list ReportItem,
    (length (List.filter (fun item => numGe (sim item) (Num 75)) l)
     + length (List.filter
                 (fun item => numGe (sim item) (Num 50)
                              && numLt (sim item) (Num 75)) l)
     + length (List.filter
                 (fun item => numGe (sim item) (Num 25)
                              && numLt (sim item) (Num 50)) l)
     + length (List.filter
                 (fun item => numLt (sim item) (Num 25)
                              && numGt (sim item) (Num 0)) l))%nat
    = length (List.filter (fun item => numGt (sim item) (Num 0)) l)) as Hsum.
  { intros l. induction l as [|x l IH]; [reflexivity|]. cbn [List.filter].
    pose proof (bucket_pointwise (sim x)) as Hx.
    destruct (numGe (sim x) (Num 75)), (numGe (sim x) (Num 50)),
      (numLt (sim x) (Num 75)), (numGe (sim x) (Num 25)),
      (numLt (sim x) (Num 50)), (numLt (sim x) (Num 25)),
      (numGt (sim x) (Num 0));
      cbn [andb b2n length] in *; lia. }
  destruct items as [|x l]; [repeat split; simpl; lia|].
  cbn [generateStats high medium low minimal comparisons].
  rewrite Hsum. repeat split.
  apply filter_length_le.
Qed.

Lemma inject_nat_succ (n : nat) :
  (inject_Z (Z.of_nat (S n)) == inject_Z (Z.of_nat n) + 1)%Q.
Proof.
  rewrite Nat2Z.inj_succ, <- Z.add_1_r, inject_Z_plus. reflexivity.
Qed.

Lemma sum_bounds (a b : Z) (l : list ReportItem) :
  (0 <= a <= b)%Z ->
  (forall item, In item l ->
     exists q, sim item = Num q
               /\ (inject_Z a <= q)%Q /\ (q <= inject_Z b)%Q) ->
  forall (s0 : Q) (lo hi : Z),
    (0 <= lo)%Z -> (hi + Z.of_nat (length l) * b < 2 ^ 53)%Z ->
    (inject_Z lo <= s0)%Q -> (s0 <= inject_Z hi)%Q ->
    exists s,
      fold_left (fun acc item => numAdd acc (sim item)) l (Num s0) = Num s
      /\ (inject_Z (lo + Z.of_nat (length l) * a) <= s)%Q
      /\ (s <= inject_Z (hi + Z.of_nat (length l) * b))%Q.
Proof.
  intros Hab. induction l as [|x l IH]; intros Hall s0 lo hi Hlo Hhi Hs0 Hs1.
  - exists s0. split; [reflexivity|]. cbn [length Z.of_nat].
    rewrite !Z.mul_0_l, !Z.add_0_r. split; assumption.
  - destruct (Hall x (or_introl eq_refl)) as (q & Eq & Ha & Hb).
    cbn [fold_left]. rewrite Eq. cbn [numAdd].
    cbn [length] in Hhi. rewrite Nat2Z.inj_succ in Hhi.
    destruct (round_between (s0 + q) (lo + a) (hi + b)) as (r & Er & Hr0 & Hr1).
    + lia.
    + nia.
    + rewrite inject_Z_plus. lra.
    + rewrite inject_Z_plus. lra.
    + rewrite Er.
      destruct (IH (fun item Hi => Hall item (or_intror Hi))
                   r (lo + a)%Z (hi + b)%Z) as (s & Es & Hlo' & Hhi').
      * lia.
      * nia.
      * exact Hr0.
      * exact Hr1.
      * exists s. split; [exact Es|]. cbn [length].
        rewrite Nat2Z.inj_succ.
        replace (lo + Z.succ (Z.of_nat (length l)) * a)%Z
          with (lo + a + Z.of_nat (length l) * a)%Z by lia.
        replace (hi + Z.succ (Z.of_nat (length l)) * b)%Z
          with (hi + b + Z.of_nat (length l) * b)%Z by lia.
        split; assumption.
Qed.

(** X17.  The average of the statistics stays between whole bounds of
    the similarities: when every comparison of a non-empty report has a
    finite similarity between the whole numbers [a] and [b], with
    [0 <= a] and the number of comparisons times [b] below [2^53], the
    average is a finite number between [a] and [b], whatever the
    rounding of the sum and of the quotient does.  So scores between 0
    and 100 give an average between 0 and 100.  Between bounds that are
    not whole the rounding can leave the range: three scores of 0.1
    average to a double above 0.1. *)
Theorem stats_average_bounds (a b : Z) (items : list ReportItem) :
  items <> [] ->
  (0 <= a <= b)%Z ->
  (Z.of_nat (length items) * b < 2 ^ 53)%Z ->
  (forall item, In item items ->
     exists q, sim item = Num q
               /\ (inject_Z a <= q)%Q /\ (q <= inject_Z b)%Q) ->
  exists avg,
    average (generateStats (Some items)) = Num avg
    /\ (inject_Z a <= avg)%Q /\ (avg <= inject_Z b)%Q.
Proof.
  intros Hne Hab Hlen Hall. destruct items as [|x l]; [contradiction|].
  cbn [generateStats average].
  destruct (sum_bounds a b (x :: l) Hab Hall 0 0%Z 0%Z)
    as (s & Es & Hlo & Hhi); try lia; try (unfold Qle; cbn; lia).
  rewrite Es. cbn [numDivLength].
  rewrite !Z.add_0_l in Hlo, Hhi.
  set (n := Z.of_nat (length (x :: l))) in *.
  assert (0 < n)%Z as Hn by (unfold n; cbn [length]; lia).
  assert (0 < inject_Z n)%Q as HnQ.
  { change 0%Q with (inject_Z 0). rewrite <- Zlt_Qlt. exact Hn. }
  rewrite !inject_Z_mult in Hlo, Hhi.
  apply round_between.
  - lia.
  - nia.
  - apply Qle_shift_div_l; [exact HnQ|]. rewrite Qmult_comm. exact Hlo.
  - apply Qle_shift_div_r; [exact HnQ|]. rewrite Qmult_comm. exact Hhi.
Qed.

Lemma stats_average_bounds_witness :
  exists avg,
    average (generateStats (Some sampleItems)) = Num avg
    /\ (inject_Z 0 <= avg)%Q /\ (avg <= inject_Z 100)%Q.
Proof.
  apply (stats_average_bounds 0 100 sampleItems).
  - discriminate.
  - lia.
  - reflexivity.
  - intros item [<- | [<- | []]]; eexists; (split; [reflexivity|]);
      split; discriminate.
Defined.

Lemma or_zero_not_nan (v : jsval) :
  isNaN (toNumber (JS.or v (Number (Num 0)))) = false.
Proof.
  unfold JS.or. destruct v as [| |[| | |q]]; try reflexivity.
  cbn [truthy numTruthy]. destruct (negb (Qeq_bool q 0)); reflexivity.
Qed.

(** X18.  Preparing a result list from the backend, whether it came as
    an array or under [results], keeps one entry per row in the same
    order, numbers the entries from 1, gives both documents a
    non-empty title, and gives every entry a similarity that is a
    number other than [NaN]; the statistics then count one comparison
    per row. *)
Theorem prepared_report_items (rows : list ResultRow) :
  prepareReportData (Some (ResultsObject rows))
  = prepareReportData (Some (ResultsArray rows))
  /\ exists items,
       prepareReportData (Some (ResultsArray rows)) = Some items
       /\ length items = length rows
       /\ (forall k item,
             items !! k = Some item ->
             id item = (k + 1)%nat
             /\ isNaN (sim item) = false
             /\ file1 item <> "" /\ file2 item <> ""
             /\ exists row, rows !! k = Some row
                            /\ item_assignment1_id item = assignment1_id row
                            /\ item_assignment2_id item = assignment2_id row)
       /\ comparisons (generateStats (Some items)) = length rows.
Proof.
  split; [reflexivity|]. cbn [prepareReportData].
  eexists. split; [reflexivity|]. split; [apply length_imap|]. split.
  - intros k item Hk. rewrite list_lookup_imap in Hk.
    destruct (rows !! k) as [row|] eqn:Erow; [|discriminate].
    injection Hk as <-. cbn [id sim similarity file1 file2
      item_assignment1_id item_assignment2_id].
    split; [reflexivity|]. split; [apply or_zero_not_nan|].
    split; [apply strOr_nonempty; discriminate|].
    split; [apply strOr_nonempty; discriminate|].
    exists row. auto.
  - pose proof (stats_bands_partition
                  (imap (fun index result =>
                     {| id := index + 1;
                        file1 := strOr (assignment1_title result) "Document 1";
                        file2 := strOr (assignment2_title result) "Document 2";
                        similarity :=
                          JS.or (similarity_score result) (Number (Num 0));
                        report_url :=
                          match row_report_url result with
                          | Some u => if String.eqb u "" then None else Some u
                          | None => None
                          end;
                        item_assignment1_id := assignment1_id result;
                        item_assignment2_id := assignment2_id result |}) rows))
      as (_ & Hc & _).
    cbv zeta in Hc. rewrite Hc. apply length_imap.
Qed.

Lemma prepared_report_items_witness :
  exists item,
    prepareReportData
      (Some (ResultsArray [mkResultRow None (Some "b.txt") Undefined None
                             (Some 1%Z) (Some 2%Z)]))
    = Some [item]
    /\ id item = 1%nat /\ isNaN (sim item) = false /\ file1 item <> "".
Proof.
  destruct (prepared_report_items
              [mkResultRow None (Some "b.txt") Undefined None
                 (Some 1%Z) (Some 2%Z)])
    as (_ & items & Hitems & Hlen & Hall & _).
  destruct items as [|item [|item' items]]; try discriminate Hlen.
  exists item. split; [exact Hitems|].
  destruct (Hall 0%nat item eq_refl) as (Hid & Hnan & Hf1 & _).
  repeat split; assumption.
Defined.

Lemma string_length_append (a b : string) :
  String.length (a +:+ b) = (String.length a + String.length b)%nat.
Proof. induction a as [|c a IH]; simpl; [reflexivity|]. rewrite IH. reflexivity. Qed.

Lemma substring_0_length (m : nat) (s : string) :
  String.length (String.substring 0 m s) = Nat.min m (String.length s).
Proof.
  revert s. induction m as [|m IH]; intros s.
  - destruct s; reflexivity.
  - destruct s as [|c s]; [reflexivity|]. simpl. rewrite IH. reflexivity.
Qed.

Lemma substring_0_prefix (m : nat) (s : string) :
  exists rest, s = String.substring 0 m s +:+ rest.
Proof.
  revert s. induction m as [|m IH]; intros s.
  - exists s. destruct s; reflexivity.
  - destruct s as [|c s]; [exists ""; reflexivity|].
    destruct (IH s) as [rest Hrest]. exists rest.
    change (String c s = String c (String.substring 0 m s +:+ rest)).
    f_equal. exact Hrest.
Qed.

(** X19.  The collapsed view never shows more than 103 characters of a
    segment: a text of fewer than 100 characters is shown as it is, and
    a longer one as its first 100 characters followed by three dots
    (so a text of 100 to 102 characters is shown longer than it is);
    the expanded view always shows the text itself. *)
Theorem displayText_length (text0 : string) :
  displayText true text0 = text0
  /\ (String.length (displayText false text0) <= 103)%nat
  /\ ((String.length text0 < 100)%nat -> displayText false text0 = text0)
  /\ ((100 <= String.length text0)%nat ->
      String.length (displayText false text0) = 103%nat
      /\ exists rest,
           text0 = String.substring 0 100 text0 +:+ rest
           /\ displayText false text0
              = String.substring 0 100 text0 +:+ "...").
Proof.
  split; [reflexivity|]. unfold displayText. cbn [orb].
  destruct (String.length text0 <? 100)%nat eqn:E.
  - apply Nat.ltb_lt in E. split; [lia|]. split; [reflexivity|]. lia.
  - apply Nat.ltb_ge in E.
    assert (String.length (String.substring 0 100 text0 +:+ "...") = 103%nat)
      as Hlen.
    { rewrite string_length_append, substring_0_length.
      rewrite Nat.min_l by exact E. reflexivity. }
    split; [lia|]. split; [lia|]. intros _. split; [exact Hlen|].
    destruct (substring_0_prefix 100 text0) as [rest Hrest].
    exists rest. split; [exact Hrest|reflexivity].
Qed.

Lemma displayText_length_witness :
  displayText false "A short sentence." = "A short sentence.".
Proof.
  apply (proj1 (proj2 (proj2 (displayText_length "A short sentence.")))).
  cbn. lia.
Defined.

Lemma similarity_above_threshold_nonempty (u1 u2 : string) :
  numGt (calculateStringSimilarity (Some u1) (Some u2)) threshold = true ->
  u1 <> "" /\ u2 <> "".
Proof.
  intros Hgt. split; intros ->.
  - rewrite similarity_empty_l in Hgt. discriminate.
  - rewrite similarity_empty_r in Hgt. discriminate.
Qed.

(** X20.  Every segment that the matcher emits for a collected pair is
    rendered, and rendered as a match on the red or the orange
    background, never on the yellow or the green one. *)
Theorem collected_segments_render_red_or_orange
    (t1 t2 : string) (score : number) (expandText : bool)
    (segment : TextSegment) :
  collectSimilar (splitSentences t1) (splitSentences t2) <> [] ->
  In segment (fst (processAndHighlightContent t1 t2 score))
  \/ In segment (snd (processAndHighlightContent t1 t2 score)) ->
  exists rendered,
    highlightSegment expandText segment = Some rendered
    /\ shown rendered = displayText expandText (text segment)
    /\ (background rendered = Some "#ff9999"
        \/ background rendered = Some "#ffcc99").
Proof.
  intros Hne Hin.
  destruct (collectSimilar (splitSentences t1) (splitSentences t2))
    as [|m0 l0] eqn:E; [contradiction|].
  assert (In m0 (collectSimilar (splitSentences t1) (splitSentences t2)))
    as Hm0 by (rewrite E; left; reflexivity).
  rewrite (process_with_matches t1 t2 score m0 Hm0) in Hin.
  cbn [fst snd] in Hin.
  assert (exists m,
             In m (collectSimilar (splitSentences t1) (splitSentences t2))
             /\ isMatch segment = true
             /\ percentage segment = Report.similarity m
             /\ (text segment = text1 m \/ text segment = text2 m))
    as (m & Hm & Hmatch & Hpct & Htext).
  { destruct Hin as [Hin|Hin]; apply in_map_iff in Hin;
      destruct Hin as (m & <- & Hm); apply in_sortByKey in Hm;
      exists m; cbn; auto. }
  destruct (collected_percentage_range _ _ m Hm) as (k & Ek & Hk).
  apply in_collectSimilar in Hm.
  destruct Hm as (i & j & u1 & u2 & _ & _ & Hgt & ->).
  destruct (similarity_above_threshold_nonempty u1 u2 Hgt) as [Hu1 Hu2].
  cbn [text1 text2] in Htext.
  assert (String.eqb (text segment) "" = false) as Hnonempty.
  { apply String.eqb_neq. destruct Htext as [-> | ->]; assumption. }
  unfold highlightSegment. rewrite Hnonempty, Hmatch, Hpct, Ek.
  cbn [negb numTruthy].
  assert (Qeq_bool (inject_Z k) 0 = false) as Hnz.
  { destruct (Qeq_bool (inject_Z k) 0) eqn:Ez; [|reflexivity].
    apply Qeq_bool_iff in Ez. unfold Qeq in Ez. simpl in Ez. lia. }
  rewrite Hnz. cbn [negb]. eexists. split; [reflexivity|].
  split; [reflexivity|]. cbn [background]. unfold bgColor.
  destruct (numGe (Num (inject_Z k)) (Num 75)); [left; reflexivity|].
  assert (numGe (Num (inject_Z k)) (Num 50) = true) as ->;
    [|right; reflexivity].
  apply numGe_Num. unfold Qle. simpl. lia.
Qed.

Lemma collected_segments_render_red_or_orange_witness :
  exists rendered,
    highlightSegment false
      {| text := "Hi."; isMatch := true; percentage := Num 100 |}
    = Some rendered
    /\ background rendered = Some "#ff9999".
Proof.
  destruct (collected_segments_render_red_or_orange "Hi. Yo." "Hi. Yo."
              (Num 30) false
              {| text := "Hi."; isMatch := true; percentage := Num 100 |}
              ltac:(discriminate) ltac:(left; left; reflexivity))
    as (rendered & Hr & _ & _).
  exists rendered. split; [exact Hr|].
  injection Hr as <-. reflexivity.
Defined.

End ReportViewMore.

(** ** The exported document *)

Section Pagination.

Import ReportView.

Local Abbreviation nat_Q n := (inject_Z (Z.of_nat n)).

Lemma pageLoop_unfold (fuel : nat) (imgHeight ph hl : Q) :
  pageLoop fuel imgHeight ph hl
  = if Qle_bool 0 hl then
      match fuel with
      | O => None
      | S fuel' =>
          option_map (cons (hl - imgHeight)%Q)
            (pageLoop fuel' imgHeight ph (hl - ph)%Q)
      end
    else Some [].
Proof. destruct fuel; reflexivity. Qed.

Lemma pageLoop_pages (imgHeight ph : Q) (n : nat) :
  (0 < ph)%Q ->
  (nat_Q n * ph <= imgHeight)%Q ->
  (imgHeight < (nat_Q n + 1) * ph)%Q ->
  forall m j fuel hl,
    (j + m = S n)%nat -> (m <= fuel)%nat ->
    (hl == imgHeight - nat_Q j * ph)%Q ->
    exists l,
      pageLoop fuel imgHeight ph hl = Some l
      /\ length l = m
      /\ forall k p, l !! k = Some p -> (p == - (nat_Q (j + k) * ph))%Q.
Proof.
  intros Hph Hlo Hhi m.
  induction m as [|m IH]; intros j fuel hl Hj Hfuel Hhl;
    rewrite pageLoop_unfold.
  - assert (j = S n) as -> by lia.
    rewrite inject_nat_succ in Hhl.
    destruct (Qle_bool 0 hl) eqn:E.
    + apply Qle_bool_iff in E. exfalso. lra.
    + exists []. repeat split. intros k p Hk. discriminate Hk.
  - assert (Qle_bool 0 hl = true) as ->.
    { apply Qle_bool_iff.
      assert (nat_Q j <= nat_Q n)%Q as Hjn by (rewrite <- Zle_Qle; lia).
      assert (nat_Q j * ph <= nat_Q n * ph)%Q
        by (apply Qmult_le_compat_r; [exact Hjn|lra]).
      lra. }
    destruct fuel as [|fuel]; [lia|].
    destruct (IH (S j) fuel (hl - ph)%Q) as (l & El & Hlen & Hpos).
    { lia. } { lia. } { rewrite inject_nat_succ. lra. }
    rewrite El. cbn [option_map]. eexists. split; [reflexivity|].
    split; [cbn [length]; lia|].
    intros [|k] p Hk; cbn in Hk.
    + injection Hk as <-. rewrite Nat.add_0_r. lra.
    + rewrite (Hpos k p Hk).
      replace (j + S k)%nat with (S j + k)%nat by lia. reflexivity.
Qed.

(** X21.  The exported document has one page more than the number of
    whole page heights (295 mm) that fit into the image: an image of
    height [H] with [n * 295 <= H < (n + 1) * 295] gives [n + 1] pages,
    the loop ending within [n] rounds, and page [k] (from 0) shows the
    image shifted up by [k] page heights.  An image exactly one page
    high therefore gives two pages. *)
Theorem export_page_count (imgHeight : Q) (n fuel : nat) :
  (nat_Q n * 295 <= imgHeight)%Q ->
  (imgHeight < (nat_Q n + 1) * 295)%Q ->
  (n <= fuel)%nat ->
  exists positions,
    pagePositions fuel imgHeight = Some positions
    /\ length positions = S n
    /\ forall k p, positions !! k = Some p -> (p == - (nat_Q k * 295))%Q.
Proof.
  intros Hlo Hhi Hfuel. unfold pagePositions, pageHeight.
  destruct (pageLoop_pages imgHeight 295 n ltac:(reflexivity) Hlo Hhi
              n 1%nat fuel (imgHeight - 295)%Q)
    as (l & El & Hlen & Hpos).
  { lia. } { exact Hfuel. }
  { change (nat_Q 1) with 1%Q. lra. }
  rewrite El. cbn [option_map]. eexists. split; [reflexivity|].
  split; [cbn [length]; lia|].
  intros [|k] p Hk; cbn in Hk.
  - injection Hk as <-. change (nat_Q 0) with 0%Q. lra.
  - rewrite (Hpos k p Hk). reflexivity.
Qed.

Lemma export_page_count_witness :
  exists positions,
    pagePositions 1 295 = Some positions /\ length positions = 2%nat.
Proof.
  destruct (export_page_count 295 1 1) as (ps & Hp & Hl & _).
  - discriminate.
  - reflexivity.
  - lia.
  - exists ps. split; assumption.
Defined.

End Pagination.

(** ** Sentence units *)

Section SentenceUnits.

Import Report Notions.

Lemma nonWhite_append (a b : string) :
  nonWhite (a +:+ b) = nonWhite a +:+ nonWhite b.
Proof.
  induction a as [|x a IH]; [reflexivity|].
  rewrite append_cons. cbn [nonWhite].
  destruct (isWhiteSpace x); rewrite IH; reflexivity.
Qed.

Lemma splitFrom_cons (inSeparator prevTerminator : bool) (acc : string)
    (c : ascii) (s : string) :
  splitFrom inSeparator prevTerminator acc (String c s)
  = if inSeparator && isWhiteSpace c then splitFrom true false acc s
    else if prevTerminator && isWhiteSpace c then
      acc :: splitFrom true false "" s
    else splitFrom false (isTerminator c) (acc +:+ String c "") s.
Proof. reflexivity. Qed.

Lemma splitFrom_nonWhite (s : string) :
  forall inSeparator prevTerminator acc,
    nonWhite (joinAll (splitFrom inSeparator prevTerminator acc s))
    = nonWhite (acc +:+ s).
Proof.
  induction s as [|c s IH]; intros inSep pt acc.
  - cbn [splitFrom joinAll fold_right]. rewrite append_empty_r. reflexivity.
  - rewrite splitFrom_cons.
    destruct (inSep && isWhiteSpace c) eqn:E1.
    + apply andb_true_iff in E1. destruct E1 as [_ Ec].
      rewrite IH, !nonWhite_append. cbn [nonWhite]. rewrite Ec. reflexivity.
    + destruct (pt && isWhiteSpace c) eqn:E2.
      * apply andb_true_iff in E2. destruct E2 as [_ Ec].
        change (joinAll (acc :: splitFrom true false "" s))
          with (acc +:+ joinAll (splitFrom true false "" s)).
        rewrite !nonWhite_append, IH. cbn [String.append nonWhite].
        rewrite Ec. reflexivity.
      * rewrite IH, append_assoc. reflexivity.
Qed.

(** X22.  Splitting a text into units loses nothing but white space:
    the units, written one after the other and stripped of white
    space, are the text stripped of white space. *)
Theorem splitSentences_keeps_text (text0 : string) :
  nonWhite (joinAll (splitSentences text0)) = nonWhite text0.
Proof. unfold splitSentences. apply splitFrom_nonWhite. Qed.

Lemma lastChar_append_char (acc : string) (c : ascii) :
  lastChar (acc +:+ String c "") = Some c.
Proof.
  induction acc as [|x acc IH]; [reflexivity|].
  change (String x acc +:+ String c "") with (String x (acc +:+ String c "")).
  cbn [lastChar]. rewrite IH.
  destruct (acc +:+ String c "") eqn:E; [|reflexivity].
  destruct acc; discriminate E.
Qed.

Lemma splitFrom_units_end (s : string) :
  forall inSeparator prevTerminator acc,
    (prevTerminator = true -> endsInTerminator acc = true) ->
    forall i u,
      splitFrom inSeparator prevTerminator acc s !! i = Some u ->
      (S i < length (splitFrom inSeparator prevTerminator acc s))%nat ->
      endsInTerminator u = true.
Proof.
  induction s as [|c s IH]; intros inSep pt acc Hacc i u Hi Hlen.
  - cbn in Hlen. lia.
  - rewrite splitFrom_cons in Hi, Hlen.
    destruct (inSep && isWhiteSpace c).
    + apply (IH true false acc ltac:(discriminate) i u Hi Hlen).
    + destruct (pt && isWhiteSpace c) eqn:E.
      * apply andb_true_iff in E. destruct E as [-> _].
        destruct i as [|i]; cbn in Hi, Hlen.
        -- injection Hi as <-. auto.
        -- apply (IH true false "" ltac:(discriminate) i u Hi). lia.
      * apply (IH false (isTerminator c) (acc +:+ String c "")) with (i := i);
          try assumption.
        intros Hc. unfold endsInTerminator.
        rewrite lastChar_append_char. exact Hc.
Qed.

Lemma startsWhite_append_char (acc : string) (c : ascii) :
  startsWhite (acc +:+ String c "")
  = match acc with
    | EmptyString => isWhiteSpace c
    | _ => startsWhite acc
    end.
Proof. destruct acc; reflexivity. Qed.

Lemma splitFrom_units_start (s : string) :
  forall inSeparator prevTerminator acc,
    (acc = "" -> inSeparator = true) ->
    startsWhite acc = false ->
    forall u,
      In u (splitFrom inSeparator prevTerminator acc s) ->
      startsWhite u = false.
Proof.
  induction s as [|c s IH]; intros inSep pt acc Hempty Hacc u Hu.
  - destruct Hu as [<- | []]. exact Hacc.
  - rewrite splitFrom_cons in Hu.
    destruct (inSep && isWhiteSpace c) eqn:E1.
    + apply andb_true_iff in E1. destruct E1 as [-> _].
      apply (IH true false acc); auto.
    + destruct (pt && isWhiteSpace c) eqn:E2.
      * destruct Hu as [<- | Hu]; [exact Hacc|].
        apply (IH true false ""); auto.
      * apply (IH false (isTerminator c) (acc +:+ String c "")); auto.
        -- intros E. destruct acc; discriminate E.
        -- rewrite startsWhite_append_char. destruct acc; [|exact Hacc].
           rewrite (Hempty eq_refl) in E1. exact E1.
Qed.

Lemma splitFrom_later_units_start (s : string) :
  forall inSeparator prevTerminator acc i u,
    splitFrom inSeparator prevTerminator acc s !! S i = Some u ->
    startsWhite u = false.
Proof.
  induction s as [|c s IH]; intros inSep pt acc i u Hi.
  - discriminate Hi.
  - rewrite splitFrom_cons in Hi.
    destruct (inSep && isWhiteSpace c); [exact (IH _ _ _ _ _ Hi)|].
    destruct (pt && isWhiteSpace c); [|exact (IH _ _ _ _ _ Hi)].
    cbn in Hi.
    apply (splitFrom_units_start s true false ""); auto.
    apply list_elem_of_In, list_elem_of_lookup. eauto.
Qed.

(** X23.  The shape of the units.  A text always splits into at least
    one unit; every unit but the last ends in one of [. ! ?]; and no
    unit after the first begins with white space. *)
Theorem splitSentences_unit_shape (text0 : string) :
  splitSentences text0 <> []
  /\ (forall i u, splitSentences text0 !! i = Some u ->
        (S i < length (splitSentences text0))%nat ->
        endsInTerminator u = true)
  /\ (forall i u, splitSentences text0 !! S i = Some u ->
        startsWhite u = false).
Proof.
  unfold splitSentences. split; [|split].
  - intros E.
    assert (forall s a b c, splitFrom a b c s <> []) as Hne.
    { clear. induction s as [|c s IH]; intros a b acc; [discriminate|].
      rewrite splitFrom_cons.
      destruct (a && isWhiteSpace c); [apply IH|].
      destruct (b && isWhiteSpace c); [discriminate|apply IH]. }
    exact (Hne _ _ _ _ E).
  - intros i u Hi Hlen.
    apply (splitFrom_units_end text0 false false "" ltac:(discriminate) i u);
      assumption.
  - intros i u Hi.
    exact (splitFrom_later_units_start text0 false false "" i u Hi).
Qed.

Lemma splitSentences_unit_shape_witness :
  endsInTerminator "One." = true /\ startsWhite "Two" = false.
Proof.
  destruct (splitSentences_unit_shape "One.  Two") as (_ & Hend & Hstart).
  split.
  - apply (Hend 0%nat "One."); [reflexivity|].
    change (1 < 2)%nat. lia.
  - apply (Hstart 0%nat "Two"). reflexivity.
Defined.

End SentenceUnits.

(** ** The order of the panes *)

Section PaneOrder.

Import Report Notions.

Context {A : Type} (key : A -> nat).

Lemma insertByKey_perm (x : A) (l : list A) :
  Permutation (insertByKey key x l) (x :: l).
Proof.
  induction l as [|y l IH]; simpl; [reflexivity|].
  destruct (key x <=? key y)%nat; [reflexivity|].
  rewrite IH. apply perm_swap.
Qed.

Lemma sortByKey_perm (l : list A) : Permutation (sortByKey key l) l.
Proof.
  induction l as [|x l IH]; simpl; [reflexivity|].
  rewrite insertByKey_perm, IH. reflexivity.
Qed.

Lemma insertByKey_sorted (x : A) (l : list A) :
  keySorted key l -> keySorted key (insertByKey key x l).
Proof.
  unfold keySorted. induction 1 as [|y l Hl IH Hy]; simpl.
  - constructor; constructor.
  - destruct (key x <=? key y)%nat eqn:E.
    + apply Nat.leb_le in E. constructor.
      * constructor; assumption.
      * constructor; [exact E|].
        apply List.Forall_forall. intros z Hz.
        pose proof (proj1 (List.Forall_forall _ _) Hy z Hz) as Hyz.
        cbn in Hyz. lia.
    + apply Nat.leb_gt in E. constructor; [exact IH|].
      apply List.Forall_forall. intros z Hz.
      apply in_insertByKey in Hz. destruct Hz as [-> | Hz]; [lia|].
      exact (proj1 (List.Forall_forall _ _) Hy z Hz).
Qed.

Lemma sortByKey_sorted (l : list A) : keySorted key (sortByKey key l).
Proof.
  induction l as [|x l IH]; simpl; [constructor|].
  apply insertByKey_sorted. exact IH.
Qed.

Lemma insertByKey_filter (x : A) (l : list A) (k : nat) :
  List.filter (fun y => key y =? k)%nat (insertByKey key x l)
  = if (key x =? k)%nat
    then x :: List.filter (fun y => key y =? k)%nat l
    else List.filter (fun y => key y =? k)%nat l.
Proof.
  induction l as [|y l IH]; simpl.
  - destruct (key x =? k)%nat; reflexivity.
  - destruct (key x <=? key y)%nat eqn:E; simpl.
    + destruct (key x =? k)%nat; reflexivity.
    + rewrite IH. apply Nat.leb_gt in E.
      destruct (key x =? k)%nat eqn:Ex; [|reflexivity].
      apply Nat.eqb_eq in Ex.
      assert ((key y =? k)%nat = false) as -> by (apply Nat.eqb_neq; lia).
      reflexivity.
Qed.

(** The sort is stable: among entries with the same key it keeps the
    order of the input. *)
Lemma sortByKey_stable (l : list A) (k : nat) :
  List.filter (fun y => key y =? k)%nat (sortByKey key l)
  = List.filter (fun y => key y =? k)%nat l.
Proof.
  induction l as [|x l IH]; simpl; [reflexivity|].
  rewrite insertByKey_filter, IH. reflexivity.
Qed.

Lemma keySorted_unique (l1 l2 : list A) :
  keySorted key l1 -> keySorted key l2 ->
  (forall k, List.filter (fun y => key y =? k)%nat l1
             = List.filter (fun y => key y =? k)%nat l2) ->
  l1 = l2.
Proof.
  unfold keySorted. intros H1. revert l2.
  induction H1 as [|x l1 Hs1 IH Hx]; intros l2 H2 Hf.
  - destruct l2 as [|y l2]; [reflexivity|].
    specialize (Hf (key y)). simpl in Hf. rewrite Nat.eqb_refl in Hf.
    discriminate Hf.
  - destruct H2 as [|y l2 Hs2 Hy].
    { specialize (Hf (key x)). simpl in Hf. rewrite Nat.eqb_refl in Hf.
      discriminate Hf. }
    assert (In x (y :: l2)) as Hxin.
    { pose proof (Hf (key x)) as E. simpl in E. rewrite Nat.eqb_refl in E.
      assert (In x (List.filter (fun z => key z =? key x)%nat (y :: l2)))
        as Hin by (simpl; rewrite <- E; left; reflexivity).
      apply filter_In in Hin. tauto. }
    assert (In y (x :: l1)) as Hyin.
    { pose proof (Hf (key y)) as E. simpl in E.
      rewrite (Nat.eqb_refl (key y)) in E.
      assert (In y (List.filter (fun z => key z =? key y)%nat (x :: l1)))
        as Hin by (simpl; rewrite E; left; reflexivity).
      apply filter_In in Hin. tauto. }
    assert (key x = key y) as Hk.
    { apply Nat.le_antisymm.
      - destruct Hyin as [<- | Hyin]; [lia|].
        exact (proj1 (List.Forall_forall _ _) Hx y Hyin).
      - destruct Hxin as [<- | Hxin]; [lia|].
        exact (proj1 (List.Forall_forall _ _) Hy x Hxin). }
    assert (x = y) as <-.
    { pose proof (Hf (key x)) as E. simpl in E.
      rewrite Nat.eqb_refl, <- Hk, Nat.eqb_refl in E. congruence. }
    f_equal. apply IH; [exact Hs2|].
    intros k. specialize (Hf k). simpl in Hf.
    destruct (key x =? k)%nat; congruence.
Qed.

Lemma sortByKey_unique (l1 l2 : list A) :
  (forall k, List.filter (fun y => key y =? k)%nat l1
             = List.filter (fun y => key y =? k)%nat l2) ->
  sortByKey key l1 = sortByKey key l2.
Proof.
  intros Hf. apply keySorted_unique; try apply sortByKey_sorted.
  intros k. rewrite !sortByKey_stable. apply Hf.
Qed.

Lemma sortByKey_of_sorted (l : list A) :
  keySorted key l -> sortByKey key l = l.
Proof.
  intros Hl. apply keySorted_unique; [apply sortByKey_sorted|exact Hl|].
  intros k. apply sortByKey_stable.
Qed.

Lemma keySorted_app (l1 l2 : list A) :
  keySorted key l1 -> keySorted key l2 ->
  (forall a b, In a l1 -> In b l2 -> (key a <= key b)%nat) ->
  keySorted key (l1 ++ l2).
Proof.
  unfold keySorted. intros H1 H2 H12.
  induction H1 as [|x l1 Hs IH Hx]; simpl; [exact H2|].
  constructor.
  - apply IH. intros a b Ha Hb. apply H12; [right|]; assumption.
  - apply Forall_app. split; [exact Hx|].
    apply List.Forall_forall. intros b Hb. apply H12; [left; reflexivity|exact Hb].
Qed.

Lemma keySorted_constant (l : list A) (k : nat) :
  (forall a, In a l -> key a = k) -> keySorted key l.
Proof.
  unfold keySorted. induction l as [|x l IH]; intros Hk; constructor.
  - apply IH. intros a Ha. apply Hk. right. exact Ha.
  - apply List.Forall_forall. intros b Hb.
    rewrite (Hk x (or_introl eq_refl)), (Hk b (or_intror Hb)). lia.
Qed.

End PaneOrder.

Section PaneSymmetry.

Import Report Notions.

Lemma collectSimilar_cells (segments1 segments2 : list string) :
  collectSimilar segments1 segments2
  = concat (imap (fun i seg1 =>
      concat (imap (fun j seg2 => pairCell i j seg1 seg2) segments2))
      segments1).
Proof. reflexivity. Qed.

Lemma map_imap {X Y Z} (g : Y -> Z) (f : nat -> X -> Y) (l : list X) :
  map g (imap f l) = imap (fun i x => g (f i x)) l.
Proof.
  revert f. induction l as [|x l IH]; intros f; [reflexivity|].
  rewrite !imap_cons. cbn [map]. rewrite IH. reflexivity.
Qed.

Lemma filter_concat {X} (p : X -> bool) (ls : list (list X)) :
  List.filter p (concat ls) = concat (map (List.filter p) ls).
Proof.
  induction ls as [|l ls IH]; [reflexivity|].
  cbn [concat map]. rewrite List.filter_app, IH. reflexivity.
Qed.

Lemma concat_imap_nil {X Y} (f : nat -> X -> list Y) (l : list X) :
  (forall i x, f i x = []) -> concat (imap f l) = [].
Proof.
  revert f. induction l as [|x l IH]; intros f Hf; [reflexivity|].
  rewrite imap_cons. cbn [concat]. rewrite Hf, IH; [reflexivity|].
  intros i y. apply Hf.
Qed.

Lemma concat_imap_single {X Y} (f : nat -> X -> list Y) (l : list X)
    (k : nat) :
  concat (imap (fun i x => if (i =? k)%nat then f i x else []) l)
  = match l !! k with
    | Some x => f k x
    | None => []
    end.
Proof.
  revert f k. induction l as [|x l IH]; intros f k; [reflexivity|].
  rewrite imap_cons. cbn [concat]. destruct k as [|k].
  - cbn [Nat.eqb]. rewrite concat_imap_nil; [apply app_nil_r|].
    intros i y. reflexivity.
  - cbn [Nat.eqb]. cbn [app].
    change (concat (imap (fun i y => if (i =? k)%nat
                                     then (fun i' => f (S i')) i y else []) l)
            = match l !! k with Some y => f (S k) y | None => [] end).
    apply (IH (fun i' => f (S i')) k).
Qed.

Lemma pairCell_indices (i j : nat) (u1 u2 : string) (m : SimilarSegment) :
  In m (pairCell i j u1 u2) -> text1Index m = i /\ text2Index m = j.
Proof.
  unfold pairCell. cbv zeta.
  destruct (numGt _ threshold); [|contradiction].
  intros [<- | []]. split; reflexivity.
Qed.

Lemma filter_all_or_none {X} (p : X -> bool) (l : list X) (b : bool) :
  (forall x, In x l -> p x = b) ->
  List.filter p l = if b then l else [].
Proof.
  intros Hp. induction l as [|x l IH]; [destruct b; reflexivity|].
  cbn [List.filter]. rewrite (Hp x (or_introl eq_refl)).
  rewrite IH by (intros y Hy; apply Hp; right; exact Hy).
  destruct b; reflexivity.
Qed.

Lemma row_indices (i : nat) (u1 : string) (segments2 : list string)
    (m : SimilarSegment) :
  In m (concat (imap (fun j u2 => pairCell i j u1 u2) segments2)) ->
  text1Index m = i.
Proof.
  intros Hm. apply in_concat in Hm. destruct Hm as (cell & Hcell & Hm).
  apply list_elem_of_In, elem_of_lookup_imap in Hcell.
  destruct Hcell as (j & u2 & -> & _).
  exact (proj1 (pairCell_indices _ _ _ _ _ Hm)).
Qed.

(** The collected pairs with a given position in the first text, in
    the order the matcher found them: the row of that unit. *)
Lemma collected_row (segments1 segments2 : list string) (k : nat) :
  List.filter (fun m => text1Index m =? k)%nat
    (collectSimilar segments1 segments2)
  = match segments1 !! k with
    | Some u1 => concat (imap (fun j u2 => pairCell k j u1 u2) segments2)
    | None => []
    end.
Proof.
  rewrite collectSimilar_cells, filter_concat, map_imap.
  rewrite <- (concat_imap_single
                (fun i u1 => concat (imap (fun j u2 => pairCell i j u1 u2)
                                          segments2)) segments1 k).
  f_equal. apply imap_ext. intros i u1 _.
  rewrite (filter_all_or_none _ _ (i =? k)%nat); [reflexivity|].
  intros m Hm. rewrite (row_indices _ _ _ _ Hm). reflexivity.
Qed.

(** The same pairs enumerated column by column. *)
Lemma collected_row_by_columns (segments1 segments2 : list string) (k : nat) :
  List.filter (fun m => text1Index m =? k)%nat
    (concat (imap (fun j u2 =>
       concat (imap (fun i u1 => pairCell i j u1 u2) segments1)) segments2))
  = match segments1 !! k with
    | Some u1 => concat (imap (fun j u2 => pairCell k j u1 u2) segments2)
    | None => []
    end.
Proof.
  rewrite filter_concat, map_imap.
  assert (forall j u2,
    List.filter (fun m => text1Index m =? k)%nat
      (concat (imap (fun i u1 => pairCell i j u1 u2) segments1))
    = match segments1 !! k with
      | Some u1 => pairCell k j u1 u2
      | None => []
      end) as Hcol.
  { intros j u2. rewrite filter_concat, map_imap.
    rewrite <- (concat_imap_single (fun i u1 => pairCell i j u1 u2)).
    f_equal. apply imap_ext. intros i u1 _.
    rewrite (filter_all_or_none _ _ (i =? k)%nat); [reflexivity|].
    intros m Hm. rewrite (proj1 (pairCell_indices _ _ _ _ _ Hm)).
    reflexivity. }
  rewrite (imap_ext _ (fun j u2 =>
             match segments1 !! k with
             | Some u1 => pairCell k j u1 u2
             | None => []
             end)) by (intros; apply Hcol).
  destruct (segments1 !! k); [reflexivity|].
  apply concat_imap_nil. reflexivity.
Qed.

Lemma pairCell_swap (i j : nat) (u1 u2 : string) :
  map swapSegment (pairCell j i u2 u1) = pairCell i j u1 u2.
Proof.
  unfold pairCell. cbv zeta.
  rewrite (calculateStringSimilarity_sym (Some u2) (Some u1)).
  destruct (numGt _ threshold); reflexivity.
Qed.

Lemma collectSimilar_swap (segments1 segments2 : list string) :
  map swapSegment (collectSimilar segments2 segments1)
  = concat (imap (fun j u2 =>
      concat (imap (fun i u1 => pairCell i j u1 u2) segments1)) segments2).
Proof.
  rewrite collectSimilar_cells, concat_map, map_imap.
  f_equal. apply imap_ext. intros j u2 _.
  rewrite concat_map, map_imap. f_equal.
  apply imap_ext. intros i u1 _. apply pairCell_swap.
Qed.

Lemma insertByKey_map {X Y} (key : Y -> nat) (f : X -> Y) (x : X)
    (l : list X) :
  insertByKey key (f x) (map f l)
  = map f (insertByKey (fun z => key (f z)) x l).
Proof.
  induction l as [|y l IH]; [reflexivity|]. cbn [map insertByKey].
  destruct (key (f x) <=? key (f y))%nat; [reflexivity|].
  rewrite IH. reflexivity.
Qed.

Lemma sortByKey_map {X Y} (key : Y -> nat) (f : X -> Y) (l : list X) :
  sortByKey key (map f l) = map f (sortByKey (fun z => key (f z)) l).
Proof.
  induction l as [|x l IH]; [reflexivity|].
  cbn [map sortByKey fold_right].
  fold (sortByKey key (map f l)). fold (sortByKey (fun z => key (f z)) l).
  rewrite IH. apply insertByKey_map.
Qed.

(** Sorting one run by the first position gives, up to the exchange of
    roles, what sorting the exchanged run by the second position
    gives. *)
Lemma sorted_pairs_swap (segments1 segments2 : list string) :
  sortByKey text1Index (collectSimilar segments1 segments2)
  = map swapSegment
      (sortByKey text2Index (collectSimilar segments2 segments1)).
Proof.
  change (sortByKey text2Index (collectSimilar segments2 segments1))
    with (sortByKey (fun z => text1Index (swapSegment z))
            (collectSimilar segments2 segments1)).
  rewrite <- sortByKey_map, collectSimilar_swap.
  apply sortByKey_unique. intros k.
  rewrite collected_row, collected_row_by_columns. reflexivity.
Qed.

Lemma process_panes (t1 t2 : string) (score : number) :
  processAndHighlightContent t1 t2 score
  = match collectSimilar (splitSentences t1) (splitSentences t2) with
    | [] =>
        if numGt score (Num 0)
        then ([ {| text := t1; isMatch := true; percentage := score |} ],
              [ {| text := t2; isMatch := true; percentage := score |} ])
        else ([], [])
    | _ =>
        (map firstPane
           (sortByKey text1Index
              (collectSimilar (splitSentences t1) (splitSentences t2))),
         map secondPane
           (sortByKey text2Index
              (collectSimilar (splitSentences t1) (splitSentences t2))))
    end.
Proof.
  destruct (collectSimilar (splitSentences t1) (splitSentences t2))
    as [|m l] eqn:E.
  - apply process_without_matches. exact E.
  - rewrite <- E. apply (process_with_matches t1 t2 score m).
    rewrite E. left. reflexivity.
Qed.

(** X24.  Exchanging the two texts exchanges the two panes: the first
    pane for [(t1, t2)] is the second pane for [(t2, t1)], segment for
    segment and in the same order, and the second pane for [(t1, t2)]
    is the first pane for [(t2, t1)]. *)
Theorem panes_swap (t1 t2 : string) (score : number) :
  fst (processAndHighlightContent t1 t2 score)
  = snd (processAndHighlightContent t2 t1 score)
  /\ snd (processAndHighlightContent t1 t2 score)
     = fst (processAndHighlightContent t2 t1 score).
Proof.
  assert (forall a b,
    fst (processAndHighlightContent a b score)
    = snd (processAndHighlightContent b a score)) as Hhalf.
  { intros a b. rewrite !process_panes.
    pose proof (sorted_pairs_swap (splitSentences a) (splitSentences b))
      as Hs.
    assert (length (collectSimilar (splitSentences a) (splitSentences b))
            = length (collectSimilar (splitSentences b) (splitSentences a)))
      as Hlen.
    { apply (f_equal (@length SimilarSegment)) in Hs.
      rewrite length_map, !length_sortByKey in Hs. exact Hs. }
    destruct (collectSimilar (splitSentences a) (splitSentences b))
      as [|m l] eqn:E1;
      destruct (collectSimilar (splitSentences b) (splitSentences a))
        as [|m' l'] eqn:E2; try discriminate Hlen.
    - destruct (numGt score (Num 0)); reflexivity.
    - cbn [fst snd]. rewrite Hs, map_map. reflexivity. }
  split; [apply Hhalf|]. symmetry. apply Hhalf.
Qed.

Lemma keySorted_rows (f : nat -> string -> list SimilarSegment)
    (l : list string) (base : nat) :
  (forall i x m, In m (f i x) -> text1Index m = (base + i)%nat) ->
  keySorted text1Index (concat (imap f l)).
Proof.
  revert f base. induction l as [|x l IH]; intros f base Hf.
  - constructor.
  - rewrite imap_cons. cbn [concat]. apply keySorted_app.
    + apply (keySorted_constant _ _ (base + 0)%nat).
      intros a Ha. exact (Hf 0%nat x a Ha).
    + apply (IH _ (S base)). intros i y m Hm.
      rewrite (Hf (S i) y m Hm). lia.
    + intros a b Ha Hb. rewrite (Hf 0%nat x a Ha).
      apply in_concat in Hb. destruct Hb as (row & Hrow & Hb).
      apply list_elem_of_In, elem_of_lookup_imap in Hrow.
      destruct Hrow as (i & y & -> & _).
      rewrite (Hf (S i) y b Hb). lia.
Qed.

(** X25.  The panes follow the order of the documents.  When pairs
    were collected, the first pane lists them exactly in the order the
    matcher found them, which is the order of their units in the first
    text; the second pane lists the same pairs, rearranged into the
    order of their units in the second text. *)
Theorem panes_in_document_order (t1 t2 : string) (score : number) :
  let collected :=
    collectSimilar (splitSentences t1) (splitSentences t2) in
  collected <> [] ->
  fst (processAndHighlightContent t1 t2 score) = map firstPane collected
  /\ keySorted text1Index collected
  /\ exists rearranged,
       snd (processAndHighlightContent t1 t2 score)
       = map secondPane rearranged
       /\ Permutation rearranged collected
       /\ keySorted text2Index rearranged.
Proof.
  cbv zeta. intros Hne.
  assert (keySorted text1Index
            (collectSimilar (splitSentences t1) (splitSentences t2)))
    as Hsorted.
  { rewrite collectSimilar_cells. apply (keySorted_rows _ _ 0).
    intros i u1 m Hm. exact (row_indices _ _ _ _ Hm). }
  rewrite process_panes.
  destruct (collectSimilar (splitSentences t1) (splitSentences t2))
    as [|m l] eqn:E; [contradiction|].
  cbn [fst snd]. rewrite (sortByKey_of_sorted _ _ Hsorted).
  split; [reflexivity|]. split; [exact Hsorted|].
  eexists. split; [reflexivity|].
  split; [apply sortByKey_perm|apply sortByKey_sorted].
Qed.

Lemma panes_in_document_order_witness :
  fst (processAndHighlightContent "Hi. Yo." "Yo. Hi." (Num 30))
  = map firstPane (collectSimilar ["Hi."; "Yo."] ["Yo."; "Hi."]).
Proof.
  apply (panes_in_document_order "Hi. Yo." "Yo. Hi." (Num 30)).
  discriminate.
Defined.

End PaneSymmetry.

Section Workspace.

Import Checker.

Lemma includes_In (l : list Z) (x : Z) : includes l x = true <-> In x l.
Proof.
  unfold includes. rewrite existsb_exists. split.
  - intros (y & Hy & E). apply Z.eqb_eq in E. subst y. exact Hy.
  - intros Hx. exists x. split; [exact Hx|apply Z.eqb_refl].
Qed.

(** X26.  A click on a submission row flips its membership in the
    selection and nothing else: the clicked id is selected afterwards
    exactly when it was not before, every other id keeps its status,
    and a selection without repetitions stays without repetitions. *)
Theorem toggle_flips_membership (submissionId : Z) (sel : list Z) :
  let sel' := toggleSubmissionSelection submissionId sel sel in
  (In submissionId sel' <-> ~ In submissionId sel)
  /\ (forall other, other <> submissionId ->
        (In other sel' <-> In other sel))
  /\ (List.NoDup sel -> List.NoDup sel').
Proof.
  cbv zeta. unfold toggleSubmissionSelection.
  destruct (includes sel submissionId) eqn:E.
  - apply includes_In in E. split; [|split].
    + rewrite List.filter_In, Z.eqb_refl. cbn. split.
      * intros [_ H]. discriminate H.
      * intros H. contradiction.
    + intros other Hne. rewrite List.filter_In. split.
      * intros [H _]. exact H.
      * intros H. split; [exact H|].
        apply negb_true_iff, Z.eqb_neq. exact Hne.
    + intros Hnd. apply List.NoDup_filter. exact Hnd.
  - assert (~ In submissionId sel) as Hnot.
    { intros H. apply includes_In in H. congruence. }
    split; [|split].
    + rewrite in_app_iff. split; [intros _; exact Hnot|].
      intros _. right. left. reflexivity.
    + intros other Hne. rewrite in_app_iff. split.
      * intros [H | [H | []]]; [exact H|congruence].
      * intros H. left. exact H.
    + intros Hnd. apply NoDup_ListNoDup, NoDup_app.
      split; [apply NoDup_ListNoDup; exact Hnd|]. split.
      * intros x Hx Hx'. apply list_elem_of_singleton in Hx'. subst x.
        apply Hnot, list_elem_of_In. exact Hx.
      * apply NoDup_singleton.
Qed.

Lemma toggle_flips_membership_witness :
  List.NoDup (toggleSubmissionSelection 55 [54; 55; 56] [54; 55; 56])%Z.
Proof.
  apply (toggle_flips_membership 55 [54; 55; 56])%Z.
  repeat constructor; cbn; intuition discriminate.
Defined.

(** X27.  A click on a row of the existing assignments changes only
    the [selected] flag, and only of the rows with the clicked id: the
    list keeps its length and its ids, a row with another id is kept as
    it is, a row with the clicked id gets the opposite flag; a second
    click on the same row restores the list. *)
Theorem toggleAssignmentSelection_involutive (assignmentId : Z)
    (rows : list Assignment) :
  toggleAssignmentSelection assignmentId
    (toggleAssignmentSelection assignmentId rows) = rows
  /\ map id (toggleAssignmentSelection assignmentId rows) = map id rows
  /\ forall i row,
       rows !! i = Some row ->
       exists row',
         toggleAssignmentSelection assignmentId rows !! i = Some row'
         /\ title row' = title row
         /\ uploaded_at row' = uploaded_at row
         /\ selected row'
            = if Z.eqb (id row) assignmentId then negb (selected row)
              else selected row.
Proof.
  unfold toggleAssignmentSelection. split; [|split].
  - rewrite map_map. rewrite <- (map_id rows) at 2.
    apply map_ext. intros [i t u b]. cbn [id].
    destruct (Z.eqb i assignmentId) eqn:E; cbn [id title uploaded_at selected].
    + rewrite E, negb_involutive. reflexivity.
    + rewrite E. reflexivity.
  - rewrite map_map. apply map_ext. intros row.
    destruct (Z.eqb (id row) assignmentId); reflexivity.
  - intros i row Hrow. eexists. split.
    + rewrite list_lookup_fmap, Hrow. reflexivity.
    + destruct (Z.eqb (id row) assignmentId); repeat split; reflexivity.
Qed.

Lemma toggleAssignmentSelection_involutive_witness :
  exists row',
    toggleAssignmentSelection 3
      [mkAssignment 3 (Some "essay") None false] !! 0%nat = Some row'
    /\ title row' = Some "essay"
    /\ uploaded_at row' = None
    /\ selected row' = true.
Proof.
  exact (proj2 (proj2 (toggleAssignmentSelection_involutive 3
                         [mkAssignment 3 (Some "essay") None false]))
           0%nat (mkAssignment 3 (Some "essay") None false) eq_refl).
Defined.

Lemma promiseAll_length {A} (ps : list (option A)) (results : list A) :
  promiseAll ps = Some results -> length results = length ps.
Proof.
  revert results. induction ps as [|p ps IH]; intros results H.
  - injection H as <-. reflexivity.
  - cbn [promiseAll] in H. destruct p as [a|]; [|discriminate].
    destruct (promiseAll ps) as [rs|]; [|discriminate].
    injection H as <-. cbn [length]. rewrite (IH rs eq_refl). reflexivity.
Qed.

Lemma promiseAll_rejected {A} (ps : list (option A)) :
  In None ps -> promiseAll ps = None.
Proof.
  induction ps as [|p ps IH]; [contradiction|].
  intros [-> | H]; [reflexivity|].
  cbn [promiseAll]. rewrite (IH H). destruct p; reflexivity.
Qed.





(** X29.  A failed upload is passed over in silence when enough
    existing assignments are selected.  With the compare button of the
    assignments tab enabled, files chosen and one of the uploads
    rejected, every file is still posted, the list is not refreshed,
    and the compare call is sent exactly when at least two existing
    assignments are selected; it then carries their ids only, none of
    the files. *)
Theorem failed_upload_compares_existing_only (srv : backend) (s : State)
    (i : nat) (name : string) :
  (String.eqb (activeTab s) "submissions"
   && (2 <=? length (selectedSubmissions s))%nat) = false ->
  compareAssignmentsDisabled s = false ->
  files s !! i = Some name ->
  srv i name = None ->
  let chosen := List.filter selected (existingAssignments s) in
  checkAssignmentSimilarity srv s
  = map PostUpload (files s)
    ++ (if (length chosen <? 2)%nat then []
        else [PostCompare (map (fun a => Some (id a)) chosen)]).
Proof.
  intros Htab Henabled Hfile Hsrv. cbv zeta.
  unfold compareAssignmentsDisabled in Henabled.
  unfold checkAssignmentSimilarity. rewrite Htab. cbv zeta.
  rewrite Henabled.
  assert (0 < length (files s))%nat as Hpos.
  { apply lookup_lt_Some in Hfile. lia. }
  assert (uploadFiles srv s = ([], map PostUpload (files s))) as Hup.
  { unfold uploadFiles.
    destruct (length (files s) =? 0)%nat eqn:E0;
      [apply Nat.eqb_eq in E0; lia|].
    cbv zeta. rewrite promiseAll_rejected; [reflexivity|].
    apply list_elem_of_In, elem_of_lookup_imap.
    exists i, name. split; [symmetry; exact Hsrv|exact Hfile]. }
  destruct (0 <? length (files s))%nat eqn:Epos;
    [|apply Nat.ltb_ge in Epos; lia].
  rewrite Hup. cbn [length map Nat.eqb andb app].
  destruct (length (List.filter selected (existingAssignments s)) <? 2)%nat
    eqn:Echosen.
  - rewrite app_nil_r. reflexivity.
  - rewrite length_map, Echosen. reflexivity.
Qed.

Lemma failed_upload_compares_existing_only_witness :
  checkAssignmentSimilarity (fun _ _ => None)
    {| files := ["draft.txt"];
       existingAssignments :=
         [mkAssignment 3 (Some "essay") None true;
          mkAssignment 4 (Some "report") None true];
       activeTab := "compareAssignments";
       selectedSubmissions := [] |}
  = [PostUpload "draft.txt"; PostCompare [Some 3%Z; Some 4%Z]].
Proof.
  apply (failed_upload_compares_existing_only (fun _ _ => None)
           {| files := ["draft.txt"];
              existingAssignments :=
                [mkAssignment 3 (Some "essay") None true;
                 mkAssignment 4 (Some "report") None true];
              activeTab := "compareAssignments";
              selectedSubmissions := [] |} 0 "draft.txt");
    reflexivity.
Defined.

Lemma numGe_threshold_mono (n : number) (low high : Q) :
  (low <= high)%Q ->
  numGe n (Num high) = true -> numGe n (Num low) = true.
Proof.
  intros Hle. destruct n as [| | |x]; try (intros H; exact H).
  rewrite !numGe_Num. intros H. lra.
Qed.

(** X30.  Moving the threshold slider up only removes rows.  For
    thresholds [low <= high], the rows displayed at [high] are the
    rows displayed at [low] filtered once more at [high]; so every row
    displayed at [high] is displayed at [low], in the same order, and
    there are no more of them. *)
Theorem raising_threshold_only_removes (low high : Q)
    (results : option (list Workspace.ComparisonResult)) :
  (low <= high)%Q ->
  Workspace.filterResults (Num high) results
  = Workspace.filterResults (Num high)
      (Some (Workspace.filterResults (Num low) results))
  /\ (length (Workspace.filterResults (Num high) results)
      <= length (Workspace.filterResults (Num low) results))%nat.
Proof.
  intros Hle.
  assert (Workspace.filterResults (Num high) results
          = Workspace.filterResults (Num high)
              (Some (Workspace.filterResults (Num low) results))) as Heq.
  { destruct results as [rs|]; [|reflexivity].
    unfold Workspace.filterResults.
    induction rs as [|r rs IH]; [reflexivity|]. cbn [List.filter].
    destruct (numGe (toNumber (Workspace.similarityScoreOf r)) (Num high))
      eqn:Eh.
    - rewrite (numGe_threshold_mono _ low high Hle Eh).
      cbn [List.filter]. rewrite Eh, IH. reflexivity.
    - destruct (numGe (toNumber (Workspace.similarityScoreOf r)) (Num low));
        [cbn [List.filter]; rewrite Eh|]; exact IH. }
  split; [exact Heq|]. rewrite Heq.
  unfold Workspace.filterResults at 1. apply List.filter_length_le.
Qed.

Lemma raising_threshold_only_removes_witness :
  (length (Workspace.filterResults (Num 50)
             (Some [WorkspaceExamples.twoScores; WorkspaceExamples.webRow]))
   <= length (Workspace.filterResults (Num 5)
                (Some [WorkspaceExamples.twoScores;
                       WorkspaceExamples.webRow])))%nat.
Proof.
  apply (raising_threshold_only_removes 5 50
           (Some [WorkspaceExamples.twoScores; WorkspaceExamples.webRow])).
  unfold Qle. cbn. lia.
Defined.

End Workspace.
